(** * PointCloud_Visualizer: a shallow embedding of the loaders and visualizers

    The repository consists of four variants of a [PointCloudVisualizer]
    class (Open3D, PyVista, Plotly with class colours, Plotly with two SVM
    planes) and two utility functions ([read_npy_file], [get_xyz_ranges]).

    Modelling conventions.
    - The float64 values the code computes with (the coefficients of a
      plane, the samples of a grid, the components of a colour) are Rocq's
      primitive floats: IEEE 754 binary64, rounded to nearest even, with
      the infinities and nan, as numpy's and Python's are.
    - The coordinates of a file, which the code copies, selects and
      compares but never computes with, are modelled by the rationals they
      equal ([Q]); [f64_of_Q] gives the float64 back where a coordinate
      enters a computation.
    - A one-dimensional array is a list, a two-dimensional array is the list
      of its rows.
    - Python exceptions are values; a computation returns an [outcome] and
      the state it leaves behind, so that what an exception leaves in place
      can be stated.
    - Calls into third-party libraries that only consume data (rendering,
      printing, fitting) are recorded in a log of [event]s.  Where a library
      refuses its input (a numpy reduction of an empty array, sklearn's
      checks of a training set, PyVista on a cloud without points), the
      exception it raises is modelled.  What a library computes and cannot
      be read off the repository (the content of a file, the SVM solver,
      the colour table) is a [Variable] of the enclosing [Section]. *)

From Stdlib Require Import ZArith QArith Lia String List Sorted Floats.
From stdpp Require Import gmap strings list fin_maps pretty.

Local Open Scope Z_scope.
Local Open Scope string_scope.

(** ** Python exceptions *)

Module Py.

(** The part of the built-in hierarchy the code can meet.  Only the first
    four are outside [Exception]. *)
Inductive exc_class :=
  | BaseException | SystemExit | KeyboardInterrupt | GeneratorExit
  | Exception | ValueError | IndexError | KeyError | TypeError
  | OSError | FileNotFoundError | MemoryError | EOFError.

(** [issubclass(c, Exception)] *)
Definition is_Exception (c : exc_class) : bool :=
  match c with
  | BaseException | SystemExit | KeyboardInterrupt | GeneratorExit => false
  | _ => true
  end.

Record exception := { exc_type : exc_class; exc_str : string }.

Inductive outcome (A : Type) :=
  | Ok (a : A)
  | Raise (e : exception).
Arguments Ok {A} a.
Arguments Raise {A} e.

Definition raises {A} (o : outcome A) (c : exc_class) : Prop :=
  exists msg, o = Raise {| exc_type := c; exc_str := msg |}.

Definition is_ok {A} (o : outcome A) : bool :=
  match o with Ok _ => true | Raise _ => false end.

(** Pure fallible code: the error monad. *)
Definition obind {A B} (o : outcome A) (k : A -> outcome B) : outcome B :=
  match o with
  | Ok a => k a
  | Raise e => Raise e
  end.

End Py.
Export Py.

(** ** The world outside the process and the state monad *)

Record marker := { size : Z; color : string; opacity : Q }.

Record scene := { xaxis_title : string; yaxis_title : string; zaxis_title : string }.

Record layout :=
  { layout_scene : scene; margin : Z * Z * Z * Z; showlegend : bool }.

Inductive trace :=
  | Scatter3d (x y z : list Q) (mode : string) (mk : marker) (name : string)
  | Surface (x y z : list (list float)) (surf_opacity : Q)
            (colorscale : string) (showscale : bool) (name : string).

Record figure := { data : list trace; fig_layout : option layout }.

Record pv_points :=
  { pv_cloud : list (list Q); pv_color : string; pv_point_size : Z;
    pv_spheres : bool }.

Inductive event :=
  | Print (line : string)
  | SvcFit (kernel : string) (X : list (list Q)) (y : list Z)
  | O3dDrawGeometries (clouds : list (list (list Q)))
  | PvShow (actors : list pv_points) (background : string)
  | PioShow (fig : figure).

(** The state of a run: the object a method is called on and the log of
    library calls.  A module-level function runs with [Self := unit]. *)
Record heap (Self : Type) := { self : Self; log : list event }.
Arguments self {Self} h.
Arguments log {Self} h.

Definition M (Self A : Type) : Type := heap Self -> outcome A * heap Self.

Section Monad.
Context {Self : Type}.

Definition ret {A} (a : A) : M Self A := fun h => (Ok a, h).

Definition bind {A B} (m : M Self A) (k : A -> M Self B) : M Self B :=
  fun h => match m h with
           | (Ok a, h') => k a h'
           | (Raise e, h') => (Raise e, h')
           end.

Definition raise {A} (c : exc_class) (msg : string) : M Self A :=
  fun h => (Raise {| exc_type := c; exc_str := msg |}, h).

Definition lift {A} (o : outcome A) : M Self A := fun h => (o, h).

Definition get_self : M Self Self := fun h => (Ok (self h), h).

Definition set_self (s : Self) : M Self unit :=
  fun h => (Ok tt, {| self := s; log := log h |}).

Definition emit (ev : event) : M Self unit :=
  fun h => (Ok tt, {| self := self h; log := log h ++ [ev] |}).

(** [for x in l: acc = body x acc] *)
Fixpoint for_each {A B} (l : list A) (body : A -> B -> M Self B) (acc : B)
  : M Self B :=
  match l with
  | [] => ret acc
  | a :: l' => bind (body a acc) (for_each l' body)
  end.

(** A computation that leaves the object it runs on as it found it,
  whatever its outcome. *)
Definition read_only {A} (m : M Self A) : Prop :=
  forall h, self (m h).2 = self h.

(** A computation none of whose exceptions satisfies [P]. *)
Definition never_raises {A} (P : exception -> Prop) (m : M Self A) : Prop :=
  forall h e, (m h).1 = Raise e -> ~ P e.

End Monad.

(** The same for code without state. *)
Definition never_fails_with {A} (P : exception -> Prop) (o : outcome A) : Prop :=
  forall e, o = Raise e -> ~ P e.

Declare Scope py_scope.
Delimit Scope py_scope with py.
Notation "x <- m ;; k" := (bind m (fun x => k))
  (at level 100, m at next level, right associativity) : py_scope.
Notation "m ;;; k" := (bind m (fun _ => k))
  (at level 100, right associativity) : py_scope.
Local Open Scope py_scope.

(** ** The part of numpy the code uses *)

Module np.

Definition array2 := list (list Q).

(** [np.vstack]: the rows must have one length. *)
Definition vstack (rows : list (list Q)) : outcome array2 :=
  match rows with
  | [] => Raise {| exc_type := ValueError; exc_str := "need at least one array to concatenate" |}
  | r :: rest =>
      if forallb (fun r' => Nat.eqb (length r') (length r)) rest
      then Ok rows
      else Raise {| exc_type := ValueError;
                    exc_str := "all the input array dimensions except for the concatenation axis must match exactly" |}
  end.

(** [.transpose()] of a two-dimensional array with at least one row. *)
Fixpoint transpose (m : array2) : array2 :=
  match m with
  | [] => []
  | [r] => map (fun a => [a]) r
  | r :: m' => zip_with cons r (transpose m')
  end.

(** [np.isin(arr, values)] *)
Definition isin (arr : list Z) (values : list Z) : list bool :=
  map (fun c => existsb (Z.eqb c) values) arr.

(** [arr[mask]] for a boolean mask. *)
Fixpoint select {A} (arr : list A) (mask : list bool) : list A :=
  match arr, mask with
  | a :: arr', b :: mask' => if b then a :: select arr' mask' else select arr' mask'
  | _, _ => []
  end.

Definition mask_index {A} (arr : list A) (mask : list bool) : outcome (list A) :=
  if Nat.eqb (length mask) (length arr) then Ok (select arr mask)
  else Raise {| exc_type := IndexError;
                exc_str := "boolean index did not match indexed array along axis 0" |}.

(** [np.where(cond)]: the positions at which [cond] holds, increasing. *)
Fixpoint where_from (i : nat) (cond : list bool) : list nat :=
  match cond with
  | [] => []
  | b :: cond' => if b then i :: where_from (S i) cond' else where_from (S i) cond'
  end.
Definition where_ (cond : list bool) : list nat := where_from 0 cond.

(** [np.where(cond, a, b)] *)
Definition where3 {A} (cond : list bool) (a b : A) : list A :=
  map (fun c : bool => if c then a else b) cond.

(** [arr == v], elementwise *)
Definition eq_scalar (arr : list Z) (v : Z) : list bool :=
  map (fun c => Z.eqb c v) arr.

(** [arr[indices]] for an array of integer positions. *)
Fixpoint take_indices {A} (arr : list A) (idx : list nat) : outcome (list A) :=
  match idx with
  | [] => Ok []
  | i :: idx' =>
      match arr !! i with
      | Some a => obind (take_indices arr idx') (fun r => Ok (a :: r))
      | None => Raise {| exc_type := IndexError; exc_str := "index out of bounds" |}
      end
  end.

(** [m[:, j]] *)
Fixpoint column (j : nat) (m : array2) : outcome (list Q) :=
  match m with
  | [] => Ok []
  | r :: m' =>
      match r !! j with
      | Some a => obind (column j m') (fun c => Ok (a :: c))
      | None => Raise {| exc_type := IndexError; exc_str := "index is out of bounds for axis 1" |}
      end
  end.

(** [np.unique]: the distinct values, increasing. *)
Fixpoint insert_sorted (v : Z) (l : list Z) : list Z :=
  match l with
  | [] => [v]
  | w :: l' =>
      if Z.ltb v w then v :: l
      else if Z.eqb v w then l
      else w :: insert_sorted v l'
  end.
Definition unique (arr : list Z) : list Z := fold_right insert_sorted [] arr.

Definition qmin (a b : Q) : Q := if Qle_bool a b then a else b.
Definition qmax (a b : Q) : Q := if Qle_bool a b then b else a.

(** [np.min] and [np.max] have no identity: an empty array is refused. *)
Definition min (arr : list Q) : outcome Q :=
  match arr with
  | [] => Raise {| exc_type := ValueError;
                   exc_str := "zero-size array to reduction operation minimum which has no identity" |}
  | a :: arr' => Ok (fold_left qmin arr' a)
  end.
Definition max (arr : list Q) : outcome Q :=
  match arr with
  | [] => Raise {| exc_type := ValueError;
                   exc_str := "zero-size array to reduction operation maximum which has no identity" |}
  | a :: arr' => Ok (fold_left qmax arr' a)
  end.

(** [np.arange(0, num)] as float64: the float of a small integer. *)
Definition f64_of_nat (i : nat) : float :=
  PrimFloat.of_uint63 (Uint63.of_Z (Z.of_nat i)).

(** [np.linspace(start, stop, num)] with the end point included, as numpy
    computes it: [delta = stop - start] and [step = delta / div] with
    [div = num - 1]; the samples are [arange(0, num) * step + start], or
    [arange(0, num) / div * delta + start] where the step is zero, and the
    last sample is then overwritten with [stop]. *)
Definition linspace (start stop : float) (num : nat) : list float :=
  let div := (num - 1)%nat in
  let delta := (stop - start)%float in
  let y := map f64_of_nat (seq 0 num) in
  let y :=
    if Nat.ltb 0 div then
      let step := (delta / f64_of_nat div)%float in
      if (step =? 0)%float
      then map (fun v => (v / f64_of_nat div * delta)%float) y
      else map (fun v => (v * step)%float) y
    else map (fun v => (v * delta)%float) y in
  let y := map (fun v => (v + start)%float) y in
  if Nat.ltb 1 num then <[div := stop]> y else y.

(** [np.meshgrid(x, y)], default indexing: one row per element of [y]. *)
Definition meshgrid {A} (x y : list A) : list (list A) * list (list A) :=
  (map (fun _ => x) y, map (fun yi => map (fun _ => yi) x) y).

End np.

(** [try: body except Exception as e: handler e].  The clause names the
    class [Exception]: an exception outside it is not caught. *)
Definition try_except_Exception {Self A : Type}
    (body : M Self A) (handler : exception -> M Self A) : M Self A :=
  fun h => match body h with
           | (Ok a, h') => (Ok a, h')
           | (Raise e, h') =>
               if is_Exception (exc_type e) then handler e h' else (Raise e, h')
           end.

(** ** The content of a .las file, as laspy presents it *)

(** A LAS file is a sequence of point records; [las.x], [las.y], [las.z]
    and [las.classification] are its columns. *)
Record las_point := { px : Q; py : Q; pz : Q; pclass : Z }.
Record las_data := { las_points : list las_point }.

Definition las_x (las : las_data) : list Q := map px (las_points las).
Definition las_y (las : las_data) : list Q := map py (las_points las).
Definition las_z (las : las_data) : list Q := map pz (las_points las).
Definition las_classification (las : las_data) : list Z :=
  map pclass (las_points las).

(** ** utils/read_npy_file.py *)

Module ReadNpy.
Section ReadNpy.
Variable ndarray : Type.
(** [np.load]: what the file system holds at a path. *)
Variable np_load : string -> outcome ndarray.

Definition read_npy_file (file_path : string) : M unit (option ndarray) :=
  try_except_Exception
    (data <- lift (np_load file_path) ;;
     ret (Some data))
    (fun e =>
       emit (Print ("An error occurred: " ++ exc_str e)) ;;;
       ret None).

End ReadNpy.
End ReadNpy.

(** ** utils/utils_range.py *)

Module UtilsRange.
Section UtilsRange.
(** [laspy.read]: what the file system holds at a path. *)
Variable laspy_read : string -> outcome las_data.

Definition get_xyz_ranges (file_path : string) : M unit (gmap string (Q * Q)) :=
  las <- lift (laspy_read file_path) ;;
  let x := las_x las in
  let y := las_y las in
  let z := las_z las in
  x_min <- lift (np.min x) ;;
  x_max <- lift (np.max x) ;;
  y_min <- lift (np.min y) ;;
  y_max <- lift (np.max y) ;;
  z_min <- lift (np.min z) ;;
  z_max <- lift (np.max z) ;;
  ret (<["z_range" := (z_min, z_max)]>
       (<["y_range" := (y_min, y_max)]>
        (<["x_range" := (x_min, x_max)]> ∅))).

End UtilsRange.
End UtilsRange.

(** ** Built-in operations on sequences and dictionaries *)

(** [seq[i]] *)
Definition getitem {A} (l : list A) (i : nat) : outcome A :=
  match l !! i with
  | Some a => Ok a
  | None => Raise {| exc_type := IndexError; exc_str := "index out of range" |}
  end.

(** [a, b, c = w] *)
Definition unpack3 {A} (w : list A) : outcome (A * A * A) :=
  match w with
  | [a; b; c] => Ok (a, b, c)
  | _ => Raise {| exc_type := ValueError; exc_str := "wrong number of values to unpack (expected 3)" |}
  end.

(** [d[k]] *)
Definition dict_getitem `{Countable K} {V} (d : gmap K V) (k : K) : outcome V :=
  match d !! k with
  | Some v => Ok v
  | None => Raise {| exc_type := KeyError; exc_str := "key not found" |}
  end.

(** [{k: v for ...}]: a later binding of a key replaces an earlier one. *)
Definition dict_of `{Countable K} {V} (items : list (K * V)) : gmap K V :=
  fold_left (fun d kv => <[kv.1 := kv.2]> d) items ∅.

(** [int(v)] for a float64: truncation towards zero.  The code applies it
    to [component * 255] for a component of a matplotlib colour, a float
    in [0, 1]; on an infinity or nan, which [int] refuses and a colormap
    does not return, the model gives 0. *)
Definition int_of (v : float) : Z :=
  match Prim2SF v with
  | S754_finite s m e =>
      let n := if Z.leb 0 e then Zpos m * 2 ^ e else Zpos m / 2 ^ (- e) in
      if s then - n else n
  | _ => 0
  end.

(** ['rgb({},{},{})'.format(r, g, b)] *)
Definition format_rgb (r g b : Z) : string :=
  "rgb(" ++ pretty r ++ "," ++ pretty g ++ "," ++ pretty b ++ ")".

Definition not_loaded_msg : string :=
  "No point cloud loaded. Please run `load_las_file()` first.".

(** The exception of the check that opens every [visualize]. *)
Definition not_loaded_error : exception :=
  {| exc_type := ValueError; exc_str := not_loaded_msg |}.

(** The row of the coordinate array that a point record gives. *)
Definition row_of (p : las_point) : list Q := [px p; py p; pz p].

(** The coordinate array has as many rows as there are labels. *)
Definition rows_match_labels (point_cloud : option (list (list Q)))
    (point_classes : option (list Z)) : Prop :=
  exists rows labels,
    point_cloud = Some rows /\ point_classes = Some labels /\
    length rows = length labels.

(** The stored array holds the points of the file, in the order of the file. *)
Definition in_file_order (las : las_data) (point_cloud : option (list (list Q))) : Prop :=
  exists rows,
    point_cloud = Some rows /\
    length rows = length (las_points las) /\
    forall (i : nat) (xi yi zi : Q),
      las_x las !! i = Some xi -> las_y las !! i = Some yi ->
      las_z las !! i = Some zi ->
      rows !! i = Some [xi; yi; zi].

(** ** PointCloudVisualizer.py: the Open3D variant *)

Module Open3dVariant.

Record PointCloudVisualizer :=
  { file_path : string; point_cloud : option np.array2 }.

Inductive method_call := CallVisualize.

Definition init (file_path : string) : PointCloudVisualizer :=
  {| file_path := file_path; point_cloud := None |}.

Section Methods.
Variable laspy_read : string -> outcome las_data.

Definition load_las_file : M PointCloudVisualizer unit :=
  s <- get_self ;;
  las <- lift (laspy_read (file_path s)) ;;
  stacked <- lift (np.vstack [las_x las; las_y las; las_z las]) ;;
  let points := np.transpose stacked in
  s <- get_self ;;
  set_self {| file_path := file_path s; point_cloud := Some points |}.

Definition visualize : M PointCloudVisualizer unit :=
  s <- get_self ;;
  match point_cloud s with
  | None => raise ValueError not_loaded_msg
  | Some pc => emit (O3dDrawGeometries [pc])
  end.

(** What a caller can do with a visualizer once it is loaded; an exception
    of a call is caught by the caller, which goes on. *)
Definition call (c : method_call) (h : heap PointCloudVisualizer)
  : heap PointCloudVisualizer :=
  match c with
  | CallVisualize => (visualize h).2
  end.

Definition calls (cs : list method_call) (h : heap PointCloudVisualizer)
  : heap PointCloudVisualizer :=
  fold_left (fun h c => call c h) cs h.

End Methods.
End Open3dVariant.

(** ** PointCloudVisualizer_laspy.py: the PyVista variant *)

Module PyVistaVariant.

Record PointCloudVisualizer :=
  { file_path : string; point_cloud : option np.array2 }.

Inductive method_call := CallVisualize.

Definition init (file_path : string) : PointCloudVisualizer :=
  {| file_path := file_path; point_cloud := None |}.

Section Methods.
Variable laspy_read : string -> outcome las_data.

Definition load_las_file : M PointCloudVisualizer unit :=
  s <- get_self ;;
  las <- lift (laspy_read (file_path s)) ;;
  stacked <- lift (np.vstack [las_x las; las_y las; las_z las]) ;;
  let points := np.transpose stacked in
  s <- get_self ;;
  set_self {| file_path := file_path s; point_cloud := Some points |}.

(** [plotter.add_points(cloud, ...)]: PyVista refuses a mesh without
    points with a [ValueError]. *)
Definition pv_add_points (cloud : np.array2) (color : string) (point_size : Z)
    (render_points_as_spheres : bool) : outcome pv_points :=
  match cloud with
  | [] => Raise {| exc_type := ValueError;
                   exc_str := "Empty meshes cannot be plotted. Input mesh has zero points." |}
  | _ => Ok {| pv_cloud := cloud; pv_color := color;
               pv_point_size := point_size;
               pv_spheres := render_points_as_spheres |}
  end.

Definition visualize : M PointCloudVisualizer unit :=
  s <- get_self ;;
  match point_cloud s with
  | None => raise ValueError not_loaded_msg
  | Some pc =>
      let cloud := pc in
      actor <- lift (pv_add_points cloud "white" 2 true) ;;
      emit (PvShow [actor] "black")
  end.

(** What a caller can do with a visualizer once it is loaded; an exception
    of a call is caught by the caller, which goes on. *)
Definition call (c : method_call) (h : heap PointCloudVisualizer)
  : heap PointCloudVisualizer :=
  match c with
  | CallVisualize => (visualize h).2
  end.

Definition calls (cs : list method_call) (h : heap PointCloudVisualizer)
  : heap PointCloudVisualizer :=
  fold_left (fun h c => call c h) cs h.

End Methods.
End PyVistaVariant.

(** ** What the two Plotly variants share *)

(** [np.unique(self.point_classes)].  Before a file is loaded the attribute
    is [None], which numpy wraps into a one-element array of objects; a
    label is therefore an [option Z], with [None] for Python's [None]. *)
Definition unique_labels (point_classes : option (list Z)) : list (option Z) :=
  match point_classes with
  | None => [None]
  | Some classes => map Some (np.unique classes)
  end.

(** A colour as a colormap returns it: red, green, blue, alpha, float64
    each. *)
Definition rgba : Type := float * float * float * float.

(** [c[:3]] *)
Definition rgb_of (c : rgba) : float * float * float := (c.1.1.1, c.1.1.2, c.1.2).

(** [(cls, cmap(i)[:3])] for each [(i, cls)] of [enumerate(unique_classes)] *)
Definition color_items (cmap : nat -> rgba) (unique_classes : list (option Z))
  : list (option Z * (float * float * float)) :=
  imap (fun i cls => (cls, rgb_of (cmap i))) unique_classes.

Definition go_Figure : figure := {| data := []; fig_layout := None |}.

Definition add_trace (fig : figure) (t : trace) : figure :=
  {| data := data fig ++ [t]; fig_layout := fig_layout fig |}.

Definition update_layout (fig : figure) (l : layout) : figure :=
  {| data := data fig; fig_layout := Some l |}.

Definition view_3d : layout :=
  {| layout_scene := {| xaxis_title := "X"; yaxis_title := "Y"; zaxis_title := "Z" |};
     margin := (0, 0, 0, 0);
     showlegend := true |}.

(** The body of the loop [for cls in unique_classes] of both Plotly variants,
    for a computation over any object. *)
Definition class_trace {Self : Type} (pc : np.array2) (classes : list Z)
    (class_color_map : gmap (option Z) (float * float * float)) (cls : Z) (fig : figure)
  : M Self figure :=
  let indices := np.where_ (np.eq_scalar classes cls) in
  points_class <- lift (np.take_indices pc indices) ;;
  color_rgb <- lift (dict_getitem class_color_map (Some cls)) ;;
  let color_hex :=
    format_rgb (int_of (color_rgb.1.1 * 255)%float)
               (int_of (color_rgb.1.2 * 255)%float)
               (int_of (color_rgb.2 * 255)%float) in
  xs <- lift (np.column 0 points_class) ;;
  ys <- lift (np.column 1 points_class) ;;
  zs <- lift (np.column 2 points_class) ;;
  ret (add_trace fig
         (Scatter3d xs ys zs "markers"
            {| size := 2; color := color_hex; opacity := 8 # 10 |}
            ("Class " ++ pretty cls))).

(** ** PointCloudVisualizer_go_label.py: Plotly, one colour per class *)

Module GoLabelVariant.

Record PointCloudVisualizer :=
  { file_path : string;
    point_cloud : option np.array2;
    point_classes : option (list Z) }.

Definition init (file_path : string) : PointCloudVisualizer :=
  {| file_path := file_path; point_cloud := None; point_classes := None |}.

Inductive method_call := CallGetColorMap | CallVisualize.

Section Methods.
Variable laspy_read : string -> outcome las_data.
(** [plt.get_cmap(name, lut)]: the colour table, as a function of the index. *)
Variable get_cmap : string -> nat -> nat -> rgba.

Definition load_las_file : M PointCloudVisualizer unit :=
  s <- get_self ;;
  las <- lift (laspy_read (file_path s)) ;;
  stacked <- lift (np.vstack [las_x las; las_y las; las_z las]) ;;
  let points := np.transpose stacked in
  let point_classes' := las_classification las in
  s <- get_self ;;
  set_self {| file_path := file_path s; point_cloud := Some points;
              point_classes := point_classes s |} ;;;
  s <- get_self ;;
  set_self {| file_path := file_path s; point_cloud := point_cloud s;
              point_classes := Some point_classes' |}.

Definition get_color_map : M PointCloudVisualizer (gmap (option Z) (float * float * float)) :=
  s <- get_self ;;
  let unique_classes := unique_labels (point_classes s) in
  let cmap := get_cmap "tab20" (length unique_classes) in
  let class_color_map := dict_of (color_items cmap unique_classes) in
  ret class_color_map.

Definition visualize : M PointCloudVisualizer unit :=
  s <- get_self ;;
  match point_cloud s, point_classes s with
  | Some pc, Some classes =>
      class_color_map <- get_color_map ;;
      let fig := go_Figure in
      let unique_classes := np.unique classes in
      fig <- for_each unique_classes (class_trace pc classes class_color_map) fig ;;
      let fig := update_layout fig view_3d in
      emit (PioShow fig)
  | _, _ => raise ValueError not_loaded_msg
  end.

Definition call (c : method_call) (h : heap PointCloudVisualizer)
  : heap PointCloudVisualizer :=
  match c with
  | CallGetColorMap => (get_color_map h).2
  | CallVisualize => (visualize h).2
  end.

Definition calls (cs : list method_call) (h : heap PointCloudVisualizer)
  : heap PointCloudVisualizer :=
  fold_left (fun h c => call c h) cs h.

End Methods.
End GoLabelVariant.

(** ** more_vis/two_svm_plane.py: Plotly, class colours and two SVM planes *)

(** A fitted [sklearn.svm.SVC]: the attributes the code reads, float64
    arrays. *)
Record svm_model := { coef_ : list (list float); intercept_ : list float }.

(** The float64 that a coordinate of the point cloud is: the rational
    [n / 2^k] as the float of that value, any other rational as the
    quotient of its numerator and denominator. *)
Definition f64_of_Q (q : Q) : float :=
  let n := Qnum q in
  let d := Zpos (Qden q) in
  let k := Z.log2 d in
  if Z.eqb d (2 ^ k)
  then SF2Prim (binary_normalize prec emax n (- k) false)
  else (SF2Prim (binary_normalize prec emax n 0 false)
        / SF2Prim (binary_normalize prec emax d 0 false))%float.

Definition f64_range (r : Q * Q) : float * float := (f64_of_Q r.1, f64_of_Q r.2).

(** [a op b] on two grids of one shape, element by element. *)
Definition grid_map2 {A B C} (f : A -> B -> C) (xx : list (list A)) (yy : list (list B))
  : list (list C) :=
  zip_with (zip_with f) xx yy.

Module SvmPlaneVariant.

Record PointCloudVisualizer :=
  { file_path : string;
    point_cloud : option np.array2;
    point_classes : option (list Z) }.

Definition init (file_path : string) : PointCloudVisualizer :=
  {| file_path := file_path; point_cloud := None; point_classes := None |}.

Definition none_subscript_msg : string := "'NoneType' object is not subscriptable".

Inductive method_call :=
  | CallGetColorMap
  | CallTrainSvm (class_a class_b : Z)
  | CallPlotPlane (a b c d : float) (x_range y_range : float * float)
  | CallVisualize.

Section Methods.
Variable laspy_read : string -> outcome las_data.
Variable get_cmap : string -> nat -> nat -> rgba.
(** The optimiser behind [SVC.fit], for input that passes its checks. *)
Variable svc_solver : string -> np.array2 -> list Z -> svm_model.

(** [SVC(kernel=kernel).fit(X, y)]: sklearn refuses an empty sample, sample
    and target of different lengths, and a target with fewer than two
    classes, each with a [ValueError]. *)
Definition svc_fit (kernel : string) (X : np.array2) (y : list Z)
  : M PointCloudVisualizer svm_model :=
  emit (SvcFit kernel X y) ;;;
  if Nat.eqb (length X) 0 then
    raise ValueError "Found array with 0 sample(s) while a minimum of 1 is required."
  else if negb (Nat.eqb (length X) (length y)) then
    raise ValueError "Found input variables with inconsistent numbers of samples"
  else if Nat.ltb (length (np.unique y)) 2 then
    raise ValueError "The number of classes has to be greater than one; got 1 class"
  else ret (svc_solver kernel X y).

Definition load_las_file : M PointCloudVisualizer unit :=
  s <- get_self ;;
  las <- lift (laspy_read (file_path s)) ;;
  stacked <- lift (np.vstack [las_x las; las_y las; las_z las]) ;;
  let points := np.transpose stacked in
  let point_classes' := las_classification las in
  s <- get_self ;;
  set_self {| file_path := file_path s; point_cloud := Some points;
              point_classes := point_classes s |} ;;;
  s <- get_self ;;
  set_self {| file_path := file_path s; point_cloud := point_cloud s;
              point_classes := Some point_classes' |}.

Definition get_color_map : M PointCloudVisualizer (gmap (option Z) (float * float * float)) :=
  s <- get_self ;;
  let unique_classes := unique_labels (point_classes s) in
  let cmap := get_cmap "tab20" (length unique_classes) in
  let class_color_map := dict_of (color_items cmap unique_classes) in
  ret class_color_map.

Definition train_svm (class_a class_b : Z)
  : M PointCloudVisualizer (float * float * float * float) :=
  s <- get_self ;;
  match point_cloud s, point_classes s with
  | Some pc, Some classes =>
      let mask := np.isin classes [class_a; class_b] in
      points_filtered <- lift (np.mask_index pc mask) ;;
      classes_filtered <- lift (np.mask_index classes mask) ;;
      let labels := np.where3 (np.eq_scalar classes_filtered class_a) 0 1 in
      svm <- svc_fit "linear" points_filtered labels ;;
      w <- lift (getitem (coef_ svm) 0) ;;
      abc <- lift (unpack3 w) ;;
      d <- lift (getitem (intercept_ svm) 0) ;;
      ret (abc.1.1, abc.1.2, abc.2, d)
  | _, _ => raise TypeError none_subscript_msg
  end.

(** The grids are float64 arrays: [zz] is computed element by element in
    float64, where a division by zero gives a warning and an infinity or
    nan, never an exception. *)
Definition plot_plane (a b c d : float) (x_range y_range : float * float)
  : M PointCloudVisualizer
      (list (list float) * list (list float) * list (list float)) :=
  let xx_yy := np.meshgrid (np.linspace x_range.1 x_range.2 10)
                           (np.linspace y_range.1 y_range.2 10) in
  let xx := xx_yy.1 in
  let yy := xx_yy.2 in
  let zz := grid_map2 (fun x y => ((- d - a * x - b * y) / c)%float) xx yy in
  ret (xx, yy, zz).

(** [(np.min(pc[:, j]), np.max(pc[:, j]))] *)
Definition axis_range (pc : np.array2) (j : nat) : M PointCloudVisualizer (Q * Q) :=
  col <- lift (np.column j pc) ;;
  lo <- lift (np.min col) ;;
  col <- lift (np.column j pc) ;;
  hi <- lift (np.max col) ;;
  ret (lo, hi).

(** One plane of [visualize]: train on [(class_a, class_b)], sample the
    plane, add the surface.  The two ranges are coordinates of the point
    cloud, which enter the float64 computation of [plot_plane] here. *)
Definition add_plane (class_a class_b : Z) (x_range y_range : Q * Q)
    (colorscale name : string) (fig : figure) : M PointCloudVisualizer figure :=
  abcd <- train_svm class_a class_b ;;
  let a := abcd.1.1.1 in
  let b := abcd.1.1.2 in
  let c := abcd.1.2 in
  let d := abcd.2 in
  grids <- plot_plane a b c d (f64_range x_range) (f64_range y_range) ;;
  ret (add_trace fig
         (Surface grids.1.1 grids.1.2 grids.2 (1 # 2) colorscale false name)).

Definition visualize : M PointCloudVisualizer unit :=
  s <- get_self ;;
  match point_cloud s, point_classes s with
  | Some pc, Some classes =>
      class_color_map <- get_color_map ;;
      let fig := go_Figure in
      let unique_classes := np.unique classes in
      fig <- for_each unique_classes (class_trace pc classes class_color_map) fig ;;
      x_range <- axis_range pc 0 ;;
      y_range <- axis_range pc 1 ;;
      fig <- add_plane 1 2 x_range y_range "Viridis" "Plane 1: Class 1 vs Class 2" fig ;;
      fig <- add_plane 1 3 x_range y_range "Cividis" "Plane 2: Class 1 vs Class 3" fig ;;
      let fig := update_layout fig view_3d in
      emit (PioShow fig)
  | _, _ => raise ValueError not_loaded_msg
  end.

Definition call (c : method_call) (h : heap PointCloudVisualizer)
  : heap PointCloudVisualizer :=
  match c with
  | CallGetColorMap => (get_color_map h).2
  | CallTrainSvm class_a class_b => (train_svm class_a class_b h).2
  | CallPlotPlane a b c d x_range y_range => (plot_plane a b c d x_range y_range h).2
  | CallVisualize => (visualize h).2
  end.

Definition calls (cs : list method_call) (h : heap PointCloudVisualizer)
  : heap PointCloudVisualizer :=
  fold_left (fun h c => call c h) cs h.

End Methods.
End SvmPlaneVariant.

(** [r] is the pair (least, greatest) of the values of [arr]. *)
Definition is_min_max (arr : list Q) (r : Q * Q) : Prop :=
  r.1 ∈ arr /\ r.2 ∈ arr /\ (r.1 <= r.2)%Q /\
  forall v, v ∈ arr -> (r.1 <= v)%Q /\ (v <= r.2)%Q.

(** ** Grids *)

(** [g[i][j]] *)
Definition grid_at {A} (g : list (list A)) (i j : nat) : option A :=
  g !! i ≫= (fun row => row !! j).

(** [g.shape == (n, m)] *)
Definition has_shape {A} (n m : nat) (g : list (list A)) : Prop :=
  length g = n /\ Forall (fun row => length row = m) g.

(** The [j]-th of the ten samples of a range, in closed form: the second
    end of the range for the last one; before it [j * step + start] with
    [step = (stop - start) / 9], each operation rounded, or
    [j / 9 * (stop - start) + start] where that step is zero. *)
Definition sample_of_ten (range : float * float) (j : nat) : float :=
  let delta := (range.2 - range.1)%float in
  let step := (delta / 9)%float in
  if Nat.eqb j 9 then range.2
  else if (step =? 0)%float then (np.f64_of_nat j / 9 * delta + range.1)%float
  else (np.f64_of_nat j * step + range.1)%float.

(** A zero or a finite number, in the IEEE 754 representation. *)
Definition sf_finite (x : spec_float) : bool :=
  match x with
  | S754_zero _ | S754_finite _ _ _ => true
  | _ => false
  end.

(** ** The plane equation of the claim on [plot_plane], in the words of the
    specification *)

(** The rational that a finite float64 is. *)
Definition Q_of_f64 (v : float) : option Q :=
  match Prim2SF v with
  | S754_zero _ => Some 0%Q
  | S754_finite s m e =>
      let q := if Z.leb 0 e then inject_Z (Zpos m * 2 ^ e)
               else (Zpos m # Z.to_pos (2 ^ (- e)))%Q in
      Some (if s then (- q)%Q else q)
  | _ => None
  end.

(** [a x + b y + c z + d] over the exact values of seven finite floats. *)
Definition plane_residual (a b c d x y z : float) : option Q :=
  qa ← Q_of_f64 a; qb ← Q_of_f64 b; qc ← Q_of_f64 c; qd ← Q_of_f64 d;
  qx ← Q_of_f64 x; qy ← Q_of_f64 y; qz ← Q_of_f64 z;
  Some (qa * qx + qb * qy + qc * qz + qd)%Q.



(** [range[0] <= v <= range[1]] in float64. *)
Definition within (range : float * float) (v : float) : bool :=
  (range.1 <=? v)%float && (v <=? range.2)%float.

(** ** The training set of the claim on [train_svm], in the words of the
    specification *)

(** The points whose label is [class_a] or [class_b], each with its label,
    in the order of the point cloud. *)
Definition selected_points (pc : list (list Q)) (classes : list Z)
    (class_a class_b : Z) : list (list Q * Z) :=
  filter (fun pl => pl.2 = class_a \/ pl.2 = class_b) (zip pc classes).

(** Training label 0 for [class_a], 1 otherwise. *)
Definition training_label (class_a : Z) (c : Z) : Z :=
  if bool_decide (c = class_a) then 0 else 1.

(** The trace that [visualize] adds for the label [cls]: the points of
    the file that carry the label, in the order of the file. *)
Definition class_scatter (pts : list las_point) (colour : Z -> string) (cls : Z)
  : trace :=
  let pts_cls := filter (fun p => pclass p = cls) pts in
  Scatter3d (px <$> pts_cls) (py <$> pts_cls) (pz <$> pts_cls) "markers"
    {| size := 2; color := colour cls; opacity := 8 # 10 |}
    ("Class " ++ pretty cls).

(** The colour string that the loop of [visualize] computes for a label. *)
Definition colour_in (class_color_map : gmap (option Z) (float * float * float)) (cls : Z)
  : string :=
  match class_color_map !! Some cls with
  | Some color_rgb =>
      format_rgb (int_of (color_rgb.1.1 * 255)%float)
                 (int_of (color_rgb.1.2 * 255)%float)
                 (int_of (color_rgb.2 * 255)%float)
  | None => ""
  end.

(** The exception is the one of the check that opens [visualize]. *)
Definition is_not_loaded_error (e : exception) : Prop := e = not_loaded_error.

(** ** Sample data *)

Definition sample_points : list las_point :=
  [ {| px := 0; py := 0; pz := 0; pclass := 1 |};
    {| px := 1; py := 2; pz := 3; pclass := 2 |};
    {| px := 4; py := 5; pz := 6; pclass := 3 |};
    {| px := 4; py := 5; pz := 7; pclass := 1 |} ]%Q.

Definition sample_las : las_data := {| las_points := sample_points |}.

Definition sample_read (file_path : string) : outcome las_data :=
  if String.eqb file_path "sample.las" then Ok sample_las
  else Raise {| exc_type := FileNotFoundError; exc_str := file_path |}.

(** A colour table and a solver to run the visualizers on the sample. *)
Definition sample_cmap (name : string) (lut i : nat) : rgba :=
  (np.f64_of_nat i / np.f64_of_nat (Nat.max lut 1), 0.5, 0.25, 1)%float.

Definition sample_solver (kernel : string) (X : np.array2) (y : list Z) : svm_model :=
  {| coef_ := [[1; 2; 4]%float]; intercept_ := [3%float] |}.


Definition sample_heap : heap SvmPlaneVariant.PointCloudVisualizer :=
  (SvmPlaneVariant.load_las_file sample_read
     {| self := SvmPlaneVariant.init "sample.las"; log := [] |}).2.

(** A file with a single point, of class 1. *)
Definition one_point_las : las_data :=
  {| las_points := [ {| px := 1; py := 2; pz := 3; pclass := 1 |} ]%Q |}.

Definition one_point_read (file_path : string) : outcome las_data := Ok one_point_las.

Definition one_point_heap : heap SvmPlaneVariant.PointCloudVisualizer :=
  (SvmPlaneVariant.load_las_file one_point_read
     {| self := SvmPlaneVariant.init "one_point.las"; log := [] |}).2.

(** ** What a computation adds to the log *)

(** The event is a call of [SVC.fit]. *)
Definition is_fit (ev : event) : Prop :=
  match ev with SvcFit _ _ _ => True | _ => False end.

(** Every event that [m] adds to the log satisfies [P]. *)
Definition logs_only {Self A} (P : event -> Prop) (m : M Self A) : Prop :=
  forall h, exists evs : list event, log (m h).2 = (log h ++ evs)%list /\ Forall P evs.

(** [m] shows a figure exactly when it returns, as its last event; before
    that it only calls the fit. *)
Definition shows_on_return {Self A} (m : M Self A) : Prop :=
  forall h, exists evs : list event,
    log (m h).2 = (log h ++ evs)%list /\
    match (m h).1 with
    | Raise _ => Forall is_fit evs
    | Ok _ => exists fits fig, evs = (fits ++ [PioShow fig])%list /\ Forall is_fit fits
    end.

(** The number of points that a trace draws. *)
Definition trace_points (t : trace) : nat :=
  match t with
  | Scatter3d x _ _ _ _ _ => length x
  | Surface _ _ _ _ _ _ _ => 0
  end.

(** The name under which a trace appears in the legend. *)
Definition trace_name (t : trace) : string :=
  match t with
  | Scatter3d _ _ _ _ _ name => name
  | Surface _ _ _ _ _ _ name => name
  end.

(** ** The scripts at the end of the files *)

Module Scripts.
Section Scripts.
Variable laspy_read : string -> outcome las_data.
Variable get_cmap : string -> nat -> nat -> rgba.
Variable svc_solver : string -> np.array2 -> list Z -> svm_model.
Variable ndarray : Type.
Variable np_load : string -> outcome ndarray.
(** [str] of a loaded array and of a pair of floats, as [print] shows them. *)
Variable str_array : ndarray -> string.
Variable str_range : Q * Q -> string.

(** PointCloudVisualizer.py *)
Definition open3d_script (las_file_path : string)
  : outcome unit * heap Open3dVariant.PointCloudVisualizer :=
  (Open3dVariant.load_las_file laspy_read ;;;
   Open3dVariant.visualize)
    {| self := Open3dVariant.init las_file_path; log := [] |}.

Definition open3d_main := open3d_script ".las".

(** PointCloudVisualizer_laspy.py *)
Definition pyvista_script (las_file_path : string)
  : outcome unit * heap PyVistaVariant.PointCloudVisualizer :=
  (emit (Print las_file_path) ;;;
   PyVistaVariant.load_las_file laspy_read ;;;
   PyVistaVariant.visualize)
    {| self := PyVistaVariant.init las_file_path; log := [] |}.

Definition pyvista_main := pyvista_script "".

(** PointCloudVisualizer_go_label.py *)
Definition golabel_script (las_file_path : string)
  : outcome unit * heap GoLabelVariant.PointCloudVisualizer :=
  (GoLabelVariant.load_las_file laspy_read ;;;
   GoLabelVariant.visualize get_cmap)
    {| self := GoLabelVariant.init las_file_path; log := [] |}.

Definition golabel_main := golabel_script "".

(** more_vis/two_svm_plane.py *)
Definition svmplane_script (las_file_path : string)
  : outcome unit * heap SvmPlaneVariant.PointCloudVisualizer :=
  (SvmPlaneVariant.load_las_file laspy_read ;;;
   SvmPlaneVariant.visualize get_cmap svc_solver)
    {| self := SvmPlaneVariant.init las_file_path; log := [] |}.

Definition svmplane_main := svmplane_script "".

(** utils/read_npy_file.py: the statements after the function *)
Definition read_npy_script (file_path : string) : M unit unit :=
  data <- ReadNpy.read_npy_file ndarray np_load file_path ;;
  match data with
  | Some data =>
      emit (Print "Data loaded successfully:") ;;;
      emit (Print (str_array data))
  | None => ret tt
  end.

Definition read_npy_main := read_npy_script "your_file.npy".

(** utils/utils_range.py *)
Definition utils_range_script (las_file_path : string) : M unit unit :=
  ranges <- UtilsRange.get_xyz_ranges laspy_read las_file_path ;;
  x_range <- lift (dict_getitem ranges "x_range") ;;
  emit (Print ("X Range: " ++ str_range x_range)) ;;;
  y_range <- lift (dict_getitem ranges "y_range") ;;
  emit (Print ("Y Range: " ++ str_range y_range)) ;;;
  z_range <- lift (dict_getitem ranges "z_range") ;;
  emit (Print ("Z Range: " ++ str_range z_range)).

Definition utils_range_main := utils_range_script "".

End Scripts.
End Scripts.

(** A file without points, and a file that cannot be read. *)
Definition empty_las : las_data := {| las_points := [] |}.

Definition empty_read (file_path : string) : outcome las_data := Ok empty_las.

Definition missing_read (file_path : string) : outcome las_data :=
  Raise {| exc_type := FileNotFoundError; exc_str := file_path |}.

(** A file with one point of class 1 and one of class 2. *)
Definition two_class_las : las_data :=
  {| las_points := [ {| px := 0; py := 0; pz := 0; pclass := 1 |};
                     {| px := 1; py := 2; pz := 3; pclass := 2 |} ]%Q |}.

Definition two_class_read (file_path : string) : outcome las_data := Ok two_class_las.

(** * Properties *)

(** ** The numpy model on small inputs *)

Example unique_sorts_and_drops_repeats : np.unique [3; 1; 3; 2; 1] = [1; 2; 3].
Proof. reflexivity. Qed.

Example transpose_3_by_2 :
  np.transpose [[1; 2]; [3; 4]; [5; 6]]%Q = [[1; 3; 5]; [2; 4; 6]]%Q.
Proof. reflexivity. Qed.

Example vstack_refuses_ragged_rows :
  raises (np.vstack [[1; 2]; [3]; [5; 6]]%Q) ValueError.
Proof. by eexists. Qed.

Example mask_selects_two_classes :
  np.mask_index [10; 20; 30; 40] (np.isin [1; 2; 3; 1] [1; 3]) = Ok [10; 30; 40].
Proof. reflexivity. Qed.

Example where_positions : np.where_ (np.eq_scalar [1; 2; 3; 1] 1) = [0; 3]%nat.
Proof. reflexivity. Qed.

Example min_of_empty_raises : raises (np.min []) ValueError.
Proof. by eexists. Qed.

(** Ten samples of [0, 9] are the integers; of [0, 4] they are rounded:
    the eighth is the float64 below 28/9. *)
Example linspace_0_9 :
  np.linspace 0 9 10 = [0; 1; 2; 3; 4; 5; 6; 7; 8; 9]%float.
Proof. reflexivity. Qed.

Example linspace_0_4_rounds :
  np.linspace 0 4 10 !! 7%nat = Some 0x1.8e38e38e38e38p+1%float /\
  (28 / 9)%float = 0x1.8e38e38e38e39p+1%float.
Proof. split; reflexivity. Qed.

(** A step that underflows to zero takes the other branch of [linspace]. *)
Example linspace_denormal :
  np.linspace 0x1p-1074 0x1p-1073 10 !! 5%nat = Some 0x1p-1073%float.
Proof. reflexivity. Qed.

(** The first colour of [tab20]: the float64 product truncates to 31. *)
Example int_of_tab20_red : int_of (0x1.f1f1f1f1f1f1fp-4 * 255)%float = 31.
Proof. reflexivity. Qed.

Example f64_of_Q_dyadic :
  f64_of_Q (7 # 2) = 3.5%float /\ f64_of_Q (-4) = (-4)%float /\
  f64_of_Q (1 # 3) = (1 / 3)%float.
Proof. repeat split. Qed.

(** From a float64 to the rational it is, and back: a full mantissa, the
    largest float64 and the smallest. *)
Example f64_of_Q_of_f64 :
  Forall (fun v => f64_of_Q <$> Q_of_f64 v = Some v)
    [0x1.8e38e38e38e38p+1; - 0x1.c71c71c71c71cp-2; 0x1.fffffffffffffp+1023;
     0x1p-1074; 0]%float.
Proof. repeat constructor. Qed.

Example meshgrid_2_by_3 :
  np.meshgrid [1; 2; 3]%Q [7; 8]%Q
  = ([[1; 2; 3]; [1; 2; 3]]%Q, [[7; 7; 7]; [8; 8; 8]]%Q).
Proof. reflexivity. Qed.

(** ** numpy reductions *)

Lemma qmin_spec a b : (np.qmin a b = a /\ (a <= b)%Q) \/ (np.qmin a b = b /\ (b <= a)%Q).
Proof.
  unfold np.qmin. destruct (Qle_bool a b) eqn:E.
  - left. split; [reflexivity | by apply Qle_bool_iff].
  - right. split; [reflexivity |].
    apply Qlt_le_weak, Qnot_le_lt. intros H. apply Qle_bool_iff in H. congruence.
Qed.

Lemma qmax_spec a b : (np.qmax a b = b /\ (a <= b)%Q) \/ (np.qmax a b = a /\ (b <= a)%Q).
Proof.
  unfold np.qmax. destruct (Qle_bool a b) eqn:E.
  - left. split; [reflexivity | by apply Qle_bool_iff].
  - right. split; [reflexivity |].
    apply Qlt_le_weak, Qnot_le_lt. intros H. apply Qle_bool_iff in H. congruence.
Qed.

Lemma fold_qmin_spec l a :
  fold_left np.qmin l a ∈ a :: l /\
  forall v, v ∈ a :: l -> (fold_left np.qmin l a <= v)%Q.
Proof.
  revert a. induction l as [|b l IH]; intros a; simpl.
  - split; [set_solver |]. intros v Hv. apply list_elem_of_singleton in Hv.
    subst. apply Qle_refl.
  - destruct (IH (np.qmin a b)) as [Hin Hle]. split.
    + apply elem_of_cons in Hin as [Hin | Hin]; [| set_solver].
      rewrite Hin. destruct (qmin_spec a b) as [[-> _] | [-> _]]; set_solver.
    + intros v Hv.
      assert (Hm : (fold_left np.qmin l (np.qmin a b) <= np.qmin a b)%Q)
        by (apply Hle; set_solver).
      apply elem_of_cons in Hv as [-> | Hv].
      * eapply Qle_trans; [exact Hm |].
        destruct (qmin_spec a b) as [[-> ?] | [-> ?]]; [apply Qle_refl | done].
      * apply elem_of_cons in Hv as [-> | Hv].
        -- eapply Qle_trans; [exact Hm |].
           destruct (qmin_spec a b) as [[-> ?] | [-> ?]]; [done | apply Qle_refl].
        -- apply Hle. set_solver.
Qed.

Lemma fold_qmax_spec l a :
  fold_left np.qmax l a ∈ a :: l /\
  forall v, v ∈ a :: l -> (v <= fold_left np.qmax l a)%Q.
Proof.
  revert a. induction l as [|b l IH]; intros a; simpl.
  - split; [set_solver |]. intros v Hv. apply list_elem_of_singleton in Hv.
    subst. apply Qle_refl.
  - destruct (IH (np.qmax a b)) as [Hin Hle]. split.
    + apply elem_of_cons in Hin as [Hin | Hin]; [| set_solver].
      rewrite Hin. destruct (qmax_spec a b) as [[-> _] | [-> _]]; set_solver.
    + intros v Hv.
      assert (Hm : (np.qmax a b <= fold_left np.qmax l (np.qmax a b))%Q)
        by (apply Hle; set_solver).
      apply elem_of_cons in Hv as [-> | Hv].
      * eapply Qle_trans; [| exact Hm].
        destruct (qmax_spec a b) as [[-> ?] | [-> ?]]; [done | apply Qle_refl].
      * apply elem_of_cons in Hv as [-> | Hv].
        -- eapply Qle_trans; [| exact Hm].
           destruct (qmax_spec a b) as [[-> ?] | [-> ?]]; [apply Qle_refl | done].
        -- apply Hle. set_solver.
Qed.

Lemma np_min_max_nonempty (arr : list Q) :
  arr <> [] ->
  exists lo hi, np.min arr = Ok lo /\ np.max arr = Ok hi /\ is_min_max arr (lo, hi).
Proof.
  destruct arr as [|a l]; [done |]. intros _.
  exists (fold_left np.qmin l a), (fold_left np.qmax l a).
  destruct (fold_qmin_spec l a) as [Hmin Hle], (fold_qmax_spec l a) as [Hmax Hge].
  split; [reflexivity |]. split; [reflexivity |].
  unfold is_min_max; simpl. split; [done |]. split; [done |]. split.
  - eapply Qle_trans; [apply Hle | apply Hge]; apply list_elem_of_here.
  - intros v Hv. split; [by apply Hle | by apply Hge].
Qed.

(** ** Running a computation: equations of the monad *)

Section MonadLaws.
Context {Self : Type}.

Lemma bind_ok {A B} (m : M Self A) (k : A -> M Self B) h a h' :
  m h = (Ok a, h') -> bind m k h = k a h'.
Proof. intros E. unfold bind. by rewrite E. Qed.

Lemma bind_raise {A B} (m : M Self A) (k : A -> M Self B) h e h' :
  m h = (Raise e, h') -> bind m k h = (Raise e, h').
Proof. intros E. unfold bind. by rewrite E. Qed.

Lemma bind_lift_ok {A B} (o : outcome A) (k : A -> M Self B) h a :
  o = Ok a -> bind (lift o) k h = k a h.
Proof. intros ->. reflexivity. Qed.

Lemma read_only_ret {A} (a : A) : read_only (Self := Self) (ret a).
Proof. intros h. reflexivity. Qed.

Lemma read_only_raise {A} c msg : read_only (Self := Self) (raise (A := A) c msg).
Proof. intros h. reflexivity. Qed.

Lemma read_only_lift {A} (o : outcome A) : read_only (Self := Self) (lift o).
Proof. intros h. reflexivity. Qed.

Lemma read_only_get_self : read_only (Self := Self) get_self.
Proof. intros h. reflexivity. Qed.

Lemma read_only_emit ev : read_only (Self := Self) (emit ev).
Proof. intros h. reflexivity. Qed.

Lemma read_only_bind {A B} (m : M Self A) (k : A -> M Self B) :
  read_only m -> (forall a, read_only (k a)) -> read_only (bind m k).
Proof.
  intros Hm Hk h. unfold bind. specialize (Hm h).
  destruct (m h) as [[a | e] h1]; simpl in *; [| done].
  rewrite Hk. exact Hm.
Qed.

Lemma read_only_for_each {A B} (l : list A) (body : A -> B -> M Self B) acc :
  (forall a b, read_only (body a b)) -> read_only (for_each l body acc).
Proof.
  intros Hbody. revert acc. induction l as [|a l IH]; intros acc; simpl.
  - apply read_only_ret.
  - apply read_only_bind; [apply Hbody | exact IH].
Qed.

Lemma read_only_try {A} (body : M Self A) handler :
  read_only body -> (forall e, read_only (handler e)) ->
  read_only (try_except_Exception body handler).
Proof.
  intros Hb Hh h. unfold try_except_Exception. specialize (Hb h).
  destruct (body h) as [[a | e] h1]; simpl in *; [done |].
  destruct (is_Exception (exc_type e)); [| done].
  rewrite Hh. exact Hb.
Qed.

End MonadLaws.

Create HintDb frame.
#[export] Hint Resolve read_only_ret read_only_raise read_only_lift
  read_only_get_self read_only_emit : frame.

(** Follows the shape of a method body: binds, branches on the attributes,
    loops. *)
Ltac frame_step :=
  first
    [ apply read_only_bind; [| intros ?]
    | apply read_only_for_each; intros ? ?
    | progress auto with frame
    | match goal with
      | |- read_only (match ?x with _ => _ end) => destruct x
      | |- read_only (if ?b then _ else _) => destruct b
      end ].
Ltac frame := repeat frame_step.

(** ** utils/read_npy_file.py *)

(** C7 (as amended).  [read_npy_file] returns the loaded array when the load
    succeeds.  When the load raises an exception of class [Exception] or a
    subclass, it prints one line and returns [None].  An exception outside
    [Exception] (KeyboardInterrupt, SystemExit, GeneratorExit) is not caught
    by the handler and reaches the caller. *)
Theorem read_npy_file_outcomes (ndarray : Type) (np_load : string -> outcome ndarray)
    (file_path : string) (h : heap unit) :
  ReadNpy.read_npy_file ndarray np_load file_path h =
  match np_load file_path with
  | Ok data => (Ok (Some data), h)
  | Raise e =>
      if is_Exception (exc_type e)
      then (Ok None,
            {| self := self h;
               log := log h ++ [Print ("An error occurred: " ++ exc_str e)] |})
      else (Raise e, h)
  end.
Proof.
  unfold ReadNpy.read_npy_file, try_except_Exception, bind, lift, ret, emit.
  destruct (np_load file_path) as [data | e]; [reflexivity |].
  destruct (is_Exception (exc_type e)); reflexivity.
Qed.

(** C7, as stated, fails: a load interrupted from the keyboard raises
    [KeyboardInterrupt], which [except Exception] lets through. *)
Lemma read_npy_file_propagates_keyboard_interrupt :
  let interrupt := {| exc_type := KeyboardInterrupt; exc_str := "" |} in
  let np_load := fun _ : string => @Raise (list Q) interrupt in
  let h := {| self := tt; log := [] |} in
  np_load "your_file.npy" = Raise interrupt /\
  ReadNpy.read_npy_file (list Q) np_load "your_file.npy" h = (Raise interrupt, h) /\
  (ReadNpy.read_npy_file (list Q) np_load "your_file.npy" h).1 <> Ok None.
Proof. repeat split. discriminate. Qed.

(** ** utils/utils_range.py *)

(** C9.  For a file with at least one point, [get_xyz_ranges] returns a
    dictionary whose keys are exactly 'x_range', 'y_range' and 'z_range';
    each value is the pair (least, greatest) of that coordinate over the
    points of the file: both are coordinates of points, least <= greatest,
    and every point's coordinate lies between them. *)
Theorem get_xyz_ranges_min_max (laspy_read : string -> outcome las_data)
    (file_path : string) (las : las_data) (h : heap unit) :
  laspy_read file_path = Ok las ->
  las_points las <> [] ->
  exists d : gmap string (Q * Q),
    UtilsRange.get_xyz_ranges laspy_read file_path h = (Ok d, h) /\
    dom d = ({["x_range"; "y_range"; "z_range"]} : gset string) /\
    (exists rx, d !! "x_range" = Some rx /\ is_min_max (las_x las) rx) /\
    (exists ry, d !! "y_range" = Some ry /\ is_min_max (las_y las) ry) /\
    (exists rz, d !! "z_range" = Some rz /\ is_min_max (las_z las) rz).
Proof.
  intros Hread Hne.
  assert (Hx : las_x las <> []) by (unfold las_x; destruct (las_points las); done).
  assert (Hy : las_y las <> []) by (unfold las_y; destruct (las_points las); done).
  assert (Hz : las_z las <> []) by (unfold las_z; destruct (las_points las); done).
  destruct (np_min_max_nonempty _ Hx) as (xlo & xhi & Ex1 & Ex2 & Hxr).
  destruct (np_min_max_nonempty _ Hy) as (ylo & yhi & Ey1 & Ey2 & Hyr).
  destruct (np_min_max_nonempty _ Hz) as (zlo & zhi & Ez1 & Ez2 & Hzr).
  eexists. split.
  - unfold UtilsRange.get_xyz_ranges.
    rewrite (bind_lift_ok _ _ _ _ Hread).
    rewrite (bind_lift_ok _ _ _ _ Ex1), (bind_lift_ok _ _ _ _ Ex2).
    rewrite (bind_lift_ok _ _ _ _ Ey1), (bind_lift_ok _ _ _ _ Ey2).
    rewrite (bind_lift_ok _ _ _ _ Ez1), (bind_lift_ok _ _ _ _ Ez2).
    reflexivity.
  - split; [rewrite !dom_insert_L, dom_empty_L; set_solver |].
    split; [exists (xlo, xhi) | split; [exists (ylo, yhi) | exists (zlo, zhi)]];
      (split; [by simplify_map_eq | done]).
Qed.

Lemma get_xyz_ranges_min_max_witness :
  exists d : gmap string (Q * Q),
    UtilsRange.get_xyz_ranges sample_read "sample.las" {| self := tt; log := [] |}
      = (Ok d, {| self := tt; log := [] |}) /\
    dom d = ({["x_range"; "y_range"; "z_range"]} : gset string) /\
    (exists rx, d !! "x_range" = Some rx /\ is_min_max (las_x sample_las) rx) /\
    (exists ry, d !! "y_range" = Some ry /\ is_min_max (las_y sample_las) ry) /\
    (exists rz, d !! "z_range" = Some rz /\ is_min_max (las_z sample_las) rz).
Proof.
  apply (get_xyz_ranges_min_max sample_read "sample.las" sample_las).
  - reflexivity.
  - discriminate.
Defined.

(** ** load_las_file *)

Lemma vstack_columns (las : las_data) :
  np.vstack [las_x las; las_y las; las_z las] = Ok [las_x las; las_y las; las_z las].
Proof.
  unfold np.vstack, las_x, las_y, las_z. simpl.
  rewrite !length_map, Nat.eqb_refl. reflexivity.
Qed.

Lemma transpose_columns (pts : list las_point) :
  np.transpose [map px pts; map py pts; map pz pts] = map row_of pts.
Proof.
  induction pts as [|p pts IH]; [reflexivity |].
  simpl in *. rewrite IH. reflexivity.
Qed.

Lemma lookup_map {A B} (f : A -> B) (l : list A) (i : nat) :
  map f l !! i = f <$> l !! i.
Proof. revert i. induction l as [|a l IH]; intros [|i]; simpl; auto. Qed.

Lemma rows_in_file_order (las : las_data) :
  in_file_order las (Some (map row_of (las_points las))).
Proof.
  exists (map row_of (las_points las)). split; [reflexivity |].
  split; [apply length_map |].
  intros i xi yi zi. unfold las_x, las_y, las_z. rewrite !lookup_map.
  destruct (las_points las !! i) as [p|]; simpl; [| discriminate].
  intros [= <-] [= <-] [= <-]. reflexivity.
Qed.

Lemma open3d_load_ok laspy_read (h : heap Open3dVariant.PointCloudVisualizer) las :
  laspy_read (Open3dVariant.file_path (self h)) = Ok las ->
  Open3dVariant.load_las_file laspy_read h =
  (Ok tt, {| self := {| Open3dVariant.file_path := Open3dVariant.file_path (self h);
                        Open3dVariant.point_cloud := Some (map row_of (las_points las)) |};
             log := log h |}).
Proof.
  intros E. unfold Open3dVariant.load_las_file, bind, get_self, lift, set_self.
  rewrite E, vstack_columns. unfold las_x, las_y, las_z.
  rewrite transpose_columns. reflexivity.
Qed.

Lemma pyvista_load_ok laspy_read (h : heap PyVistaVariant.PointCloudVisualizer) las :
  laspy_read (PyVistaVariant.file_path (self h)) = Ok las ->
  PyVistaVariant.load_las_file laspy_read h =
  (Ok tt, {| self := {| PyVistaVariant.file_path := PyVistaVariant.file_path (self h);
                        PyVistaVariant.point_cloud := Some (map row_of (las_points las)) |};
             log := log h |}).
Proof.
  intros E. unfold PyVistaVariant.load_las_file, bind, get_self, lift, set_self.
  rewrite E, vstack_columns. unfold las_x, las_y, las_z.
  rewrite transpose_columns. reflexivity.
Qed.

Lemma golabel_load_ok laspy_read (h : heap GoLabelVariant.PointCloudVisualizer) las :
  laspy_read (GoLabelVariant.file_path (self h)) = Ok las ->
  GoLabelVariant.load_las_file laspy_read h =
  (Ok tt, {| self := {| GoLabelVariant.file_path := GoLabelVariant.file_path (self h);
                        GoLabelVariant.point_cloud := Some (map row_of (las_points las));
                        GoLabelVariant.point_classes := Some (las_classification las) |};
             log := log h |}).
Proof.
  intros E. unfold GoLabelVariant.load_las_file, bind, get_self, lift, set_self.
  rewrite E, vstack_columns. unfold las_x, las_y, las_z.
  rewrite transpose_columns. reflexivity.
Qed.

Lemma svmplane_load_ok laspy_read (h : heap SvmPlaneVariant.PointCloudVisualizer) las :
  laspy_read (SvmPlaneVariant.file_path (self h)) = Ok las ->
  SvmPlaneVariant.load_las_file laspy_read h =
  (Ok tt, {| self := {| SvmPlaneVariant.file_path := SvmPlaneVariant.file_path (self h);
                        SvmPlaneVariant.point_cloud := Some (map row_of (las_points las));
                        SvmPlaneVariant.point_classes := Some (las_classification las) |};
             log := log h |}).
Proof.
  intros E. unfold SvmPlaneVariant.load_las_file, bind, get_self, lift, set_self.
  rewrite E, vstack_columns. unfold las_x, las_y, las_z.
  rewrite transpose_columns. reflexivity.
Qed.

(** C5.  When the file is read, [load_las_file] (the same code in the four
    variants) returns normally and stores an array with one row per point of
    the file, in the order of the file: row [i] is [x[i], y[i], z[i]]. *)
Theorem load_las_file_keeps_file_order (laspy_read : string -> outcome las_data)
    (path : string) (las : las_data) :
  laspy_read path = Ok las ->
  (forall h, Open3dVariant.file_path (self h) = path ->
     let r := Open3dVariant.load_las_file laspy_read h in
     r.1 = Ok tt /\ in_file_order las (Open3dVariant.point_cloud (self r.2))) /\
  (forall h, PyVistaVariant.file_path (self h) = path ->
     let r := PyVistaVariant.load_las_file laspy_read h in
     r.1 = Ok tt /\ in_file_order las (PyVistaVariant.point_cloud (self r.2))) /\
  (forall h, GoLabelVariant.file_path (self h) = path ->
     let r := GoLabelVariant.load_las_file laspy_read h in
     r.1 = Ok tt /\ in_file_order las (GoLabelVariant.point_cloud (self r.2))) /\
  (forall h, SvmPlaneVariant.file_path (self h) = path ->
     let r := SvmPlaneVariant.load_las_file laspy_read h in
     r.1 = Ok tt /\ in_file_order las (SvmPlaneVariant.point_cloud (self r.2))).
Proof.
  intros Hread. split; [| split; [| split]]; intros h Hp; subst path; cbv zeta.
  - rewrite (open3d_load_ok _ _ _ Hread).
    split; [reflexivity | apply rows_in_file_order].
  - rewrite (pyvista_load_ok _ _ _ Hread).
    split; [reflexivity | apply rows_in_file_order].
  - rewrite (golabel_load_ok _ _ _ Hread).
    split; [reflexivity | apply rows_in_file_order].
  - rewrite (svmplane_load_ok _ _ _ Hread).
    split; [reflexivity | apply rows_in_file_order].
Qed.

Lemma load_las_file_keeps_file_order_witness :
  sample_read "sample.las" = Ok sample_las /\
  let r := Open3dVariant.load_las_file sample_read
             {| self := Open3dVariant.init "sample.las"; log := [] |} in
  r.1 = Ok tt /\ in_file_order sample_las (Open3dVariant.point_cloud (self r.2)).
Proof.
  split; [reflexivity |].
  apply (proj1 (load_las_file_keeps_file_order sample_read "sample.las" sample_las
                  eq_refl)).
  reflexivity.
Defined.

(** ** Methods that only read the object *)

Section ReadOnlyMethods.
Variable laspy_read : string -> outcome las_data.
Variable get_cmap : string -> nat -> nat -> rgba.
Variable svc_solver : string -> np.array2 -> list Z -> svm_model.

Lemma class_trace_read_only {Self} pc classes m cls fig :
  read_only (Self := Self) (class_trace pc classes m cls fig).
Proof. unfold class_trace. frame. Qed.

Lemma open3d_visualize_read_only : read_only Open3dVariant.visualize.
Proof. unfold Open3dVariant.visualize. frame. Qed.

Lemma pyvista_visualize_read_only : read_only PyVistaVariant.visualize.
Proof. unfold PyVistaVariant.visualize. frame. Qed.

Lemma golabel_get_color_map_read_only :
  read_only (GoLabelVariant.get_color_map get_cmap).
Proof. unfold GoLabelVariant.get_color_map. frame. Qed.

Lemma golabel_visualize_read_only : read_only (GoLabelVariant.visualize get_cmap).
Proof.
  unfold GoLabelVariant.visualize. pose proof golabel_get_color_map_read_only.
  pose proof (@class_trace_read_only GoLabelVariant.PointCloudVisualizer).
  frame.
Qed.

Lemma svmplane_get_color_map_read_only :
  read_only (SvmPlaneVariant.get_color_map get_cmap).
Proof. unfold SvmPlaneVariant.get_color_map. frame. Qed.

Lemma svc_fit_read_only kernel X y :
  read_only (SvmPlaneVariant.svc_fit svc_solver kernel X y).
Proof. unfold SvmPlaneVariant.svc_fit. frame. Qed.

Lemma train_svm_read_only class_a class_b :
  read_only (SvmPlaneVariant.train_svm svc_solver class_a class_b).
Proof.
  unfold SvmPlaneVariant.train_svm. pose proof svc_fit_read_only. frame.
Qed.

Lemma plot_plane_read_only a b c d x_range y_range :
  read_only (SvmPlaneVariant.plot_plane a b c d x_range y_range).
Proof. unfold SvmPlaneVariant.plot_plane. frame. Qed.

Lemma axis_range_read_only pc j : read_only (SvmPlaneVariant.axis_range pc j).
Proof. unfold SvmPlaneVariant.axis_range. frame. Qed.

Lemma add_plane_read_only class_a class_b x_range y_range colorscale name fig :
  read_only (SvmPlaneVariant.add_plane svc_solver class_a class_b x_range y_range
               colorscale name fig).
Proof.
  unfold SvmPlaneVariant.add_plane.
  pose proof train_svm_read_only. pose proof plot_plane_read_only. frame.
Qed.

Lemma svmplane_visualize_read_only :
  read_only (SvmPlaneVariant.visualize get_cmap svc_solver).
Proof.
  unfold SvmPlaneVariant.visualize.
  pose proof svmplane_get_color_map_read_only.
  pose proof (@class_trace_read_only SvmPlaneVariant.PointCloudVisualizer).
  pose proof axis_range_read_only. pose proof add_plane_read_only.
  frame.
Qed.

Lemma open3d_calls_self cs h : self (Open3dVariant.calls cs h) = self h.
Proof.
  revert h. induction cs as [|c cs IH]; intros h; [reflexivity |].
  unfold Open3dVariant.calls in *. cbn [fold_left]. rewrite IH.
  destruct c; unfold Open3dVariant.call. apply open3d_visualize_read_only.
Qed.

Lemma pyvista_calls_self cs h : self (PyVistaVariant.calls cs h) = self h.
Proof.
  revert h. induction cs as [|c cs IH]; intros h; [reflexivity |].
  unfold PyVistaVariant.calls in *. cbn [fold_left]. rewrite IH.
  destruct c; unfold PyVistaVariant.call. apply pyvista_visualize_read_only.
Qed.

Lemma golabel_calls_self cs h : self (GoLabelVariant.calls get_cmap cs h) = self h.
Proof.
  revert h. induction cs as [|c cs IH]; intros h; [reflexivity |].
  unfold GoLabelVariant.calls in *. cbn [fold_left]. rewrite IH.
  destruct c; unfold GoLabelVariant.call.
  - apply golabel_get_color_map_read_only.
  - apply golabel_visualize_read_only.
Qed.

Lemma svmplane_calls_self cs h :
  self (SvmPlaneVariant.calls get_cmap svc_solver cs h) = self h.
Proof.
  revert h. induction cs as [|c cs IH]; intros h; [reflexivity |].
  unfold SvmPlaneVariant.calls in *. cbn [fold_left]. rewrite IH.
  destruct c; unfold SvmPlaneVariant.call.
  - apply svmplane_get_color_map_read_only.
  - apply train_svm_read_only.
  - apply plot_plane_read_only.
  - apply svmplane_visualize_read_only.
Qed.

End ReadOnlyMethods.

(** C4.  Whatever methods are called on a visualizer after the load
    ([get_color_map], [train_svm], [plot_plane], [visualize], in any number
    and order, with any arguments and whether they return or raise), the
    attributes [file_path], [point_cloud] and [point_classes] keep the values
    they had: the stored point cloud is only read. *)
Theorem loaded_cloud_is_only_read
    (get_cmap : string -> nat -> nat -> rgba)
    (svc_solver : string -> np.array2 -> list Z -> svm_model) :
  (forall cs h,
     let h' := Open3dVariant.calls cs h in
     Open3dVariant.file_path (self h') = Open3dVariant.file_path (self h) /\
     Open3dVariant.point_cloud (self h') = Open3dVariant.point_cloud (self h)) /\
  (forall cs h,
     let h' := PyVistaVariant.calls cs h in
     PyVistaVariant.file_path (self h') = PyVistaVariant.file_path (self h) /\
     PyVistaVariant.point_cloud (self h') = PyVistaVariant.point_cloud (self h)) /\
  (forall cs h,
     let h' := GoLabelVariant.calls get_cmap cs h in
     GoLabelVariant.file_path (self h') = GoLabelVariant.file_path (self h) /\
     GoLabelVariant.point_cloud (self h') = GoLabelVariant.point_cloud (self h) /\
     GoLabelVariant.point_classes (self h') = GoLabelVariant.point_classes (self h)) /\
  (forall cs h,
     let h' := SvmPlaneVariant.calls get_cmap svc_solver cs h in
     SvmPlaneVariant.file_path (self h') = SvmPlaneVariant.file_path (self h) /\
     SvmPlaneVariant.point_cloud (self h') = SvmPlaneVariant.point_cloud (self h) /\
     SvmPlaneVariant.point_classes (self h') = SvmPlaneVariant.point_classes (self h)).
Proof.
  split; [| split; [| split]]; intros cs h; cbv zeta.
  - by rewrite open3d_calls_self.
  - by rewrite pyvista_calls_self.
  - by rewrite golabel_calls_self.
  - by rewrite svmplane_calls_self.
Qed.

Lemma loaded_rows_match_labels (las : las_data) :
  rows_match_labels (Some (map row_of (las_points las))) (Some (las_classification las)).
Proof.
  exists (map row_of (las_points las)), (las_classification las).
  split; [reflexivity |]. split; [reflexivity |].
  unfold las_classification. by rewrite !length_map.
Qed.

(** C2.  When the file is read, [load_las_file] returns normally and leaves
    a coordinate array with as many rows as the label array has entries, and
    this still holds after any sequence of later calls of [get_color_map],
    [train_svm], [plot_plane] and [visualize]. *)
Theorem rows_match_labels_after_load
    (laspy_read : string -> outcome las_data)
    (get_cmap : string -> nat -> nat -> rgba)
    (svc_solver : string -> np.array2 -> list Z -> svm_model)
    (path : string) (las : las_data) :
  laspy_read path = Ok las ->
  (forall h cs, GoLabelVariant.file_path (self h) = path ->
     let r := GoLabelVariant.load_las_file laspy_read h in
     let h' := GoLabelVariant.calls get_cmap cs r.2 in
     r.1 = Ok tt /\
     rows_match_labels (GoLabelVariant.point_cloud (self r.2))
                       (GoLabelVariant.point_classes (self r.2)) /\
     rows_match_labels (GoLabelVariant.point_cloud (self h'))
                       (GoLabelVariant.point_classes (self h'))) /\
  (forall h cs, SvmPlaneVariant.file_path (self h) = path ->
     let r := SvmPlaneVariant.load_las_file laspy_read h in
     let h' := SvmPlaneVariant.calls get_cmap svc_solver cs r.2 in
     r.1 = Ok tt /\
     rows_match_labels (SvmPlaneVariant.point_cloud (self r.2))
                       (SvmPlaneVariant.point_classes (self r.2)) /\
     rows_match_labels (SvmPlaneVariant.point_cloud (self h'))
                       (SvmPlaneVariant.point_classes (self h'))).
Proof.
  intros Hread. split; intros h cs Hp; subst path; cbv zeta.
  - rewrite golabel_calls_self, (golabel_load_ok _ _ _ Hread). simpl.
    split; [reflexivity |]. split; apply loaded_rows_match_labels.
  - rewrite svmplane_calls_self, (svmplane_load_ok _ _ _ Hread). simpl.
    split; [reflexivity |]. split; apply loaded_rows_match_labels.
Qed.

Lemma rows_match_labels_after_load_witness :
  sample_read "sample.las" = Ok sample_las /\
  let r := SvmPlaneVariant.load_las_file sample_read
             {| self := SvmPlaneVariant.init "sample.las"; log := [] |} in
  let h' := SvmPlaneVariant.calls sample_cmap sample_solver
              [SvmPlaneVariant.CallVisualize; SvmPlaneVariant.CallTrainSvm 1 2] r.2 in
  r.1 = Ok tt /\
  rows_match_labels (SvmPlaneVariant.point_cloud (self r.2))
                    (SvmPlaneVariant.point_classes (self r.2)) /\
  rows_match_labels (SvmPlaneVariant.point_cloud (self h'))
                    (SvmPlaneVariant.point_classes (self h')).
Proof.
  split; [reflexivity |].
  apply (proj2 (rows_match_labels_after_load sample_read sample_cmap sample_solver
                  "sample.las" sample_las eq_refl)).
  reflexivity.
Defined.

(** ** plot_plane *)

Lemma linspace_length start stop num : length (np.linspace start stop num) = num.
Proof.
  unfold np.linspace. cbv zeta.
  repeat match goal with |- context [if ?b then _ else _] => destruct b end;
    rewrite ?length_insert, !length_map, length_seq; reflexivity.
Qed.

(** [np.linspace] with ten samples computes the closed form. *)
Lemma linspace_10_lookup (range : float * float) (j : nat) :
  (j < 10)%nat ->
  np.linspace range.1 range.2 10 !! j = Some (sample_of_ten range j).
Proof.
  intros Hj. unfold np.linspace, sample_of_ten. cbv zeta.
  change (10 - 1)%nat with 9%nat.
  change (Nat.ltb 0 9) with true. change (Nat.ltb 1 10) with true. cbv iota.
  change (np.f64_of_nat 9) with 9%float.
  destruct ((range.2 - range.1) / 9 =? 0)%float;
    do 10 (destruct j as [|j]; [reflexivity |]); lia.
Qed.

Lemma meshgrid_shape {A} (x y : list A) :
  has_shape (length y) (length x) (np.meshgrid x y).1 /\
  has_shape (length y) (length x) (np.meshgrid x y).2.
Proof.
  unfold has_shape, np.meshgrid. simpl. rewrite !length_map.
  repeat split; apply Forall_forall; intros r Hr;
    apply list_elem_of_In, in_map_iff in Hr as (? & <- & _);
    [reflexivity | apply length_map].
Qed.

Lemma meshgrid_at {A} (x y : list A) (i j : nat) (xj yi : A) :
  x !! j = Some xj -> y !! i = Some yi ->
  grid_at (np.meshgrid x y).1 i j = Some xj /\
  grid_at (np.meshgrid x y).2 i j = Some yi.
Proof.
  intros Hx Hy. unfold grid_at, np.meshgrid. simpl.
  rewrite !lookup_map, Hy. simpl. rewrite lookup_map, Hx. done.
Qed.

Lemma grid_map2_shape {A B C} (f : A -> B -> C) n m xx yy :
  has_shape n m xx -> has_shape n m yy -> has_shape n m (grid_map2 f xx yy).
Proof.
  unfold has_shape, grid_map2. intros [Hn Hx] [Hn' Hy]. split.
  - rewrite length_zip_with. lia.
  - clear Hn Hn'. revert yy Hy. induction Hx as [|r xx Hr Hx IH]; intros yy Hy.
    + constructor.
    + destruct Hy as [|r' yy Hr' Hy]; simpl; constructor.
      * rewrite length_zip_with. lia.
      * by apply IH.
Qed.

Lemma grid_map2_at {A B C} (f : A -> B -> C) xx yy i j a b :
  grid_at xx i j = Some a -> grid_at yy i j = Some b ->
  grid_at (grid_map2 f xx yy) i j = Some (f a b).
Proof.
  unfold grid_at, grid_map2. intros Ha Hb.
  rewrite lookup_zip_with.
  destruct (xx !! i) as [rx|]; [| done]. destruct (yy !! i) as [ry|]; [| done].
  simpl in *. rewrite lookup_zip_with, Ha. simpl. rewrite Hb. done.
Qed.



Lemma plot_plane_grids a b c d x_range y_range
    (h : heap SvmPlaneVariant.PointCloudVisualizer) :
  exists xx yy zz,
    SvmPlaneVariant.plot_plane a b c d x_range y_range h = (Ok (xx, yy, zz), h) /\
    has_shape 10 10 xx /\ has_shape 10 10 yy /\ has_shape 10 10 zz /\
    forall i j, (i < 10)%nat -> (j < 10)%nat ->
      let x := sample_of_ten x_range j in
      let y := sample_of_ten y_range i in
      grid_at xx i j = Some x /\ grid_at yy i j = Some y /\
      grid_at zz i j = Some ((- d - a * x - b * y) / c)%float.
Proof.
  unfold SvmPlaneVariant.plot_plane, ret.
  set (xs := np.linspace x_range.1 x_range.2 10).
  set (ys := np.linspace y_range.1 y_range.2 10).
  destruct (meshgrid_shape xs ys) as [Hxx Hyy].
  unfold xs, ys in Hxx, Hyy. rewrite !linspace_length in Hxx, Hyy.
  do 3 eexists. split; [reflexivity |].
  split; [exact Hxx |]. split; [exact Hyy |].
  split; [by apply grid_map2_shape |].
  intros i j Hi Hj. cbv zeta.
  pose proof (linspace_10_lookup x_range j Hj) as Hx.
  pose proof (linspace_10_lookup y_range i Hi) as Hy.
  destruct (meshgrid_at xs ys i j _ _ Hx Hy) as [Gx Gy].
  split; [exact Gx |]. split; [exact Gy |].
  by apply (grid_map2_at (fun x y => ((- d - a * x - b * y) / c)%float)).
Qed.




(** On that first input the samples do stay in their ranges, and every
    grid point has a residual of at most 2^-48. *)
Example plot_plane_sample_in_range :
  forallb (within (0, 4)%float) (np.linspace 0 4 10) = true /\
  forallb (within (0, 5)%float) (np.linspace 0 5 10) = true.
Proof. split; reflexivity. Qed.

Example plot_plane_sample_near_the_plane :
  match (SvmPlaneVariant.plot_plane 1 2 4 3 (0, 4)%float (0, 5)%float
           sample_heap).1 with
  | Ok (xx, yy, zz) =>
      forallb
        (fun p : float * float * float =>
           match plane_residual 1 2 4 3 p.1.1 p.1.2 p.2 with
           | Some r => Qle_bool (- (1 # 2 ^ 48)) r && Qle_bool r (1 # 2 ^ 48)
           | None => false
           end)
        (zip (zip (concat xx) (concat yy)) (concat zz))
  | Raise _ => false
  end = true.
Proof. vm_compute. reflexivity. Qed.




(** A [c] that is not zero does not make the z values finite: the product
    [a * x] can overflow. *)
Example plot_plane_nonzero_c_overflows :
  exists xx yy zz,
    (SvmPlaneVariant.plot_plane 0x1p+1023 2 1 3 (0, 4)%float (0, 5)%float
       sample_heap).1 = Ok (xx, yy, zz) /\
    grid_at zz 0 9 = Some neg_infinity.
Proof. do 3 eexists. split; reflexivity. Qed.

(** ** train_svm *)

Lemma isin_pair (c class_a class_b : Z) :
  existsb (Z.eqb c) [class_a; class_b] = bool_decide (c = class_a \/ c = class_b).
Proof.
  simpl. destruct (Z.eqb_spec c class_a), (Z.eqb_spec c class_b); simpl;
    symmetry; try (apply bool_decide_eq_true; tauto).
  apply bool_decide_eq_false. tauto.
Qed.

Lemma select_selected (pc : list (list Q)) (classes : list Z) class_a class_b :
  length pc = length classes ->
  np.select pc (np.isin classes [class_a; class_b])
    = (selected_points pc classes class_a class_b).*1 /\
  np.select classes (np.isin classes [class_a; class_b])
    = (selected_points pc classes class_a class_b).*2.
Proof.
  unfold selected_points, np.isin.
  revert classes. induction pc as [|p pc IH]; intros [|c classes] Hlen;
    try discriminate; [done |].
  injection Hlen as Hlen. destruct (IH classes Hlen) as [IH1 IH2].
  cbn [map np.select zip zip_with]. rewrite isin_pair, filter_cons.
  change ((p, c).2) with c.
  case_bool_decide; case_decide; try tauto;
    rewrite ?fmap_cons; cbn [fst snd]; rewrite <- IH1, <- IH2; done.
Qed.

Lemma where3_training_labels (cf : list Z) class_a :
  np.where3 (np.eq_scalar cf class_a) 0 1 = training_label class_a <$> cf.
Proof.
  unfold np.where3, np.eq_scalar, training_label.
  induction cf as [|c cf IH]; [reflexivity |]. simpl. rewrite IH. f_equal.
  destruct (Z.eqb_spec c class_a); case_bool_decide; done.
Qed.

Lemma length_isin classes values : length (np.isin classes values) = length classes.
Proof. apply length_map. Qed.

(** C1.  On a loaded point cloud, [train_svm] calls the fit of a linear SVC
    once, on exactly the points whose label is [class_a] or [class_b] (in
    the order of the cloud), with training label 0 for the points of
    [class_a] and 1 for the others.  An exception of the fit is the
    exception of [train_svm]; when the fit returns a classifier, [train_svm]
    returns its first coefficient vector (a, b, c) and its first intercept
    d. *)
Theorem train_svm_fits_selected_points
    (svc_solver : string -> np.array2 -> list Z -> svm_model)
    (h : heap SvmPlaneVariant.PointCloudVisualizer)
    (pc : list (list Q)) (classes : list Z) (class_a class_b : Z) :
  SvmPlaneVariant.point_cloud (self h) = Some pc ->
  SvmPlaneVariant.point_classes (self h) = Some classes ->
  length pc = length classes ->
  let sel := selected_points pc classes class_a class_b in
  let X := sel.*1 in
  let y := training_label class_a <$> sel.*2 in
  let fit := SvmPlaneVariant.svc_fit svc_solver "linear" X y h in
  let r := SvmPlaneVariant.train_svm svc_solver class_a class_b h in
  fit.2 = {| self := self h; log := log h ++ [SvcFit "linear" X y] |} /\
  r.2 = fit.2 /\
  match fit.1 with
  | Raise e => r.1 = Raise e
  | Ok svm =>
      forall a b c d w_rest i_rest,
        coef_ svm = [a; b; c] :: w_rest ->
        intercept_ svm = d :: i_rest ->
        r.1 = Ok (a, b, c, d)
  end.
Proof.
  intros Hpc Hcl Hlen. cbv zeta.
  destruct (select_selected pc classes class_a class_b Hlen) as [S1 S2].
  set (sel := selected_points pc classes class_a class_b) in *.
  assert (Hfit : (SvmPlaneVariant.svc_fit svc_solver "linear" sel.*1
                    (training_label class_a <$> sel.*2) h).2
                 = {| self := self h;
                      log := log h ++ [SvcFit "linear" sel.*1
                                         (training_label class_a <$> sel.*2)] |}).
  { unfold SvmPlaneVariant.svc_fit, bind, emit, raise, ret.
    repeat match goal with |- context [if ?b then _ else _] => destruct b end;
      reflexivity. }
  split; [exact Hfit |].
  assert (M1 : np.mask_index pc (np.isin classes [class_a; class_b]) = Ok sel.*1).
  { unfold np.mask_index. by rewrite length_isin, Hlen, Nat.eqb_refl, S1. }
  assert (M2 : np.mask_index classes (np.isin classes [class_a; class_b]) = Ok sel.*2).
  { unfold np.mask_index. by rewrite length_isin, Nat.eqb_refl, S2. }
  assert (Hr : SvmPlaneVariant.train_svm svc_solver class_a class_b h =
               (svm <- SvmPlaneVariant.svc_fit svc_solver "linear" sel.*1
                         (training_label class_a <$> sel.*2) ;;
                w <- lift (getitem (coef_ svm) 0) ;;
                abc <- lift (unpack3 w) ;;
                d <- lift (getitem (intercept_ svm) 0) ;;
                ret (abc.1.1, abc.1.2, abc.2, d)) h).
  { unfold SvmPlaneVariant.train_svm.
    unfold bind at 1. unfold get_self at 1. cbv beta iota. rewrite Hpc, Hcl.
    rewrite (bind_lift_ok _ _ _ _ M1), (bind_lift_ok _ _ _ _ M2).
    by rewrite where3_training_labels. }
  rewrite Hr. clear Hr.
  destruct (SvmPlaneVariant.svc_fit svc_solver "linear" sel.*1
              (training_label class_a <$> sel.*2) h) as [[svm | e] h1] eqn:Efit;
    cbn [fst snd] in *;
    [rewrite (bind_ok _ _ _ _ _ Efit) | by rewrite (bind_raise _ _ _ _ _ Efit)].
  split.
  - unfold bind, lift, ret.
    destruct (getitem (coef_ svm) 0); [| done].
    destruct (unpack3 _); [| done].
    destruct (getitem (intercept_ svm) 0); done.
  - intros a b c d w_rest i_rest Hw Hi.
    unfold bind, lift, ret. rewrite Hw, Hi. reflexivity.
Qed.

(** ** np.unique *)

Lemma elem_of_insert_sorted (v : Z) (l : list Z) (x : Z) :
  x ∈ np.insert_sorted v l <-> x = v \/ x ∈ l.
Proof.
  induction l as [|w l IH]; simpl.
  - rewrite list_elem_of_singleton, elem_of_nil. tauto.
  - destruct (Z.ltb_spec v w); [by rewrite elem_of_cons |].
    destruct (Z.eqb_spec v w) as [-> |].
    + rewrite elem_of_cons. tauto.
    + rewrite !elem_of_cons, IH. tauto.
Qed.

Lemma elem_of_unique (arr : list Z) (x : Z) : x ∈ np.unique arr <-> x ∈ arr.
Proof.
  unfold np.unique. induction arr as [|v arr IH]; simpl; [done |].
  rewrite elem_of_insert_sorted, elem_of_cons, IH. done.
Qed.

Lemma insert_sorted_increasing (v : Z) (l : list Z) :
  StronglySorted Z.lt l -> StronglySorted Z.lt (np.insert_sorted v l).
Proof.
  induction 1 as [|w l Hs IH Hall]; simpl.
  - repeat constructor.
  - destruct (Z.ltb_spec v w).
    + constructor; [by constructor |].
      constructor; [done |]. eapply Forall_impl; [exact Hall |].
      simpl. intros; lia.
    + destruct (Z.eqb_spec v w); [by constructor |].
      constructor; [exact IH |].
      apply Forall_forall. intros x Hx.
      apply elem_of_insert_sorted in Hx as [-> | Hx]; [lia |].
      rewrite Forall_forall in Hall. by apply Hall.
Qed.

Lemma unique_increasing (arr : list Z) : StronglySorted Z.lt (np.unique arr).
Proof.
  unfold np.unique. induction arr as [|v arr IH]; simpl; [constructor |].
  by apply insert_sorted_increasing.
Qed.

Lemma increasing_NoDup (l : list Z) : StronglySorted Z.lt l -> NoDup l.
Proof.
  induction 1 as [|w l Hs IH Hall]; constructor; [| exact IH].
  intros Hin. rewrite Forall_forall in Hall. specialize (Hall _ Hin). lia.
Qed.

Lemma unique_NoDup (arr : list Z) : NoDup (np.unique arr).
Proof. apply increasing_NoDup, unique_increasing. Qed.

(** ** The colour dictionary *)

Lemma dom_fold_insert `{Countable K} {V} (items : list (K * V)) (d : gmap K V) :
  dom (fold_left (fun d kv => <[kv.1 := kv.2]> d) items d)
  = list_to_set items.*1 ∪ dom d.
Proof.
  revert d. induction items as [|[k v] items IH]; intros d; simpl.
  - set_solver.
  - rewrite IH, dom_insert_L. set_solver.
Qed.

Lemma dom_dict_of `{Countable K} {V} (items : list (K * V)) :
  dom (dict_of items) = list_to_set items.*1.
Proof. unfold dict_of. rewrite dom_fold_insert, dom_empty_L. set_solver. Qed.

Lemma color_items_keys (cmap : nat -> rgba) (labels : list (option Z)) :
  (color_items cmap labels).*1 = labels.
Proof.
  unfold color_items. revert cmap.
  induction labels as [|l labels IH]; intros cmap; [reflexivity |].
  simpl. f_equal. apply (IH (fun i => cmap (S i))).
Qed.

Lemma color_map_keys (cmap : nat -> rgba) (classes : list Z) :
  dom (dict_of (color_items cmap (unique_labels (Some classes))))
  = list_to_set (Some <$> classes).
Proof.
  rewrite dom_dict_of, color_items_keys. simpl.
  apply set_eq. intros k. rewrite !elem_of_list_to_set.
  change (map Some (np.unique classes)) with (Some <$> np.unique classes).
  rewrite !list_elem_of_fmap. setoid_rewrite elem_of_unique. done.
Qed.

(** ** The scatter traces of visualize *)

Lemma take_where_from (pre pts : list las_point) (cls : Z) :
  np.take_indices (map row_of (pre ++ pts))
    (np.where_from (length pre) (np.eq_scalar (map pclass pts) cls))
  = Ok (map row_of (filter (fun p => pclass p = cls) pts)).
Proof.
  revert pre. induction pts as [|p pts IH]; intros pre; [reflexivity |].
  specialize (IH (pre ++ [p])%list).
  rewrite <- app_assoc, length_app, Nat.add_1_r in IH. simpl in IH.
  simpl. rewrite filter_cons.
  destruct (Z.eqb_spec (pclass p) cls) as [E | E]; case_decide; try done.
  simpl. rewrite lookup_map, list_lookup_middle by done. simpl.
  by rewrite IH.
Qed.

Lemma take_where (pts : list las_point) (cls : Z) :
  np.take_indices (map row_of pts) (np.where_ (np.eq_scalar (map pclass pts) cls))
  = Ok (map row_of (filter (fun p => pclass p = cls) pts)).
Proof. apply (take_where_from [] pts cls). Qed.

Lemma columns_of_rows (pts : list las_point) :
  np.column 0 (map row_of pts) = Ok (px <$> pts) /\
  np.column 1 (map row_of pts) = Ok (py <$> pts) /\
  np.column 2 (map row_of pts) = Ok (pz <$> pts).
Proof.
  induction pts as [|p pts (IH0 & IH1 & IH2)]; [done |].
  simpl. rewrite IH0, IH1, IH2. done.
Qed.

Lemma class_trace_run {Self : Type} (pts : list las_point)
    (m : gmap (option Z) (float * float * float)) (cls : Z) (fig : figure) (h : heap Self) :
  is_Some (m !! Some cls) ->
  class_trace (map row_of pts) (map pclass pts) m cls fig h
  = (Ok (add_trace fig (class_scatter pts (colour_in m) cls)), h).
Proof.
  intros [col Hcol]. unfold class_trace.
  rewrite (bind_lift_ok _ _ _ _ (take_where pts cls)).
  assert (Hget : dict_getitem m (Some cls) = Ok col)
    by (unfold dict_getitem; by rewrite Hcol).
  rewrite (bind_lift_ok _ _ _ _ Hget).
  destruct (columns_of_rows (filter (fun p => pclass p = cls) pts)) as (C0 & C1 & C2).
  rewrite (bind_lift_ok _ _ _ _ C0), (bind_lift_ok _ _ _ _ C1),
    (bind_lift_ok _ _ _ _ C2).
  unfold ret, class_scatter, colour_in. by rewrite Hcol.
Qed.

Lemma for_each_class_trace {Self : Type} (pts : list las_point)
    (m : gmap (option Z) (float * float * float)) (labels : list Z) (fig : figure)
    (h : heap Self) :
  (forall cls, cls ∈ labels -> is_Some (m !! Some cls)) ->
  for_each labels (class_trace (map row_of pts) (map pclass pts) m) fig h
  = (Ok {| data := data fig ++ (class_scatter pts (colour_in m) <$> labels);
           fig_layout := fig_layout fig |}, h).
Proof.
  revert fig. induction labels as [|cls labels IH]; intros fig Hm; simpl.
  - unfold ret. rewrite app_nil_r. by destruct fig.
  - rewrite (bind_ok _ _ _ _ _ (class_trace_run pts m cls fig h
                                  (Hm cls (list_elem_of_here _ _)))).
    rewrite IH by (intros c Hc; apply Hm; by apply list_elem_of_further).
    simpl. by rewrite <- app_assoc.
Qed.

(** C6.  After a file is loaded, [get_color_map] returns a dictionary whose
    keys are exactly the labels that occur in [point_classes]; every colour
    lookup of [visualize] succeeds, and the figure that [visualize] shows
    holds one scatter trace per distinct label, made of the points that
    carry the label. *)
Theorem one_trace_per_label
    (laspy_read : string -> outcome las_data)
    (get_cmap : string -> nat -> nat -> rgba)
    (h : heap GoLabelVariant.PointCloudVisualizer) (las : las_data) :
  laspy_read (GoLabelVariant.file_path (self h)) = Ok las ->
  let h1 := (GoLabelVariant.load_las_file laspy_read h).2 in
  let classes := las_classification las in
  exists (m : gmap (option Z) (float * float * float)) (fig : figure) (labels : list Z),
    GoLabelVariant.point_classes (self h1) = Some classes /\
    GoLabelVariant.get_color_map get_cmap h1 = (Ok m, h1) /\
    dom m = list_to_set (Some <$> classes) /\
    (forall cls, cls ∈ classes -> is_Some (m !! Some cls)) /\
    GoLabelVariant.visualize get_cmap h1
      = (Ok tt, {| self := self h1; log := log h1 ++ [PioShow fig] |}) /\
    NoDup labels /\
    (forall cls, cls ∈ labels <-> cls ∈ classes) /\
    data fig = class_scatter (las_points las) (colour_in m) <$> labels.
Proof.
  intros Hread. cbv zeta.
  rewrite (golabel_load_ok _ _ _ Hread). cbn [snd].
  set (h1 := {| self := _; log := log h |}).
  set (m := dict_of (color_items
                       (get_cmap "tab20"
                          (length (unique_labels (Some (las_classification las)))))
                       (unique_labels (Some (las_classification las))))).
  assert (Hdom : dom m = list_to_set (Some <$> las_classification las))
    by apply color_map_keys.
  assert (Hlook : forall cls, cls ∈ las_classification las -> is_Some (m !! Some cls)).
  { intros cls Hcls. apply elem_of_dom. rewrite Hdom, elem_of_list_to_set.
    apply list_elem_of_fmap. eauto. }
  assert (Hmap : GoLabelVariant.get_color_map get_cmap h1 = (Ok m, h1)) by reflexivity.
  eexists m, _, (np.unique (las_classification las)).
  split; [reflexivity |]. split; [exact Hmap |]. split; [exact Hdom |].
  split; [exact Hlook |].
  split; [| split; [apply unique_NoDup | split; [apply elem_of_unique |]]].
  - unfold GoLabelVariant.visualize.
    unfold bind at 1. unfold get_self at 1. cbv beta iota. cbn [self h1].
    cbn [GoLabelVariant.point_cloud GoLabelVariant.point_classes].
    rewrite (bind_ok _ _ _ _ _ Hmap).
    unfold las_classification at 2.
    rewrite (bind_ok _ _ _ _ _
               (for_each_class_trace (las_points las) m
                  (np.unique (las_classification las)) go_Figure h1
                  (fun cls Hc => Hlook cls (proj1 (elem_of_unique _ _) Hc)))).
    reflexivity.
  - reflexivity.
Qed.

Lemma one_trace_per_label_witness :
  sample_read "sample.las" = Ok sample_las /\
  let h1 := (GoLabelVariant.load_las_file sample_read
               {| self := GoLabelVariant.init "sample.las"; log := [] |}).2 in
  let classes := las_classification sample_las in
  exists (m : gmap (option Z) (float * float * float)) (fig : figure) (labels : list Z),
    GoLabelVariant.point_classes (self h1) = Some classes /\
    GoLabelVariant.get_color_map sample_cmap h1 = (Ok m, h1) /\
    dom m = list_to_set (Some <$> classes) /\
    (forall cls, cls ∈ classes -> is_Some (m !! Some cls)) /\
    GoLabelVariant.visualize sample_cmap h1
      = (Ok tt, {| self := self h1; log := log h1 ++ [PioShow fig] |}) /\
    NoDup labels /\
    (forall cls, cls ∈ labels <-> cls ∈ classes) /\
    data fig = class_scatter (las_points sample_las) (colour_in m) <$> labels.
Proof.
  split; [reflexivity |].
  apply (one_trace_per_label sample_read sample_cmap
           {| self := GoLabelVariant.init "sample.las"; log := [] |} sample_las).
  reflexivity.
Defined.

(** ** Which exceptions a computation can raise *)

Section NeverRaises.
Context {Self : Type} (P : exception -> Prop).

Lemma never_raises_ret {A} (a : A) : never_raises (Self := Self) P (ret a).
Proof. intros h e. discriminate. Qed.

Lemma never_raises_get_self : never_raises (Self := Self) P get_self.
Proof. intros h e. discriminate. Qed.

Lemma never_raises_emit ev : never_raises (Self := Self) P (emit ev).
Proof. intros h e. discriminate. Qed.

Lemma never_raises_raise {A} c msg :
  ~ P {| exc_type := c; exc_str := msg |} ->
  never_raises (Self := Self) P (raise (A := A) c msg).
Proof. intros HP h e [= <-]. exact HP. Qed.

Lemma never_raises_lift {A} (o : outcome A) :
  never_fails_with P o -> never_raises (Self := Self) P (lift o).
Proof. intros Ho h e E. by apply Ho. Qed.

Lemma never_raises_bind {A B} (m : M Self A) (k : A -> M Self B) :
  never_raises P m -> (forall a, never_raises P (k a)) -> never_raises P (bind m k).
Proof.
  intros Hm Hk h e. unfold bind. specialize (Hm h).
  destruct (m h) as [[a | e'] h1]; simpl in *.
  - apply Hk.
  - intros [= <-]. by apply Hm.
Qed.

Lemma never_raises_for_each {A B} (l : list A) (body : A -> B -> M Self B) acc :
  (forall a b, never_raises P (body a b)) -> never_raises P (for_each l body acc).
Proof.
  intros Hbody. revert acc. induction l as [|a l IH]; intros acc; simpl.
  - apply never_raises_ret.
  - apply never_raises_bind; [apply Hbody | exact IH].
Qed.

Lemma obind_never_fails {A B} (o : outcome A) (k : A -> outcome B) :
  never_fails_with P o -> (forall a, never_fails_with P (k a)) ->
  never_fails_with P (obind o k).
Proof.
  intros Ho Hk e. destruct o as [a | e']; simpl.
  - apply Hk.
  - intros [= <-]. by apply Ho.
Qed.

Lemma ok_never_fails {A} (a : A) : never_fails_with P (Ok a).
Proof. intros e. discriminate. Qed.

End NeverRaises.

(** The exceptions of indexing are [IndexError] and [KeyError]. *)
Section Indexing.
Variable P : exception -> Prop.
Hypothesis P_ValueError : forall e, P e -> exc_type e = ValueError.

Lemma take_indices_never_fails {A} (arr : list A) idx :
  never_fails_with P (np.take_indices arr idx).
Proof.
  induction idx as [|i idx IH]; simpl; [apply ok_never_fails |].
  destruct (arr !! i).
  - apply obind_never_fails; [exact IH | intros; apply ok_never_fails].
  - intros e [= <-] HP. by apply P_ValueError in HP.
Qed.

Lemma column_never_fails j (m : np.array2) : never_fails_with P (np.column j m).
Proof.
  induction m as [|r m IH]; simpl; [apply ok_never_fails |].
  destruct (r !! j).
  - apply obind_never_fails; [exact IH | intros; apply ok_never_fails].
  - intros e [= <-] HP. by apply P_ValueError in HP.
Qed.

Lemma dict_getitem_never_fails `{Countable K} {V} (d : gmap K V) k :
  never_fails_with P (dict_getitem d k).
Proof.
  unfold dict_getitem. destruct (d !! k); [apply ok_never_fails |].
  intros e [= <-] HP. by apply P_ValueError in HP.
Qed.

Lemma getitem_never_fails {A} (l : list A) i : never_fails_with P (getitem l i).
Proof.
  unfold getitem. destruct (l !! i); [apply ok_never_fails |].
  intros e [= <-] HP. by apply P_ValueError in HP.
Qed.

Lemma mask_index_never_fails {A} (arr : list A) mask :
  never_fails_with P (np.mask_index arr mask).
Proof.
  unfold np.mask_index. destruct (Nat.eqb _ _); [apply ok_never_fails |].
  intros e [= <-] HP. by apply P_ValueError in HP.
Qed.

Lemma class_trace_never_raises {Self : Type} pc classes m cls fig :
  never_raises (Self := Self) P (class_trace pc classes m cls fig).
Proof.
  unfold class_trace.
  repeat first
    [ apply never_raises_bind; [| intros ?]
    | apply never_raises_ret
    | apply never_raises_lift;
      first [ apply take_indices_never_fails | apply column_never_fails
            | apply dict_getitem_never_fails ] ].
Qed.

End Indexing.

(** ** The check that opens visualize *)

Lemma not_loaded_is_ValueError e : is_not_loaded_error e -> exc_type e = ValueError.
Proof. by intros ->. Qed.

Lemma min_never_not_loaded arr : never_fails_with is_not_loaded_error (np.min arr).
Proof. destruct arr; intros e [= <-]; discriminate. Qed.

Lemma max_never_not_loaded arr : never_fails_with is_not_loaded_error (np.max arr).
Proof. destruct arr; intros e [= <-]; discriminate. Qed.

Lemma unpack3_never_not_loaded {A} (w : list A) :
  never_fails_with is_not_loaded_error (unpack3 w).
Proof.
  destruct w as [|? [|? [|? [|? ?]]]]; intros e [= <-]; discriminate.
Qed.

Section Guard.
Variable get_cmap : string -> nat -> nat -> rgba.
Variable svc_solver : string -> np.array2 -> list Z -> svm_model.

Lemma svc_fit_never_not_loaded kernel X y :
  never_raises is_not_loaded_error (SvmPlaneVariant.svc_fit svc_solver kernel X y).
Proof.
  unfold SvmPlaneVariant.svc_fit.
  apply never_raises_bind; [apply never_raises_emit | intros _].
  repeat match goal with
         | |- never_raises _ (if ?b then _ else _) => destruct b
         end;
    first [ apply never_raises_ret | apply never_raises_raise; discriminate ].
Qed.

Ltac guard_step :=
  first
    [ apply never_raises_bind; [| intros ?]
    | apply never_raises_ret
    | apply never_raises_get_self
    | apply never_raises_emit
    | apply never_raises_raise; discriminate
    | apply svc_fit_never_not_loaded
    | apply never_raises_lift;
      first [ apply (mask_index_never_fails _ not_loaded_is_ValueError)
            | apply (getitem_never_fails _ not_loaded_is_ValueError)
            | apply (column_never_fails _ not_loaded_is_ValueError)
            | apply min_never_not_loaded
            | apply max_never_not_loaded
            | apply unpack3_never_not_loaded ]
    | match goal with
      | |- never_raises _ (match ?x with _ => _ end) => destruct x
      end ].

Lemma train_svm_never_not_loaded class_a class_b :
  never_raises is_not_loaded_error
    (SvmPlaneVariant.train_svm svc_solver class_a class_b).
Proof. unfold SvmPlaneVariant.train_svm. repeat guard_step. Qed.

Lemma axis_range_never_not_loaded pc j :
  never_raises is_not_loaded_error (SvmPlaneVariant.axis_range pc j).
Proof. unfold SvmPlaneVariant.axis_range. repeat guard_step. Qed.

Lemma add_plane_never_not_loaded class_a class_b x_range y_range colorscale name fig :
  never_raises is_not_loaded_error
    (SvmPlaneVariant.add_plane svc_solver class_a class_b x_range y_range
       colorscale name fig).
Proof.
  unfold SvmPlaneVariant.add_plane, SvmPlaneVariant.plot_plane.
  apply never_raises_bind; [apply train_svm_never_not_loaded | intros ?].
  repeat guard_step.
Qed.

Lemma svmplane_loaded_passes_check h pc classes :
  SvmPlaneVariant.point_cloud (self h) = Some pc ->
  SvmPlaneVariant.point_classes (self h) = Some classes ->
  (SvmPlaneVariant.visualize get_cmap svc_solver h).1 <> Raise not_loaded_error.
Proof.
  intros Hpc Hcl E. unfold SvmPlaneVariant.visualize in E.
  unfold bind at 1 in E. unfold get_self at 1 in E. cbv beta iota in E.
  rewrite Hpc, Hcl in E. revert E.
  match goal with |- (?m h).1 = _ -> _ =>
    assert (Hn : never_raises is_not_loaded_error m) end.
  { apply never_raises_bind; [unfold SvmPlaneVariant.get_color_map; repeat guard_step |].
    intros m.
    apply never_raises_bind;
      [apply never_raises_for_each; intros ? ?;
       apply (class_trace_never_raises _ not_loaded_is_ValueError) |].
    intros fig.
    apply never_raises_bind; [apply axis_range_never_not_loaded | intros ?].
    apply never_raises_bind; [apply axis_range_never_not_loaded | intros ?].
    apply never_raises_bind; [apply add_plane_never_not_loaded | intros ?].
    apply never_raises_bind; [apply add_plane_never_not_loaded | intros ?].
    apply never_raises_emit. }
  intros E. by apply (Hn h _ E).
Qed.

Lemma golabel_loaded_passes_check h pc classes :
  GoLabelVariant.point_cloud (self h) = Some pc ->
  GoLabelVariant.point_classes (self h) = Some classes ->
  (GoLabelVariant.visualize get_cmap h).1 <> Raise not_loaded_error.
Proof.
  intros Hpc Hcl E. unfold GoLabelVariant.visualize in E.
  unfold bind at 1 in E. unfold get_self at 1 in E. cbv beta iota in E.
  rewrite Hpc, Hcl in E. revert E.
  match goal with |- (?m h).1 = _ -> _ =>
    assert (Hn : never_raises is_not_loaded_error m) end.
  { apply never_raises_bind;
      [unfold GoLabelVariant.get_color_map;
       apply never_raises_bind; [apply never_raises_get_self | intros ?];
       apply never_raises_ret |].
    intros m.
    apply never_raises_bind;
      [apply never_raises_for_each; intros ? ?;
       apply (class_trace_never_raises _ not_loaded_is_ValueError) |].
    intros fig. apply never_raises_emit. }
  intros E. by apply (Hn h _ E).
Qed.

Lemma pyvista_loaded_passes_check h pc :
  PyVistaVariant.point_cloud (self h) = Some pc ->
  (PyVistaVariant.visualize h).1 <> Raise not_loaded_error.
Proof.
  intros Hpc. unfold PyVistaVariant.visualize, bind, get_self, lift, emit.
  rewrite Hpc. by destruct pc.
Qed.

End Guard.

(** C8 (as amended).  In every variant, [visualize] raises the [ValueError]
    of its opening check if and only if nothing is loaded ([point_cloud] is
    [None] or, in the two variants with labels, [point_classes] is), and it
    then leaves the state as it was; on a loaded visualizer the branch of
    the check is not taken.  What a loaded visualizer raises after the
    check is another matter: the theorem says nothing of it. *)
Theorem visualize_check_iff_not_loaded
    (get_cmap : string -> nat -> nat -> rgba)
    (svc_solver : string -> np.array2 -> list Z -> svm_model) :
  (forall h,
     let unloaded := Open3dVariant.point_cloud (self h) = None in
     ((Open3dVariant.visualize h).1 = Raise not_loaded_error <-> unloaded) /\
     (unloaded -> Open3dVariant.visualize h = (Raise not_loaded_error, h))) /\
  (forall h,
     let unloaded := PyVistaVariant.point_cloud (self h) = None in
     ((PyVistaVariant.visualize h).1 = Raise not_loaded_error <-> unloaded) /\
     (unloaded -> PyVistaVariant.visualize h = (Raise not_loaded_error, h))) /\
  (forall h,
     let unloaded := GoLabelVariant.point_cloud (self h) = None \/
                     GoLabelVariant.point_classes (self h) = None in
     ((GoLabelVariant.visualize get_cmap h).1 = Raise not_loaded_error <-> unloaded) /\
     (unloaded -> GoLabelVariant.visualize get_cmap h = (Raise not_loaded_error, h))) /\
  (forall h,
     let unloaded := SvmPlaneVariant.point_cloud (self h) = None \/
                     SvmPlaneVariant.point_classes (self h) = None in
     ((SvmPlaneVariant.visualize get_cmap svc_solver h).1 = Raise not_loaded_error
      <-> unloaded) /\
     (unloaded ->
      SvmPlaneVariant.visualize get_cmap svc_solver h = (Raise not_loaded_error, h))).
Proof.
  split; [| split; [| split]]; intros h; cbv zeta.
  - unfold Open3dVariant.visualize, bind, get_self, raise, emit.
    destruct (Open3dVariant.point_cloud (self h)); simpl.
    + split; [split; discriminate | discriminate].
    + split; [split; done | done].
  - assert (Hun : PyVistaVariant.point_cloud (self h) = None ->
                  PyVistaVariant.visualize h = (Raise not_loaded_error, h)).
    { unfold PyVistaVariant.visualize, bind, get_self, raise. by intros ->. }
    split; [| exact Hun]. split.
    + intros Hr.
      destruct (PyVistaVariant.point_cloud (self h)) as [pc|] eqn:Hpc; [| done].
      by destruct (pyvista_loaded_passes_check h pc Hpc).
    + intros Hu. by rewrite (Hun Hu).
  - assert (Hun : GoLabelVariant.point_cloud (self h) = None \/
                  GoLabelVariant.point_classes (self h) = None ->
                  GoLabelVariant.visualize get_cmap h = (Raise not_loaded_error, h)).
    { unfold GoLabelVariant.visualize, bind, get_self, raise.
      intros [E | E]; rewrite E; [done |].
      by destruct (GoLabelVariant.point_cloud (self h)). }
    split; [| exact Hun]. split.
    + intros Hr.
      destruct (GoLabelVariant.point_cloud (self h)) as [pc|] eqn:Hpc; [| by left].
      destruct (GoLabelVariant.point_classes (self h)) as [cl|] eqn:Hcl; [| by right].
      by destruct (golabel_loaded_passes_check get_cmap h pc cl Hpc Hcl).
    + intros Hu. by rewrite (Hun Hu).
  - assert (Hun : SvmPlaneVariant.point_cloud (self h) = None \/
                  SvmPlaneVariant.point_classes (self h) = None ->
                  SvmPlaneVariant.visualize get_cmap svc_solver h
                  = (Raise not_loaded_error, h)).
    { unfold SvmPlaneVariant.visualize, bind, get_self, raise.
      intros [E | E]; rewrite E; [done |].
      by destruct (SvmPlaneVariant.point_cloud (self h)). }
    split; [| exact Hun]. split.
    + intros Hr.
      destruct (SvmPlaneVariant.point_cloud (self h)) as [pc|] eqn:Hpc; [| by left].
      destruct (SvmPlaneVariant.point_classes (self h)) as [cl|] eqn:Hcl; [| by right].
      by destruct (svmplane_loaded_passes_check get_cmap svc_solver h pc cl Hpc Hcl).
    + intros Hu. by rewrite (Hun Hu).
Qed.

Lemma visualize_check_iff_not_loaded_witness :
  SvmPlaneVariant.point_cloud (SvmPlaneVariant.init "sample.las") = None /\
  SvmPlaneVariant.visualize sample_cmap sample_solver
    {| self := SvmPlaneVariant.init "sample.las"; log := [] |}
  = (Raise not_loaded_error,
     {| self := SvmPlaneVariant.init "sample.las"; log := [] |}).
Proof.
  split; [reflexivity |].
  apply (proj2 (proj2 (proj2 (visualize_check_iff_not_loaded sample_cmap sample_solver)))
           {| self := SvmPlaneVariant.init "sample.las"; log := [] |}).
  left. reflexivity.
Defined.

(** The same happens in the PyVista variant on a loaded file without
    points: the check passes, and [add_points] refuses the empty cloud with
    a [ValueError]. *)
Example pyvista_loaded_visualize_raises_ValueError :
  let h := (PyVistaVariant.load_las_file empty_read
              {| self := PyVistaVariant.init "empty.las"; log := [] |}).2 in
  PyVistaVariant.point_cloud (self h) = Some [] /\
  raises (PyVistaVariant.visualize h).1 ValueError /\
  (PyVistaVariant.visualize h).1 <> Raise not_loaded_error.
Proof.
  cbv zeta. split; [reflexivity |]. split; [by eexists | discriminate].
Qed.

(** C8, as stated, fails in the variant with the SVM planes: a loaded file
    whose only point has class 1 passes the check, and the fit for the
    classes 1 and 2 then raises a [ValueError], there being one class. *)
Lemma svmplane_loaded_visualize_raises_ValueError :
  SvmPlaneVariant.point_cloud (self one_point_heap) = Some [[1; 2; 3]%Q] /\
  SvmPlaneVariant.point_classes (self one_point_heap) = Some [1] /\
  raises (SvmPlaneVariant.visualize sample_cmap sample_solver one_point_heap).1
    ValueError.
Proof.
  split; [reflexivity |]. split; [reflexivity |].
  eexists. vm_compute. reflexivity.
Qed.

Lemma train_svm_fits_selected_points_witness :
  let pc := map row_of sample_points in
  let classes := map pclass sample_points in
  let sel := selected_points pc classes 1 2 in
  let X := sel.*1 in
  let y := training_label 1 <$> sel.*2 in
  let fit := SvmPlaneVariant.svc_fit sample_solver "linear" X y sample_heap in
  let r := SvmPlaneVariant.train_svm sample_solver 1 2 sample_heap in
  fit.2 = {| self := self sample_heap;
             log := log sample_heap ++ [SvcFit "linear" X y] |} /\
  r.2 = fit.2 /\
  match fit.1 with
  | Raise e => r.1 = Raise e
  | Ok svm =>
      forall a b c d w_rest i_rest,
        coef_ svm = [a; b; c] :: w_rest ->
        intercept_ svm = d :: i_rest ->
        r.1 = Ok (a, b, c, d)
  end.
Proof.
  apply (train_svm_fits_selected_points sample_solver sample_heap
           (map row_of sample_points) (map pclass sample_points) 1 2);
    reflexivity.
Defined.

(** On the sample, the fit is called on the three points of classes 1 and
    2 and the plane of the solver comes back. *)
Example train_svm_on_sample :
  SvmPlaneVariant.train_svm sample_solver 1 2 sample_heap
  = (Ok (1, 2, 4, 3)%float,
     {| self := self sample_heap;
        log := [SvcFit "linear" [[0; 0; 0]; [1; 2; 3]; [4; 5; 7]]%Q [0; 1; 0]] |}).
Proof. reflexivity. Qed.

Lemma selected_of_class (pc : list (list Q)) (classes : list Z) class_a class_b c :
  length pc = length classes ->
  c ∈ classes -> c = class_a \/ c = class_b ->
  c ∈ (selected_points pc classes class_a class_b).*2.
Proof.
  intros Hlen Hc Hab.
  apply list_elem_of_lookup in Hc as [i Hi].
  destruct (lookup_lt_is_Some_2 pc i) as [p Hp];
    [rewrite Hlen; by eapply lookup_lt_Some |].
  apply list_elem_of_fmap. exists (p, c). split; [done |].
  unfold selected_points. apply list_elem_of_filter. split; [done |].
  apply list_elem_of_lookup. exists i.
  unfold zip. apply lookup_zip_with_Some. eauto.
Qed.

(** When both classes occur among the labels, the input passes the checks
    of the fit, and [train_svm] gets the solver's classifier. *)
Lemma svc_fit_accepts_two_classes
    (svc_solver : string -> np.array2 -> list Z -> svm_model)
    (h : heap SvmPlaneVariant.PointCloudVisualizer)
    (pc : list (list Q)) (classes : list Z) (class_a class_b : Z) :
  length pc = length classes ->
  class_a <> class_b -> class_a ∈ classes -> class_b ∈ classes ->
  let sel := selected_points pc classes class_a class_b in
  (SvmPlaneVariant.svc_fit svc_solver "linear" sel.*1
     (training_label class_a <$> sel.*2) h).1
  = Ok (svc_solver "linear" sel.*1 (training_label class_a <$> sel.*2)).
Proof.
  intros Hlen Hab Ha Hb sel.
  assert (Ia : class_a ∈ sel.*2) by (apply selected_of_class; auto).
  assert (Ib : class_b ∈ sel.*2) by (apply selected_of_class; auto).
  set (y := training_label class_a <$> sel.*2).
  assert (H0 : 0 ∈ np.unique y).
  { apply elem_of_unique, list_elem_of_fmap. exists class_a. split; [| done].
    unfold training_label. by rewrite bool_decide_eq_true_2. }
  assert (H1 : 1 ∈ np.unique y).
  { apply elem_of_unique, list_elem_of_fmap. exists class_b. split; [| done].
    unfold training_label. by rewrite bool_decide_eq_false_2. }
  assert (Hu : (2 <= length (np.unique y))%nat).
  { pose proof (unique_NoDup y) as Hnd.
    destruct (np.unique y) as [|u1 [|u2 us]]; simpl; [| | lia].
    - by apply elem_of_nil in H0.
    - apply list_elem_of_singleton in H0, H1. congruence. }
  assert (Hx : length sel.*1 <> 0%nat).
  { rewrite length_fmap, <- (length_fmap snd). destruct (sel.*2); [| done].
    by apply elem_of_nil in Ia. }
  unfold SvmPlaneVariant.svc_fit, bind, emit, raise, ret. cbn [fst snd].
  destruct (Nat.eqb_spec (length sel.*1) 0); [done |].
  assert (Hxy : length sel.*1 = length y)
    by (unfold y; by rewrite !length_fmap).
  rewrite Hxy, Nat.eqb_refl. cbn [negb].
  destruct (Nat.ltb_spec (length (np.unique y)) 2); [lia | reflexivity].
Qed.

(** * Further properties of the code *)

(** ** load_las_file: failure, reloading, alignment of rows and labels *)

Lemma open3d_load_fails laspy_read (h : heap Open3dVariant.PointCloudVisualizer) e :
  laspy_read (Open3dVariant.file_path (self h)) = Raise e ->
  Open3dVariant.load_las_file laspy_read h = (Raise e, h).
Proof. intros E. unfold Open3dVariant.load_las_file, bind, get_self, lift. by rewrite E. Qed.

Lemma pyvista_load_fails laspy_read (h : heap PyVistaVariant.PointCloudVisualizer) e :
  laspy_read (PyVistaVariant.file_path (self h)) = Raise e ->
  PyVistaVariant.load_las_file laspy_read h = (Raise e, h).
Proof. intros E. unfold PyVistaVariant.load_las_file, bind, get_self, lift. by rewrite E. Qed.

Lemma golabel_load_fails laspy_read (h : heap GoLabelVariant.PointCloudVisualizer) e :
  laspy_read (GoLabelVariant.file_path (self h)) = Raise e ->
  GoLabelVariant.load_las_file laspy_read h = (Raise e, h).
Proof. intros E. unfold GoLabelVariant.load_las_file, bind, get_self, lift. by rewrite E. Qed.

Lemma svmplane_load_fails laspy_read (h : heap SvmPlaneVariant.PointCloudVisualizer) e :
  laspy_read (SvmPlaneVariant.file_path (self h)) = Raise e ->
  SvmPlaneVariant.load_las_file laspy_read h = (Raise e, h).
Proof. intros E. unfold SvmPlaneVariant.load_las_file, bind, get_self, lift. by rewrite E. Qed.

(** When the file cannot be read, [load_las_file] raises the reader's
    exception and the visualizer is as it was: what an earlier load stored
    stays in place. *)
Theorem load_las_file_failure_keeps_state
    (laspy_read : string -> outcome las_data) (e : exception) :
  (forall h, laspy_read (Open3dVariant.file_path (self h)) = Raise e ->
     Open3dVariant.load_las_file laspy_read h = (Raise e, h)) /\
  (forall h, laspy_read (PyVistaVariant.file_path (self h)) = Raise e ->
     PyVistaVariant.load_las_file laspy_read h = (Raise e, h)) /\
  (forall h, laspy_read (GoLabelVariant.file_path (self h)) = Raise e ->
     GoLabelVariant.load_las_file laspy_read h = (Raise e, h)) /\
  (forall h, laspy_read (SvmPlaneVariant.file_path (self h)) = Raise e ->
     SvmPlaneVariant.load_las_file laspy_read h = (Raise e, h)).
Proof.
  split; [| split; [| split]]; intros h E.
  - by apply open3d_load_fails.
  - by apply pyvista_load_fails.
  - by apply golabel_load_fails.
  - by apply svmplane_load_fails.
Qed.

Lemma load_las_file_failure_keeps_state_witness :
  let e := {| exc_type := FileNotFoundError; exc_str := "sample.las" |} in
  missing_read (SvmPlaneVariant.file_path (self sample_heap)) = Raise e /\
  SvmPlaneVariant.load_las_file missing_read sample_heap = (Raise e, sample_heap).
Proof.
  split; [reflexivity |].
  apply (proj2 (proj2 (proj2 (load_las_file_failure_keeps_state missing_read
           {| exc_type := FileNotFoundError; exc_str := "sample.las" |})))).
  reflexivity.
Defined.

(** A load replaces what was stored: the attributes after a successful load
    depend on the path and on the file only, so two visualizers of one path
    hold the same data after loading, whatever they held before. *)
Theorem load_las_file_replaces_stored_data
    (laspy_read : string -> outcome las_data) (path : string) (las : las_data) :
  laspy_read path = Ok las ->
  (forall h h', Open3dVariant.file_path (self h) = path ->
     Open3dVariant.file_path (self h') = path ->
     self (Open3dVariant.load_las_file laspy_read h).2
     = self (Open3dVariant.load_las_file laspy_read h').2) /\
  (forall h h', PyVistaVariant.file_path (self h) = path ->
     PyVistaVariant.file_path (self h') = path ->
     self (PyVistaVariant.load_las_file laspy_read h).2
     = self (PyVistaVariant.load_las_file laspy_read h').2) /\
  (forall h h', GoLabelVariant.file_path (self h) = path ->
     GoLabelVariant.file_path (self h') = path ->
     self (GoLabelVariant.load_las_file laspy_read h).2
     = self (GoLabelVariant.load_las_file laspy_read h').2) /\
  (forall h h', SvmPlaneVariant.file_path (self h) = path ->
     SvmPlaneVariant.file_path (self h') = path ->
     self (SvmPlaneVariant.load_las_file laspy_read h).2
     = self (SvmPlaneVariant.load_las_file laspy_read h').2).
Proof.
  intros Hread. split; [| split; [| split]]; intros h h' Hp Hp';
    rewrite <- Hp in Hread; pose proof Hread as Hread'; rewrite Hp, <- Hp' in Hread'.
  - rewrite (open3d_load_ok _ _ _ Hread), (open3d_load_ok _ _ _ Hread'). simpl. congruence.
  - rewrite (pyvista_load_ok _ _ _ Hread), (pyvista_load_ok _ _ _ Hread'). simpl. congruence.
  - rewrite (golabel_load_ok _ _ _ Hread), (golabel_load_ok _ _ _ Hread'). simpl. congruence.
  - rewrite (svmplane_load_ok _ _ _ Hread), (svmplane_load_ok _ _ _ Hread'). simpl. congruence.
Qed.

Lemma load_las_file_replaces_stored_data_witness :
  sample_read "sample.las" = Ok sample_las /\
  self (SvmPlaneVariant.load_las_file sample_read sample_heap).2
  = self (SvmPlaneVariant.load_las_file sample_read
            {| self := SvmPlaneVariant.init "sample.las"; log := [] |}).2.
Proof.
  split; [reflexivity |].
  apply (proj2 (proj2 (proj2 (load_las_file_replaces_stored_data sample_read
           "sample.las" sample_las eq_refl)))); reflexivity.
Defined.

(** In the two variants with labels, row [i] of the stored array and label
    [i] of the stored labels come from the same point of the file. *)
Theorem load_las_file_aligns_rows_and_labels
    (laspy_read : string -> outcome las_data) (path : string) (las : las_data) :
  laspy_read path = Ok las ->
  (forall h, GoLabelVariant.file_path (self h) = path ->
     exists rows labels,
       GoLabelVariant.point_cloud (self (GoLabelVariant.load_las_file laspy_read h).2)
         = Some rows /\
       GoLabelVariant.point_classes (self (GoLabelVariant.load_las_file laspy_read h).2)
         = Some labels /\
       forall i p, las_points las !! i = Some p ->
         rows !! i = Some [px p; py p; pz p] /\ labels !! i = Some (pclass p)) /\
  (forall h, SvmPlaneVariant.file_path (self h) = path ->
     exists rows labels,
       SvmPlaneVariant.point_cloud (self (SvmPlaneVariant.load_las_file laspy_read h).2)
         = Some rows /\
       SvmPlaneVariant.point_classes (self (SvmPlaneVariant.load_las_file laspy_read h).2)
         = Some labels /\
       forall i p, las_points las !! i = Some p ->
         rows !! i = Some [px p; py p; pz p] /\ labels !! i = Some (pclass p)).
Proof.
  intros Hread. split; intros h Hp; subst path.
  - rewrite (golabel_load_ok _ _ _ Hread).
    exists (map row_of (las_points las)), (las_classification las).
    split; [reflexivity |]. split; [reflexivity |].
    intros i p Hi. unfold las_classification, np.array2.
    split; rewrite lookup_map, Hi; done.
  - rewrite (svmplane_load_ok _ _ _ Hread).
    exists (map row_of (las_points las)), (las_classification las).
    split; [reflexivity |]. split; [reflexivity |].
    intros i p Hi. unfold las_classification, np.array2.
    split; rewrite lookup_map, Hi; done.
Qed.

Lemma load_las_file_aligns_rows_and_labels_witness :
  sample_read "sample.las" = Ok sample_las /\
  exists rows labels,
    SvmPlaneVariant.point_cloud (self sample_heap) = Some rows /\
    SvmPlaneVariant.point_classes (self sample_heap) = Some labels /\
    forall i p, las_points sample_las !! i = Some p ->
      rows !! i = Some [px p; py p; pz p] /\ labels !! i = Some (pclass p).
Proof.
  split; [reflexivity |].
  apply (proj2 (load_las_file_aligns_rows_and_labels sample_read "sample.las"
                  sample_las eq_refl)
           {| self := SvmPlaneVariant.init "sample.las"; log := [] |}).
  reflexivity.
Defined.

(** ** The scripts of the two variants without labels *)

(** The Open3D script either draws the points of the file once, in the order
    of the file, or ends with the reader's exception without having drawn
    anything; the check of [visualize] cannot fire, the load coming first. *)
Theorem open3d_script_outcomes (laspy_read : string -> outcome las_data)
    (las_file_path : string) :
  Scripts.open3d_script laspy_read las_file_path =
  match laspy_read las_file_path with
  | Ok las =>
      let rows := map row_of (las_points las) in
      (Ok tt,
       {| self := {| Open3dVariant.file_path := las_file_path;
                     Open3dVariant.point_cloud := Some rows |};
          log := [O3dDrawGeometries [rows]] |})
  | Raise e =>
      (Raise e, {| self := Open3dVariant.init las_file_path; log := [] |})
  end.
Proof.
  unfold Scripts.open3d_script.
  destruct (laspy_read las_file_path) as [las | e] eqn:E.
  - rewrite (bind_ok _ _ _ _ _
               (open3d_load_ok laspy_read
                  {| self := Open3dVariant.init las_file_path; log := [] |} las E)).
    reflexivity.
  - rewrite (bind_raise _ _ _ _ _
               (open3d_load_fails laspy_read
                  {| self := Open3dVariant.init las_file_path; log := [] |} e E)).
    reflexivity.
Qed.

(** The PyVista script prints the path and then ends in one of three ways:
    with the reader's exception, the path being all it has printed; with
    the [ValueError] of [add_points] when the file has no points, nothing
    having been shown; or having shown the points of the file once (white,
    size 2, as spheres, on black). *)
Theorem pyvista_script_outcomes (laspy_read : string -> outcome las_data)
    (las_file_path : string) :
  Scripts.pyvista_script laspy_read las_file_path =
  match laspy_read las_file_path with
  | Ok las =>
      let rows := map row_of (las_points las) in
      let loaded := {| PyVistaVariant.file_path := las_file_path;
                       PyVistaVariant.point_cloud := Some rows |} in
      match las_points las with
      | [] =>
          (Raise {| exc_type := ValueError;
                    exc_str := "Empty meshes cannot be plotted. Input mesh has zero points." |},
           {| self := loaded; log := [Print las_file_path] |})
      | _ :: _ =>
          (Ok tt,
           {| self := loaded;
              log := [Print las_file_path;
                      PvShow [{| pv_cloud := rows; pv_color := "white";
                                 pv_point_size := 2; pv_spheres := true |}] "black"] |})
      end
  | Raise e =>
      (Raise e,
       {| self := PyVistaVariant.init las_file_path; log := [Print las_file_path] |})
  end.
Proof.
  unfold Scripts.pyvista_script. unfold bind at 1. unfold emit at 1.
  cbn [self log app].
  destruct (laspy_read las_file_path) as [las | e] eqn:E.
  - rewrite (bind_ok _ _ _ _ _
               (pyvista_load_ok laspy_read
                  {| self := PyVistaVariant.init las_file_path;
                     log := [Print las_file_path] |} las E)).
    by destruct (las_points las).
  - rewrite (bind_raise _ _ _ _ _
               (pyvista_load_fails laspy_read
                  {| self := PyVistaVariant.init las_file_path;
                     log := [Print las_file_path] |} e E)).
    reflexivity.
Qed.

(** ** utils/read_npy_file.py: the script *)

(** The script prints either the two lines of a successful load or the one
    line of a failed one, never both; it ends with an exception only when
    the load raised one outside [Exception]. *)
Theorem read_npy_script_outcomes (ndarray : Type)
    (np_load : string -> outcome ndarray) (str_array : ndarray -> string)
    (file_path : string) (h : heap unit) :
  Scripts.read_npy_script ndarray np_load str_array file_path h =
  match np_load file_path with
  | Ok data =>
      (Ok tt,
       {| self := self h;
          log := log h ++ [Print "Data loaded successfully:";
                           Print (str_array data)] |})
  | Raise e =>
      if is_Exception (exc_type e)
      then (Ok tt,
            {| self := self h;
               log := log h ++ [Print ("An error occurred: " ++ exc_str e)] |})
      else (Raise e, h)
  end.
Proof.
  unfold Scripts.read_npy_script, ReadNpy.read_npy_file, try_except_Exception,
    bind, lift, ret, emit.
  destruct (np_load file_path) as [data | e]; cbn [self log].
  - by rewrite <- app_assoc.
  - destruct (is_Exception (exc_type e)); reflexivity.
Qed.

(** ** utils/utils_range.py: failures, the script, and the ranges of visualize *)

Lemma get_xyz_ranges_run (laspy_read : string -> outcome las_data)
    (file_path : string) (las : las_data) (h : heap unit) :
  laspy_read file_path = Ok las ->
  las_points las <> [] ->
  exists rx ry rz,
    np.min (las_x las) = Ok rx.1 /\ np.max (las_x las) = Ok rx.2 /\
    np.min (las_y las) = Ok ry.1 /\ np.max (las_y las) = Ok ry.2 /\
    np.min (las_z las) = Ok rz.1 /\ np.max (las_z las) = Ok rz.2 /\
    is_min_max (las_x las) rx /\ is_min_max (las_y las) ry /\
    is_min_max (las_z las) rz /\
    UtilsRange.get_xyz_ranges laspy_read file_path h
    = (Ok (<["z_range" := rz]> (<["y_range" := ry]> (<["x_range" := rx]> ∅))), h).
Proof.
  intros Hread Hne.
  assert (Hx : las_x las <> []) by (unfold las_x; destruct (las_points las); done).
  assert (Hy : las_y las <> []) by (unfold las_y; destruct (las_points las); done).
  assert (Hz : las_z las <> []) by (unfold las_z; destruct (las_points las); done).
  destruct (np_min_max_nonempty _ Hx) as (xlo & xhi & Ex1 & Ex2 & Hxr).
  destruct (np_min_max_nonempty _ Hy) as (ylo & yhi & Ey1 & Ey2 & Hyr).
  destruct (np_min_max_nonempty _ Hz) as (zlo & zhi & Ez1 & Ez2 & Hzr).
  exists (xlo, xhi), (ylo, yhi), (zlo, zhi). cbn [fst snd].
  do 9 (split; [assumption |]).
  unfold UtilsRange.get_xyz_ranges.
  rewrite (bind_lift_ok _ _ _ _ Hread).
  rewrite (bind_lift_ok _ _ _ _ Ex1), (bind_lift_ok _ _ _ _ Ex2).
  rewrite (bind_lift_ok _ _ _ _ Ey1), (bind_lift_ok _ _ _ _ Ey2).
  rewrite (bind_lift_ok _ _ _ _ Ez1), (bind_lift_ok _ _ _ _ Ez2).
  reflexivity.
Qed.

(** [get_xyz_ranges] fails in two cases only, and changes nothing then: the
    file cannot be read (the reader's exception comes out), or it has no
    points ([np.min] raises a [ValueError]).  In every other case it
    returns. *)
Theorem get_xyz_ranges_failures (laspy_read : string -> outcome las_data)
    (file_path : string) (h : heap unit) :
  let r := UtilsRange.get_xyz_ranges laspy_read file_path h in
  r.2 = h /\
  match laspy_read file_path with
  | Raise e => r.1 = Raise e
  | Ok las =>
      match las_points las with
      | [] => raises r.1 ValueError
      | _ :: _ => is_ok r.1 = true
      end
  end.
Proof.
  cbv zeta. destruct (laspy_read file_path) as [las | e] eqn:E.
  - destruct (las_points las) as [|p pts] eqn:Hp.
    + unfold UtilsRange.get_xyz_ranges. rewrite (bind_lift_ok _ _ _ _ E).
      unfold las_x. rewrite Hp. cbn. split; [done | by eexists].
    + destruct (get_xyz_ranges_run laspy_read file_path las h E)
        as (rx & ry & rz & _ & _ & _ & _ & _ & _ & _ & _ & _ & ->);
        [by rewrite Hp | done].
  - unfold UtilsRange.get_xyz_ranges, bind, lift. by rewrite E.
Qed.

(** For a file with at least one point the script prints three lines, for
    X, Y and Z in this order, each with the (least, greatest) pair of its
    coordinate; the three dictionary lookups find their keys. *)
Theorem utils_range_script_prints_three_ranges
    (laspy_read : string -> outcome las_data) (str_range : Q * Q -> string)
    (las_file_path : string) (las : las_data) (h : heap unit) :
  laspy_read las_file_path = Ok las ->
  las_points las <> [] ->
  exists rx ry rz,
    is_min_max (las_x las) rx /\ is_min_max (las_y las) ry /\
    is_min_max (las_z las) rz /\
    Scripts.utils_range_script laspy_read str_range las_file_path h
    = (Ok tt,
       {| self := self h;
          log := log h ++ [Print ("X Range: " ++ str_range rx);
                           Print ("Y Range: " ++ str_range ry);
                           Print ("Z Range: " ++ str_range rz)] |}).
Proof.
  intros Hread Hne.
  destruct (get_xyz_ranges_run laspy_read las_file_path las h Hread Hne)
    as (rx & ry & rz & _ & _ & _ & _ & _ & _ & Hx & Hy & Hz & Hrun).
  exists rx, ry, rz. do 3 (split; [assumption |]).
  unfold Scripts.utils_range_script. rewrite (bind_ok _ _ _ _ _ Hrun).
  unfold bind, lift, emit, dict_getitem. simplify_map_eq. cbn [self log].
  by rewrite <- !app_assoc.
Qed.

Lemma utils_range_script_prints_three_ranges_witness :
  sample_read "sample.las" = Ok sample_las /\
  exists rx ry rz,
    is_min_max (las_x sample_las) rx /\ is_min_max (las_y sample_las) ry /\
    is_min_max (las_z sample_las) rz /\
    Scripts.utils_range_script sample_read (fun _ => "(lo, hi)") "sample.las"
      {| self := tt; log := [] |}
    = (Ok tt,
       {| self := tt;
          log := [] ++ [Print ("X Range: " ++ "(lo, hi)");
                        Print ("Y Range: " ++ "(lo, hi)");
                        Print ("Z Range: " ++ "(lo, hi)")] |}).
Proof.
  split; [reflexivity |].
  apply (utils_range_script_prints_three_ranges sample_read (fun _ => "(lo, hi)")
           "sample.las" sample_las {| self := tt; log := [] |}).
  - reflexivity.
  - discriminate.
Defined.

Lemma axis_range_of_rows (pts : list las_point)
    (h : heap SvmPlaneVariant.PointCloudVisualizer) (rx ry : Q * Q) :
  np.min (px <$> pts) = Ok rx.1 -> np.max (px <$> pts) = Ok rx.2 ->
  np.min (py <$> pts) = Ok ry.1 -> np.max (py <$> pts) = Ok ry.2 ->
  SvmPlaneVariant.axis_range (map row_of pts) 0 h = (Ok rx, h) /\
  SvmPlaneVariant.axis_range (map row_of pts) 1 h = (Ok ry, h).
Proof.
  intros X1 X2 Y1 Y2. destruct (columns_of_rows pts) as (C0 & C1 & _).
  unfold SvmPlaneVariant.axis_range. split.
  - rewrite (bind_lift_ok _ _ _ _ C0), (bind_lift_ok _ _ _ _ X1),
      (bind_lift_ok _ _ _ _ C0), (bind_lift_ok _ _ _ _ X2).
    by destruct rx.
  - rewrite (bind_lift_ok _ _ _ _ C1), (bind_lift_ok _ _ _ _ Y1),
      (bind_lift_ok _ _ _ _ C1), (bind_lift_ok _ _ _ _ Y2).
    by destruct ry.
Qed.

(** The x and y ranges over which [visualize] samples the two planes are
    the ranges that [get_xyz_ranges] reports for the same file. *)
Theorem visualize_ranges_are_file_ranges
    (laspy_read : string -> outcome las_data) (path : string) (las : las_data)
    (hu : heap unit) (hv : heap SvmPlaneVariant.PointCloudVisualizer) :
  laspy_read path = Ok las ->
  las_points las <> [] ->
  SvmPlaneVariant.file_path (self hv) = path ->
  exists (d : gmap string (Q * Q)) (pc : np.array2) (rx ry : Q * Q),
    UtilsRange.get_xyz_ranges laspy_read path hu = (Ok d, hu) /\
    d !! "x_range" = Some rx /\ d !! "y_range" = Some ry /\
    SvmPlaneVariant.point_cloud (self (SvmPlaneVariant.load_las_file laspy_read hv).2)
      = Some pc /\
    forall h, SvmPlaneVariant.axis_range pc 0 h = (Ok rx, h) /\
              SvmPlaneVariant.axis_range pc 1 h = (Ok ry, h).
Proof.
  intros Hread Hne Hp. subst path.
  destruct (get_xyz_ranges_run laspy_read _ las hu Hread Hne)
    as (rx & ry & rz & X1 & X2 & Y1 & Y2 & _ & _ & _ & _ & _ & Hrun).
  eexists _, (map row_of (las_points las)), rx, ry.
  split; [exact Hrun |].
  split; [by simplify_map_eq |]. split; [by simplify_map_eq |].
  split; [by rewrite (svmplane_load_ok _ _ _ Hread) |].
  intros h. by apply axis_range_of_rows.
Qed.

Lemma visualize_ranges_are_file_ranges_witness :
  sample_read "sample.las" = Ok sample_las /\
  exists (d : gmap string (Q * Q)) (pc : np.array2) (rx ry : Q * Q),
    UtilsRange.get_xyz_ranges sample_read "sample.las" {| self := tt; log := [] |}
      = (Ok d, {| self := tt; log := [] |}) /\
    d !! "x_range" = Some rx /\ d !! "y_range" = Some ry /\
    SvmPlaneVariant.point_cloud (self sample_heap) = Some pc /\
    forall h, SvmPlaneVariant.axis_range pc 0 h = (Ok rx, h) /\
              SvmPlaneVariant.axis_range pc 1 h = (Ok ry, h).
Proof.
  split; [reflexivity |].
  apply (visualize_ranges_are_file_ranges sample_read "sample.las" sample_las
           {| self := tt; log := [] |}
           {| self := SvmPlaneVariant.init "sample.las"; log := [] |}).
  - reflexivity.
  - discriminate.
  - reflexivity.
Defined.

(** ** get_color_map: the colour of a label *)

Lemma fold_insert_lookup_other `{Countable K} {V} (items : list (K * V))
    (d : gmap K V) (k : K) :
  k ∉ items.*1 ->
  fold_left (fun d kv => <[kv.1 := kv.2]> d) items d !! k = d !! k.
Proof.
  revert d. induction items as [|[k0 v0] items IH]; intros d Hk; [done |].
  simpl in *. apply not_elem_of_cons in Hk as [Hne Hk].
  rewrite IH by done. by rewrite lookup_insert_ne.
Qed.

Lemma dict_of_lookup `{Countable K} {V} (items : list (K * V)) (i : nat) (k : K) (v : V) :
  NoDup items.*1 -> items !! i = Some (k, v) -> dict_of items !! k = Some v.
Proof.
  unfold dict_of. generalize (∅ : gmap K V). revert i.
  induction items as [|[k0 v0] items IH]; intros i d Hnd Hi; [done |].
  simpl in *. apply NoDup_cons in Hnd as [Hk0 Hnd].
  destruct i as [|i]; simpl in Hi.
  - injection Hi as -> ->.
    rewrite fold_insert_lookup_other by done. by rewrite lookup_insert_eq.
  - by eapply IH.
Qed.

Lemma color_items_lookup (cmap : nat -> rgba) (labels : list (option Z)) i l :
  labels !! i = Some l ->
  color_items cmap labels !! i = Some (l, rgb_of (cmap i)).
Proof.
  intros Hi. unfold color_items. by rewrite list_lookup_imap, Hi.
Qed.

Lemma color_map_lookup (cmap : nat -> rgba) (classes : list Z) (i : nat) (cls : Z) :
  np.unique classes !! i = Some cls ->
  dict_of (color_items cmap (unique_labels (Some classes))) !! Some cls
  = Some (rgb_of (cmap i)).
Proof.
  intros Hi. apply (dict_of_lookup _ i).
  - rewrite color_items_keys. simpl.
    change (map Some (np.unique classes)) with (Some <$> np.unique classes).
    apply NoDup_fmap; [intros ? ? [=]; done | apply unique_NoDup].
  - apply color_items_lookup. simpl. by rewrite lookup_map, Hi.
Qed.

(** [get_color_map] asks the colour table for as many colours as there are
    distinct labels and gives the label of rank [i] (in increasing order)
    the first three components of colour [i]. *)
Theorem get_color_map_colours_by_rank
    (get_cmap : string -> nat -> nat -> rgba)
    (h : heap GoLabelVariant.PointCloudVisualizer) (classes : list Z) :
  GoLabelVariant.point_classes (self h) = Some classes ->
  exists m : gmap (option Z) (float * float * float),
    GoLabelVariant.get_color_map get_cmap h = (Ok m, h) /\
    stdpp.base.size m = length (np.unique classes) /\
    forall i cls, np.unique classes !! i = Some cls ->
      m !! Some cls
      = Some (rgb_of (get_cmap "tab20" (length (np.unique classes)) i)).
Proof.
  intros Hcl. unfold GoLabelVariant.get_color_map, bind, get_self, ret.
  rewrite Hcl. eexists. split; [reflexivity |].
  assert (Hlen : length (unique_labels (Some classes)) = length (np.unique classes))
    by apply length_map.
  rewrite Hlen. split.
  - rewrite <- size_dom, color_map_keys.
    assert (Hs : (list_to_set (Some <$> classes) : gset (option Z))
                 = list_to_set (Some <$> np.unique classes)).
    { apply set_eq. intros k. rewrite !elem_of_list_to_set, !list_elem_of_fmap.
      setoid_rewrite elem_of_unique. done. }
    rewrite Hs, size_list_to_set, length_fmap; [done |].
    apply NoDup_fmap; [intros ? ? [=]; done | apply unique_NoDup].
  - intros i cls Hi. by apply color_map_lookup.
Qed.

Lemma get_color_map_colours_by_rank_witness :
  GoLabelVariant.point_classes
    {| GoLabelVariant.file_path := "sample.las";
       GoLabelVariant.point_cloud := None;
       GoLabelVariant.point_classes := Some [3; 1; 3; 2] |} = Some [3; 1; 3; 2] /\
  exists m : gmap (option Z) (float * float * float),
    GoLabelVariant.get_color_map sample_cmap
      {| self := {| GoLabelVariant.file_path := "sample.las";
                    GoLabelVariant.point_cloud := None;
                    GoLabelVariant.point_classes := Some [3; 1; 3; 2] |};
         log := [] |}
    = (Ok m, {| self := {| GoLabelVariant.file_path := "sample.las";
                           GoLabelVariant.point_cloud := None;
                           GoLabelVariant.point_classes := Some [3; 1; 3; 2] |};
                log := [] |}) /\
    stdpp.base.size m = length (np.unique [3; 1; 3; 2]) /\
    forall i cls, np.unique [3; 1; 3; 2] !! i = Some cls ->
      m !! Some cls
      = Some (rgb_of (sample_cmap "tab20" (length (np.unique [3; 1; 3; 2])) i)).
Proof.
  split; [reflexivity |].
  apply (get_color_map_colours_by_rank sample_cmap
           {| self := {| GoLabelVariant.file_path := "sample.las";
                         GoLabelVariant.point_cloud := None;
                         GoLabelVariant.point_classes := Some [3; 1; 3; 2] |};
              log := [] |} [3; 1; 3; 2]).
  reflexivity.
Defined.

(** ** The figure of the class-colour variant *)

Lemma color_map_has_labels (cmap : nat -> rgba) (classes : list Z) (cls : Z) :
  cls ∈ np.unique classes ->
  is_Some (dict_of (color_items cmap (unique_labels (Some classes))) !! Some cls).
Proof.
  intros Hc. apply list_elem_of_lookup in Hc as [i Hi].
  rewrite (color_map_lookup cmap classes i cls Hi). by eexists.
Qed.

Lemma golabel_visualize_run (get_cmap : string -> nat -> nat -> rgba)
    (h : heap GoLabelVariant.PointCloudVisualizer) (pts : list las_point) :
  GoLabelVariant.point_cloud (self h) = Some (map row_of pts) ->
  GoLabelVariant.point_classes (self h) = Some (map pclass pts) ->
  let labels := np.unique (map pclass pts) in
  let m := dict_of (color_items (get_cmap "tab20" (length (unique_labels (Some (map pclass pts)))))
                      (unique_labels (Some (map pclass pts)))) in
  GoLabelVariant.visualize get_cmap h
  = (Ok tt,
     {| self := self h;
        log := log h ++ [PioShow {| data := class_scatter pts (colour_in m) <$> labels;
                                    fig_layout := Some view_3d |}] |}).
Proof.
  intros Hpc Hcl. cbv zeta.
  set (m := dict_of _).
  assert (Hmap : GoLabelVariant.get_color_map get_cmap h = (Ok m, h)).
  { unfold GoLabelVariant.get_color_map, bind, get_self, ret. by rewrite Hcl. }
  unfold GoLabelVariant.visualize.
  unfold bind at 1. unfold get_self at 1. cbv beta iota. rewrite Hpc, Hcl.
  rewrite (bind_ok _ _ _ _ _ Hmap).
  rewrite (bind_ok _ _ _ _ _
             (for_each_class_trace pts m (np.unique (map pclass pts)) go_Figure h
                (fun cls Hc => color_map_has_labels _ _ cls Hc))).
  reflexivity.
Qed.

(** The traces of the shown figure come in increasing order of the label,
    one per label of the file, and the trace of label [l] is named
    "Class l". *)
Theorem visualize_legend_in_label_order
    (laspy_read : string -> outcome las_data)
    (get_cmap : string -> nat -> nat -> rgba)
    (h : heap GoLabelVariant.PointCloudVisualizer) (las : las_data) :
  laspy_read (GoLabelVariant.file_path (self h)) = Ok las ->
  let h1 := (GoLabelVariant.load_las_file laspy_read h).2 in
  exists (fig : figure) (labels : list Z),
    GoLabelVariant.visualize get_cmap h1
      = (Ok tt, {| self := self h1; log := log h1 ++ [PioShow fig] |}) /\
    trace_name <$> data fig = (fun l => "Class " ++ pretty l) <$> labels /\
    StronglySorted Z.lt labels /\
    (forall l, l ∈ labels <-> l ∈ las_classification las) /\
    fig_layout fig = Some view_3d.
Proof.
  intros Hread. cbv zeta. rewrite (golabel_load_ok _ _ _ Hread). cbn [snd].
  eexists _, (np.unique (las_classification las)).
  split; [apply (golabel_visualize_run get_cmap _ (las_points las)); reflexivity |].
  cbn [data fig_layout]. split.
  - rewrite <- list_fmap_compose. reflexivity.
  - split; [apply unique_increasing |]. split; [apply elem_of_unique | done].
Qed.

Lemma visualize_legend_in_label_order_witness :
  sample_read "sample.las" = Ok sample_las /\
  let h1 := (GoLabelVariant.load_las_file sample_read
               {| self := GoLabelVariant.init "sample.las"; log := [] |}).2 in
  exists (fig : figure) (labels : list Z),
    GoLabelVariant.visualize sample_cmap h1
      = (Ok tt, {| self := self h1; log := log h1 ++ [PioShow fig] |}) /\
    trace_name <$> data fig = (fun l => "Class " ++ pretty l) <$> labels /\
    StronglySorted Z.lt labels /\
    (forall l, l ∈ labels <-> l ∈ las_classification sample_las) /\
    fig_layout fig = Some view_3d.
Proof.
  split; [reflexivity |].
  apply (visualize_legend_in_label_order sample_read sample_cmap
           {| self := GoLabelVariant.init "sample.las"; log := [] |} sample_las).
  reflexivity.
Defined.

Lemma indicator_sum_NoDup (labels : list Z) (c : Z) :
  NoDup labels -> c ∈ labels ->
  sum_list ((fun l => if decide (c = l) then 1 else 0)%nat <$> labels) = 1%nat.
Proof.
  induction 1 as [|l labels Hl Hnd IH]; intros Hc; [by apply elem_of_nil in Hc |].
  csimpl. apply elem_of_cons in Hc as [-> | Hc].
  - rewrite decide_True by done.
    assert (E : sum_list ((fun l0 => if decide (l = l0) then 1 else 0)%nat <$> labels)
                = 0%nat); [| by rewrite E].
    clear IH Hnd. induction labels as [|l' labels IH]; [done |].
    csimpl. apply not_elem_of_cons in Hl as [Hne Hl].
    rewrite decide_False by done. by rewrite IH.
  - rewrite decide_False by (intros ->; done). by rewrite IH.
Qed.

Lemma class_counts_sum (pts : list las_point) (labels : list Z) :
  NoDup labels -> (forall p, p ∈ pts -> pclass p ∈ labels) ->
  sum_list ((fun l => length (filter (fun p => pclass p = l) pts)) <$> labels)
  = length pts.
Proof.
  intros Hnd. induction pts as [|p pts IH]; intros Hin.
  - clear Hnd Hin. induction labels as [|l labels IHl]; [done |].
    csimpl. apply IHl.
  - assert (Hp : pclass p ∈ labels) by (apply Hin; by left).
    specialize (IH (fun q Hq => Hin q (list_elem_of_further _ _ _ Hq))).
    pose proof (indicator_sum_NoDup labels (pclass p) Hnd Hp) as H1.
    cbn [length]. rewrite <- IH, <- Nat.add_1_l, <- H1.
    clear. induction labels as [|l labels IHl]; [done |].
    csimpl. rewrite filter_cons, IHl.
    destruct (decide (pclass p = l)); simpl; lia.
Qed.

(** The traces share the points of the file among them: every point is
    drawn in exactly one trace, so the sizes of the traces add up to the
    number of points. *)
Theorem visualize_traces_share_the_points
    (laspy_read : string -> outcome las_data)
    (get_cmap : string -> nat -> nat -> rgba)
    (h : heap GoLabelVariant.PointCloudVisualizer) (las : las_data) :
  laspy_read (GoLabelVariant.file_path (self h)) = Ok las ->
  let h1 := (GoLabelVariant.load_las_file laspy_read h).2 in
  exists fig : figure,
    GoLabelVariant.visualize get_cmap h1
      = (Ok tt, {| self := self h1; log := log h1 ++ [PioShow fig] |}) /\
    sum_list (trace_points <$> data fig) = length (las_points las).
Proof.
  intros Hread. cbv zeta. rewrite (golabel_load_ok _ _ _ Hread). cbn [snd].
  eexists.
  split; [apply (golabel_visualize_run get_cmap _ (las_points las)); reflexivity |].
  cbn [data]. rewrite <- list_fmap_compose.
  rewrite <- (class_counts_sum (las_points las) (np.unique (map pclass (las_points las)))).
  - f_equal. apply list_fmap_ext. intros i l _. simpl. by rewrite length_fmap.
  - apply unique_NoDup.
  - intros p Hp. apply elem_of_unique.
    change (map pclass (las_points las)) with (pclass <$> las_points las).
    apply list_elem_of_fmap. eauto.
Qed.

Lemma visualize_traces_share_the_points_witness :
  sample_read "sample.las" = Ok sample_las /\
  let h1 := (GoLabelVariant.load_las_file sample_read
               {| self := GoLabelVariant.init "sample.las"; log := [] |}).2 in
  exists fig : figure,
    GoLabelVariant.visualize sample_cmap h1
      = (Ok tt, {| self := self h1; log := log h1 ++ [PioShow fig] |}) /\
    sum_list (trace_points <$> data fig) = length (las_points sample_las).
Proof.
  split; [reflexivity |].
  apply (visualize_traces_share_the_points sample_read sample_cmap
           {| self := GoLabelVariant.init "sample.las"; log := [] |} sample_las).
  reflexivity.
Defined.

Lemma unique_nil_iff (arr : list Z) : np.unique arr = [] <-> arr = [].
Proof.
  split; [| by intros ->].
  intros E. destruct arr as [|c arr]; [done |].
  assert (Hc : c ∈ np.unique (c :: arr)) by (apply elem_of_unique; by left).
  rewrite E in Hc. by apply elem_of_nil in Hc.
Qed.

(** The script of the class-colour variant either shows one figure or ends
    with the reader's exception, nothing shown; the check of [visualize]
    cannot fire.  A file without points gives a figure without traces, and
    only such a file does. *)
Theorem golabel_script_outcomes
    (laspy_read : string -> outcome las_data)
    (get_cmap : string -> nat -> nat -> rgba) (las_file_path : string) :
  match laspy_read las_file_path with
  | Ok las =>
      exists fig : figure,
        Scripts.golabel_script laspy_read get_cmap las_file_path
        = (Ok tt,
           {| self := {| GoLabelVariant.file_path := las_file_path;
                         GoLabelVariant.point_cloud := Some (map row_of (las_points las));
                         GoLabelVariant.point_classes := Some (las_classification las) |};
              log := [PioShow fig] |}) /\
        length (data fig) = length (np.unique (las_classification las)) /\
        (data fig = [] <-> las_points las = [])
  | Raise e =>
      Scripts.golabel_script laspy_read get_cmap las_file_path
      = (Raise e, {| self := GoLabelVariant.init las_file_path; log := [] |})
  end.
Proof.
  unfold Scripts.golabel_script.
  destruct (laspy_read las_file_path) as [las | e] eqn:E.
  - eexists. split; [| split].
    + rewrite (bind_ok _ _ _ _ _
                 (golabel_load_ok laspy_read
                    {| self := GoLabelVariant.init las_file_path; log := [] |} las E)).
      rewrite (golabel_visualize_run get_cmap _ (las_points las)) by reflexivity.
      reflexivity.
    + cbn [data]. by rewrite length_fmap.
    + cbn [data]. unfold las_classification.
      change (map pclass (las_points las)) with (pclass <$> las_points las).
      split.
      * intros H. apply fmap_nil_inv in H. apply (proj1 (unique_nil_iff _)) in H.
        by apply fmap_nil_inv in H.
      * by intros ->.
  - rewrite (bind_raise _ _ _ _ _
               (golabel_load_fails laspy_read
                  {| self := GoLabelVariant.init las_file_path; log := [] |} e E)).
    reflexivity.
Qed.

(** ** train_svm: when the fit is refused, when it returns, and symmetry *)

Lemma train_svm_loaded
    (svc_solver : string -> np.array2 -> list Z -> svm_model)
    (h : heap SvmPlaneVariant.PointCloudVisualizer)
    (pc : list (list Q)) (classes : list Z) (class_a class_b : Z) :
  SvmPlaneVariant.point_cloud (self h) = Some pc ->
  SvmPlaneVariant.point_classes (self h) = Some classes ->
  length pc = length classes ->
  let sel := selected_points pc classes class_a class_b in
  SvmPlaneVariant.train_svm svc_solver class_a class_b h =
  (svm <- SvmPlaneVariant.svc_fit svc_solver "linear" sel.*1
            (training_label class_a <$> sel.*2) ;;
   w <- lift (getitem (coef_ svm) 0) ;;
   abc <- lift (unpack3 w) ;;
   d <- lift (getitem (intercept_ svm) 0) ;;
   ret (abc.1.1, abc.1.2, abc.2, d)) h.
Proof.
  intros Hpc Hcl Hlen sel.
  destruct (select_selected pc classes class_a class_b Hlen) as [S1 S2].
  assert (M1 : np.mask_index pc (np.isin classes [class_a; class_b]) = Ok sel.*1).
  { unfold np.mask_index. by rewrite length_isin, Hlen, Nat.eqb_refl, S1. }
  assert (M2 : np.mask_index classes (np.isin classes [class_a; class_b]) = Ok sel.*2).
  { unfold np.mask_index. by rewrite length_isin, Nat.eqb_refl, S2. }
  unfold SvmPlaneVariant.train_svm.
  unfold bind at 1. unfold get_self at 1. cbv beta iota. rewrite Hpc, Hcl.
  rewrite (bind_lift_ok _ _ _ _ M1), (bind_lift_ok _ _ _ _ M2).
  by rewrite where3_training_labels.
Qed.

Lemma svc_fit_logs_call
    (svc_solver : string -> np.array2 -> list Z -> svm_model)
    kernel X y (h : heap SvmPlaneVariant.PointCloudVisualizer) :
  (SvmPlaneVariant.svc_fit svc_solver kernel X y h).2
  = {| self := self h; log := log h ++ [SvcFit kernel X y] |}.
Proof.
  unfold SvmPlaneVariant.svc_fit, bind, emit, raise, ret.
  repeat match goal with |- context [if ?b then _ else _] => destruct b end;
    reflexivity.
Qed.

Lemma elem_of_selected_labels (pc : list (list Q)) (classes : list Z) class_a class_b c :
  c ∈ (selected_points pc classes class_a class_b).*2 ->
  (c = class_a \/ c = class_b) /\ c ∈ classes.
Proof.
  intros Hc. apply list_elem_of_fmap in Hc as ([p c'] & -> & Hin).
  apply list_elem_of_filter in Hin as [Hab Hin]. split; [exact Hab |].
  by apply elem_of_zip_r in Hin.
Qed.

Lemma constant_NoDup_short (l : list Z) (v : Z) :
  (forall x, x ∈ l -> x = v) -> NoDup l -> (length l < 2)%nat.
Proof.
  intros Hall Hnd. destruct l as [|x1 [|x2 l]]; simpl; [lia | lia |].
  exfalso. apply NoDup_cons in Hnd as [Hx1 _]. apply Hx1.
  rewrite (Hall x1), <- (Hall x2); [left | right; left | left].
Qed.

Lemma svc_fit_refuses_one_class
    (svc_solver : string -> np.array2 -> list Z -> svm_model)
    kernel X y (v : Z) (h : heap SvmPlaneVariant.PointCloudVisualizer) :
  (forall l, l ∈ y -> l = v) ->
  raises (SvmPlaneVariant.svc_fit svc_solver kernel X y h).1 ValueError.
Proof.
  intros Hall. unfold SvmPlaneVariant.svc_fit, bind, emit, raise, ret. cbn [fst snd].
  destruct (Nat.eqb (length X) 0); [by eexists |].
  destruct (negb (Nat.eqb (length X) (length y))); [by eexists |].
  destruct (Nat.ltb_spec (length (np.unique y)) 2) as [_ | Hge]; [by eexists |].
  exfalso. pose proof (constant_NoDup_short (np.unique y) v) as Hs.
  assert ((length (np.unique y) < 2)%nat); [| lia].
  apply Hs; [| apply unique_NoDup]. intros x Hx. apply Hall. by apply elem_of_unique.
Qed.

Lemma train_svm_refused
    (svc_solver : string -> np.array2 -> list Z -> svm_model)
    (h : heap SvmPlaneVariant.PointCloudVisualizer)
    (pc : list (list Q)) (classes : list Z) (class_a class_b : Z) :
  SvmPlaneVariant.point_cloud (self h) = Some pc ->
  SvmPlaneVariant.point_classes (self h) = Some classes ->
  length pc = length classes ->
  class_a = class_b \/ class_a ∉ classes \/ class_b ∉ classes ->
  raises (SvmPlaneVariant.train_svm svc_solver class_a class_b h).1 ValueError.
Proof.
  intros Hpc Hcl Hlen Hcase.
  rewrite (train_svm_loaded svc_solver h pc classes class_a class_b Hpc Hcl Hlen).
  set (sel := selected_points pc classes class_a class_b).
  assert (Hconst : exists v, forall l, l ∈ training_label class_a <$> sel.*2 -> l = v).
  { destruct (decide (class_a ∈ classes)) as [Ha | Ha].
    - exists 0. intros l Hl. apply list_elem_of_fmap in Hl as (c & -> & Hc).
      apply elem_of_selected_labels in Hc as [Hab Hc].
      unfold training_label. rewrite bool_decide_eq_true_2; [done |].
      destruct Hcase as [-> | [Hna | Hnb]]; [tauto | done |].
      destruct Hab as [-> | ->]; [done | contradiction].
    - exists 1. intros l Hl. apply list_elem_of_fmap in Hl as (c & -> & Hc).
      apply elem_of_selected_labels in Hc as [Hab Hc].
      unfold training_label. rewrite bool_decide_eq_false_2; [done |].
      intros ->. contradiction. }
  destruct Hconst as [v Hv].
  destruct (svc_fit_refuses_one_class svc_solver "linear" sel.*1
              (training_label class_a <$> sel.*2) v h Hv) as [msg Hr].
  exists msg. unfold bind at 1.
  destruct (SvmPlaneVariant.svc_fit svc_solver "linear" sel.*1
              (training_label class_a <$> sel.*2) h) as [o h']; simpl in *.
  by rewrite Hr.
Qed.

(** [train_svm] needs two different classes that both occur: when the two
    class arguments are equal, or one of them is the label of no point, the
    fit is called, refuses its input with a [ValueError], and no plane comes
    back. *)
Theorem train_svm_needs_both_classes
    (svc_solver : string -> np.array2 -> list Z -> svm_model)
    (h : heap SvmPlaneVariant.PointCloudVisualizer)
    (pc : list (list Q)) (classes : list Z) (class_a class_b : Z) :
  SvmPlaneVariant.point_cloud (self h) = Some pc ->
  SvmPlaneVariant.point_classes (self h) = Some classes ->
  length pc = length classes ->
  class_a = class_b \/ class_a ∉ classes \/ class_b ∉ classes ->
  raises (SvmPlaneVariant.train_svm svc_solver class_a class_b h).1 ValueError.
Proof. apply train_svm_refused. Qed.

Lemma train_svm_needs_both_classes_witness :
  raises (SvmPlaneVariant.train_svm sample_solver 1 5 sample_heap).1 ValueError.
Proof.
  apply (train_svm_needs_both_classes sample_solver sample_heap
           (map row_of sample_points) (map pclass sample_points) 1 5);
    [reflexivity | reflexivity | reflexivity |].
  right. right. intros H. repeat (apply elem_of_cons in H as [H | H]; [discriminate |]).
  by apply elem_of_nil in H.
Defined.

Lemma train_svm_run
    (svc_solver : string -> np.array2 -> list Z -> svm_model)
    (h : heap SvmPlaneVariant.PointCloudVisualizer)
    (pc : list (list Q)) (classes : list Z) (class_a class_b : Z)
    (a b c d : float) (w_rest : list (list float)) (i_rest : list float) :
  SvmPlaneVariant.point_cloud (self h) = Some pc ->
  SvmPlaneVariant.point_classes (self h) = Some classes ->
  length pc = length classes ->
  class_a <> class_b -> class_a ∈ classes -> class_b ∈ classes ->
  let sel := selected_points pc classes class_a class_b in
  let X := sel.*1 in
  let y := training_label class_a <$> sel.*2 in
  coef_ (svc_solver "linear" X y) = [a; b; c] :: w_rest ->
  intercept_ (svc_solver "linear" X y) = d :: i_rest ->
  SvmPlaneVariant.train_svm svc_solver class_a class_b h
  = (Ok (a, b, c, d),
     {| self := self h; log := log h ++ [SvcFit "linear" X y] |}).
Proof.
  intros Hpc Hcl Hlen Hab Ha Hb sel X y Hw Hi.
  rewrite (train_svm_loaded svc_solver h pc classes class_a class_b Hpc Hcl Hlen).
  pose proof (svc_fit_accepts_two_classes svc_solver h pc classes class_a class_b
                Hlen Hab Ha Hb) as Hfit.
  pose proof (svc_fit_logs_call svc_solver "linear" X y h) as Hlog.
  cbv zeta in Hfit. fold sel X y in Hfit |- *.
  destruct (SvmPlaneVariant.svc_fit svc_solver "linear" X y h) as [o h'] eqn:E.
  simpl in Hfit, Hlog. subst o h'.
  rewrite (bind_ok _ _ _ _ _ E).
  unfold bind, lift, ret. rewrite Hw, Hi. reflexivity.
Qed.

(** When the two classes differ and both occur, the input passes the checks
    of the fit, and [train_svm] returns the first coefficient vector and
    intercept of the solver's classifier, having logged the one fit. *)
Theorem train_svm_returns_solver_plane
    (svc_solver : string -> np.array2 -> list Z -> svm_model)
    (h : heap SvmPlaneVariant.PointCloudVisualizer)
    (pc : list (list Q)) (classes : list Z) (class_a class_b : Z)
    (a b c d : float) (w_rest : list (list float)) (i_rest : list float) :
  SvmPlaneVariant.point_cloud (self h) = Some pc ->
  SvmPlaneVariant.point_classes (self h) = Some classes ->
  length pc = length classes ->
  class_a <> class_b -> class_a ∈ classes -> class_b ∈ classes ->
  let sel := selected_points pc classes class_a class_b in
  let X := sel.*1 in
  let y := training_label class_a <$> sel.*2 in
  coef_ (svc_solver "linear" X y) = [a; b; c] :: w_rest ->
  intercept_ (svc_solver "linear" X y) = d :: i_rest ->
  SvmPlaneVariant.train_svm svc_solver class_a class_b h
  = (Ok (a, b, c, d),
     {| self := self h; log := log h ++ [SvcFit "linear" X y] |}).
Proof. apply train_svm_run. Qed.

Lemma train_svm_returns_solver_plane_witness :
  let sel := selected_points (map row_of sample_points) (map pclass sample_points) 1 2 in
  let X := sel.*1 in
  let y := training_label 1 <$> sel.*2 in
  SvmPlaneVariant.train_svm sample_solver 1 2 sample_heap
  = (Ok (1, 2, 4, 3)%float,
     {| self := self sample_heap; log := log sample_heap ++ [SvcFit "linear" X y] |}).
Proof.
  apply (train_svm_returns_solver_plane sample_solver sample_heap
           (map row_of sample_points) (map pclass sample_points) 1 2
           1%float 2%float 4%float 3%float [] []); try reflexivity.
  - discriminate.
  - left.
  - right. left.
Defined.

Lemma train_svm_state
    (svc_solver : string -> np.array2 -> list Z -> svm_model)
    (h : heap SvmPlaneVariant.PointCloudVisualizer)
    (pc : list (list Q)) (classes : list Z) (class_a class_b : Z) :
  SvmPlaneVariant.point_cloud (self h) = Some pc ->
  SvmPlaneVariant.point_classes (self h) = Some classes ->
  length pc = length classes ->
  let sel := selected_points pc classes class_a class_b in
  (SvmPlaneVariant.train_svm svc_solver class_a class_b h).2
  = {| self := self h;
       log := log h ++ [SvcFit "linear" sel.*1 (training_label class_a <$> sel.*2)] |}.
Proof.
  intros Hpc Hcl Hlen sel.
  rewrite (train_svm_loaded svc_solver h pc classes class_a class_b Hpc Hcl Hlen).
  fold sel. rewrite <- svc_fit_logs_call with (svc_solver := svc_solver).
  unfold bind at 1.
  destruct (SvmPlaneVariant.svc_fit svc_solver "linear" sel.*1
              (training_label class_a <$> sel.*2) h) as [[svm | e] h']; [| done].
  unfold bind, lift, ret.
  destruct (getitem (coef_ svm) 0); [| done].
  destruct (unpack3 _); [| done].
  destruct (getitem (intercept_ svm) 0); done.
Qed.

(** Swapping the two class arguments keeps the sample of the fit and swaps
    its labels: what is 0 for (class_a, class_b) is 1 for (class_b, class_a)
    and the reverse. *)
Theorem train_svm_swapped_classes
    (svc_solver : string -> np.array2 -> list Z -> svm_model)
    (h : heap SvmPlaneVariant.PointCloudVisualizer)
    (pc : list (list Q)) (classes : list Z) (class_a class_b : Z) :
  SvmPlaneVariant.point_cloud (self h) = Some pc ->
  SvmPlaneVariant.point_classes (self h) = Some classes ->
  length pc = length classes ->
  class_a <> class_b ->
  exists (X : list (list Q)) (y : list Z),
    log (SvmPlaneVariant.train_svm svc_solver class_a class_b h).2
      = (log h ++ [SvcFit "linear" X y])%list /\
    log (SvmPlaneVariant.train_svm svc_solver class_b class_a h).2
      = (log h ++ [SvcFit "linear" X ((fun l => 1 - l) <$> y)])%list.
Proof.
  intros Hpc Hcl Hlen Hab.
  exists (selected_points pc classes class_a class_b).*1,
         (training_label class_a <$> (selected_points pc classes class_a class_b).*2).
  rewrite !(train_svm_state svc_solver h pc classes) by done. cbn [log].
  split; [reflexivity |].
  assert (Hsel : selected_points pc classes class_b class_a
                 = selected_points pc classes class_a class_b).
  { unfold selected_points. apply list_filter_iff. intros x. tauto. }
  rewrite Hsel.
  assert (Hy : training_label class_b <$> (selected_points pc classes class_a class_b).*2
               = (fun l => 1 - l)
                   <$> (training_label class_a
                          <$> (selected_points pc classes class_a class_b).*2));
    [| by rewrite Hy].
  assert (Hall : forall c, c ∈ (selected_points pc classes class_a class_b).*2 ->
                 c = class_a \/ c = class_b)
    by (intros c Hc; by apply elem_of_selected_labels in Hc as [? _]).
  revert Hall. generalize ((selected_points pc classes class_a class_b).*2).
  intros L Hall. rewrite <- list_fmap_compose.
  apply list_fmap_ext. intros i c Hi. simpl.
  assert (Hc : c ∈ L) by (apply list_elem_of_lookup; eauto).
  apply Hall in Hc as [-> | ->]; unfold training_label.
  - rewrite (bool_decide_eq_true_2 (class_a = class_a)) by done.
    by rewrite bool_decide_eq_false_2.
  - rewrite (bool_decide_eq_true_2 (class_b = class_b)) by done.
    by rewrite bool_decide_eq_false_2 by done.
Qed.

Lemma train_svm_swapped_classes_witness :
  exists (X : list (list Q)) (y : list Z),
    log (SvmPlaneVariant.train_svm sample_solver 1 2 sample_heap).2
      = (log sample_heap ++ [SvcFit "linear" X y])%list /\
    log (SvmPlaneVariant.train_svm sample_solver 2 1 sample_heap).2
      = (log sample_heap ++ [SvcFit "linear" X ((fun l => 1 - l) <$> y)])%list.
Proof.
  apply (train_svm_swapped_classes sample_solver sample_heap
           (map row_of sample_points) (map pclass sample_points) 1 2);
    [reflexivity | reflexivity | reflexivity | discriminate].
Defined.

(** ** plot_plane: the corners of the grid *)

Lemma is_finite_SF v : is_finite v = true -> sf_finite (Prim2SF v) = true.
Proof.
  unfold is_finite, is_nan, is_infinity.
  rewrite !FloatAxioms.eqb_spec, abs_spec.
  change (Prim2SF infinity) with (S754_infinity false).
  destruct (Prim2SF v) as [s | s | | s m e]; try reflexivity; try discriminate.
  rewrite orb_true_r. discriminate.
Qed.

Lemma SFeqb_refl x : x <> S754_nan -> SFeqb x x = true.
Proof.
  destruct x as [s | s | | s m e]; intros H; try done; unfold SFeqb; simpl.
  - by destruct s.
  - destruct s; rewrite Z.compare_refl, Pos.compare_cont_refl; reflexivity.
Qed.

(** [0 * s + start == start] for a finite [s] and a [start] other than
    nan. *)
Lemma SF_zero_mul_add s start :
  sf_finite s = true -> start <> S754_nan ->
  SFeqb (SFadd prec emax (SFmul prec emax (S754_zero false) s) start) start = true.
Proof.
  intros Hs Hn.
  destruct s as [sy | sy | | sy m e]; try discriminate; simpl;
    destruct start as [s' | s' | | s' m' e']; try done; simpl;
    repeat match goal with |- context [if ?b then _ else _] => destruct b end;
    try reflexivity; by apply SFeqb_refl.
Qed.

Lemma SF_div_finite_inv x y :
  sf_finite (SFdiv prec emax x y) = true -> sf_finite x = true.
Proof. destruct x, y; simpl; done. Qed.

Lemma SF_sub_finite_inv x y :
  sf_finite (SFsub prec emax x y) = true -> y <> S754_nan.
Proof. destruct x as [[]|[]| |], y as [[]|[]| |]; simpl; done. Qed.

(** When the step of a range is finite, so are the difference of its ends
    and its first end, and the first sample compares equal to that end. *)
Lemma first_sample_is_start (range : float * float) :
  is_finite ((range.2 - range.1) / 9) = true ->
  (sample_of_ten range 0 =? range.1)%float = true.
Proof.
  destruct range as [start stop]. cbn [fst snd].
  intros Hstep. apply is_finite_SF in Hstep.
  pose proof Hstep as Hdelta. rewrite div_spec in Hdelta.
  apply SF_div_finite_inv in Hdelta.
  pose proof Hdelta as Hstart. rewrite sub_spec in Hstart.
  apply SF_sub_finite_inv in Hstart.
  unfold sample_of_ten. cbn [fst snd Nat.eqb].
  change (np.f64_of_nat 0 / 9)%float with 0%float.
  change (np.f64_of_nat 0) with 0%float.
  destruct ((stop - start) / 9 =? 0)%float;
    rewrite FloatAxioms.eqb_spec, add_spec, mul_spec;
    change (Prim2SF 0) with (S754_zero false);
    by apply SF_zero_mul_add.
Qed.

(** The grid of [plot_plane] spans the two ranges corner to corner.  Its
    last column of x is the second end of the x-range and its last row of y
    the second end of the y-range, exactly.  Its first column of x equals
    the first end of the x-range, and its first row of y the first end of
    the y-range, whenever the step of that range, [(stop - start) / 9], is
    finite; equal as float64 compares with [==], under which the two zeros
    are one value. *)
Theorem plot_plane_spans_the_ranges (a b c d : float) (x_range y_range : float * float)
    (h : heap SvmPlaneVariant.PointCloudVisualizer) (i j : nat) :
  (i < 10)%nat -> (j < 10)%nat ->
  exists xx yy zz,
    SvmPlaneVariant.plot_plane a b c d x_range y_range h = (Ok (xx, yy, zz), h) /\
    grid_at xx i 9 = Some x_range.2 /\
    grid_at yy 9 j = Some y_range.2 /\
    (is_finite ((x_range.2 - x_range.1) / 9) = true ->
     exists v, grid_at xx i 0 = Some v /\ (v =? x_range.1)%float = true) /\
    (is_finite ((y_range.2 - y_range.1) / 9) = true ->
     exists v, grid_at yy 0 j = Some v /\ (v =? y_range.1)%float = true).
Proof.
  intros Hi Hj.
  destruct (plot_plane_grids a b c d x_range y_range h)
    as (xx & yy & zz & Hrun & _ & _ & _ & Hat).
  exists xx, yy, zz. split; [exact Hrun |].
  split; [exact (proj1 (Hat i 9%nat Hi ltac:(lia))) |].
  split; [exact (proj1 (proj2 (Hat 9%nat j ltac:(lia) Hj))) |].
  split; intros Hstep.
  - exists (sample_of_ten x_range 0).
    split; [exact (proj1 (Hat i 0%nat Hi ltac:(lia))) |].
    by apply first_sample_is_start.
  - exists (sample_of_ten y_range 0).
    split; [exact (proj1 (proj2 (Hat 0%nat j ltac:(lia) Hj))) |].
    by apply first_sample_is_start.
Qed.

Lemma plot_plane_spans_the_ranges_witness :
  exists xx yy zz,
    SvmPlaneVariant.plot_plane 1 2 4 3 (0, 4)%float (0, 5)%float sample_heap
      = (Ok (xx, yy, zz), sample_heap) /\
    grid_at xx 3 9 = Some 4%float /\
    grid_at yy 9 2 = Some 5%float /\
    (is_finite ((4 - 0) / 9) = true ->
     exists v, grid_at xx 3 0 = Some v /\ (v =? 0)%float = true) /\
    (is_finite ((5 - 0) / 9) = true ->
     exists v, grid_at yy 0 2 = Some v /\ (v =? 0)%float = true).
Proof.
  apply (plot_plane_spans_the_ranges 1 2 4 3 (0, 4)%float (0, 5)%float
           sample_heap 3 2); lia.
Defined.

(** Where the difference of the two ends overflows, the step is infinite
    and the first column is nan. *)
Example plot_plane_first_column_on_overflow :
  exists xx yy zz,
    (SvmPlaneVariant.plot_plane 1 2 4 3 (- 0x1p+1023, 0x1p+1023)%float (0, 5)%float
       sample_heap).1 = Ok (xx, yy, zz) /\
    is_finite ((0x1p+1023 - - 0x1p+1023) / 9) = false /\
    grid_at xx 0 0 = Some nan.
Proof. do 3 eexists. split; [reflexivity |]. split; reflexivity. Qed.

(** ** What visualize writes to the log *)

Section Logs.
Context {Self : Type} (P : event -> Prop).

Lemma logs_only_silent {A} (m : M Self A) :
  (forall h, log (m h).2 = log h) -> logs_only P m.
Proof. intros Hm h. exists []. rewrite app_nil_r. split; [apply Hm | constructor]. Qed.

Lemma logs_only_ret {A} (a : A) : logs_only (Self := Self) P (ret a).
Proof. by apply logs_only_silent. Qed.

Lemma logs_only_raise {A} c msg : logs_only (Self := Self) P (raise (A := A) c msg).
Proof. by apply logs_only_silent. Qed.

Lemma logs_only_lift {A} (o : outcome A) : logs_only (Self := Self) P (lift o).
Proof. by apply logs_only_silent. Qed.

Lemma logs_only_get_self : logs_only (Self := Self) P get_self.
Proof. by apply logs_only_silent. Qed.

Lemma logs_only_emit ev : P ev -> logs_only (Self := Self) P (emit ev).
Proof. intros Hev h. exists [ev]. split; [reflexivity | by repeat constructor]. Qed.

Lemma logs_only_bind {A B} (m : M Self A) (k : A -> M Self B) :
  logs_only P m -> (forall a, logs_only P (k a)) -> logs_only P (bind m k).
Proof.
  intros Hm Hk h. unfold bind. destruct (Hm h) as (evs & E & Hevs).
  destruct (m h) as [[a | e] h1]; simpl in *.
  - destruct (Hk a h1) as (evs' & E' & Hevs').
    exists (evs ++ evs')%list. rewrite E', E, app_assoc. split; [done |].
    by apply Forall_app.
  - by exists evs.
Qed.

Lemma logs_only_for_each {A B} (l : list A) (body : A -> B -> M Self B) acc :
  (forall a b, logs_only P (body a b)) -> logs_only P (for_each l body acc).
Proof.
  intros Hbody. revert acc. induction l as [|a l IH]; intros acc; simpl.
  - apply logs_only_ret.
  - apply logs_only_bind; [apply Hbody | exact IH].
Qed.

End Logs.

Section ShowsOnReturn.
Context {Self : Type}.

Lemma shows_on_return_raise {A} c msg :
  shows_on_return (Self := Self) (raise (A := A) c msg).
Proof. intros h. exists []. rewrite app_nil_r. split; [done | constructor]. Qed.

Lemma shows_on_return_show fig : shows_on_return (Self := Self) (emit (PioShow fig)).
Proof.
  intros h. exists [PioShow fig]. split; [done |].
  exists [], fig. split; [done | constructor].
Qed.

Lemma shows_on_return_bind {A B} (m : M Self A) (k : A -> M Self B) :
  logs_only is_fit m -> (forall a, shows_on_return (k a)) ->
  shows_on_return (bind m k).
Proof.
  intros Hm Hk h. unfold bind. destruct (Hm h) as (evs & E & Hevs).
  destruct (m h) as [[a | e] h1]; simpl in *.
  - destruct (Hk a h1) as (evs' & E' & Hres).
    exists (evs ++ evs')%list. rewrite E', E, app_assoc. split; [done |].
    destruct (k a h1).1.
    + destruct Hres as (fits & fig & -> & Hfits).
      exists (evs ++ fits)%list, fig. rewrite app_assoc. split; [done |].
      by apply Forall_app.
    + by apply Forall_app.
  - by exists evs.
Qed.

End ShowsOnReturn.

Section VisualizeLog.
Variable get_cmap : string -> nat -> nat -> rgba.
Variable svc_solver : string -> np.array2 -> list Z -> svm_model.

Ltac log_step :=
  first
    [ apply logs_only_bind; [| intros ?]
    | apply logs_only_ret
    | apply logs_only_raise
    | apply logs_only_lift
    | apply logs_only_get_self
    | apply logs_only_emit; exact I
    | apply logs_only_for_each; intros ? ?
    | match goal with
      | |- logs_only _ (match ?x with _ => _ end) => destruct x
      | |- logs_only _ (if ?b then _ else _) => destruct b
      end ].

Lemma class_trace_logs_nothing {Self : Type} pc classes m cls fig :
  logs_only (Self := Self) is_fit (class_trace pc classes m cls fig).
Proof. unfold class_trace. repeat log_step. Qed.

Lemma add_plane_logs_fits class_a class_b x_range y_range colorscale name fig :
  logs_only is_fit
    (SvmPlaneVariant.add_plane svc_solver class_a class_b x_range y_range
       colorscale name fig).
Proof.
  unfold SvmPlaneVariant.add_plane, SvmPlaneVariant.train_svm,
    SvmPlaneVariant.svc_fit, SvmPlaneVariant.plot_plane.
  repeat log_step.
Qed.

(** In both Plotly variants [visualize] shows a figure exactly when it
    returns, and showing it is the last thing it does: a run that raises has
    shown nothing.  Before that, the only calls it logs are the fits of the
    SVM variant. *)
Theorem visualize_shows_on_return :
  shows_on_return (GoLabelVariant.visualize get_cmap) /\
  shows_on_return (SvmPlaneVariant.visualize get_cmap svc_solver).
Proof.
  split.
  - unfold GoLabelVariant.visualize.
    apply shows_on_return_bind; [apply logs_only_get_self | intros s].
    destruct (GoLabelVariant.point_cloud s); [| apply shows_on_return_raise].
    destruct (GoLabelVariant.point_classes s); [| apply shows_on_return_raise].
    apply shows_on_return_bind;
      [unfold GoLabelVariant.get_color_map; repeat log_step | intros m].
    apply shows_on_return_bind;
      [apply logs_only_for_each; intros ? ?; apply class_trace_logs_nothing | intros fig].
    apply shows_on_return_show.
  - unfold SvmPlaneVariant.visualize.
    apply shows_on_return_bind; [apply logs_only_get_self | intros s].
    destruct (SvmPlaneVariant.point_cloud s); [| apply shows_on_return_raise].
    destruct (SvmPlaneVariant.point_classes s); [| apply shows_on_return_raise].
    apply shows_on_return_bind;
      [unfold SvmPlaneVariant.get_color_map; repeat log_step | intros m].
    apply shows_on_return_bind;
      [apply logs_only_for_each; intros ? ?; apply class_trace_logs_nothing | intros fig].
    apply shows_on_return_bind;
      [unfold SvmPlaneVariant.axis_range; repeat log_step | intros xr].
    apply shows_on_return_bind;
      [unfold SvmPlaneVariant.axis_range; repeat log_step | intros yr].
    apply shows_on_return_bind; [apply add_plane_logs_fits | intros fig1].
    apply shows_on_return_bind; [apply add_plane_logs_fits | intros fig2].
    apply shows_on_return_show.
Qed.

End VisualizeLog.

(** ** The script with the two SVM planes *)

Section SvmScript.
Variable laspy_read : string -> outcome las_data.
Variable get_cmap : string -> nat -> nat -> rgba.
Variable svc_solver : string -> np.array2 -> list Z -> svm_model.

Lemma svmplane_get_color_map_run (h : heap SvmPlaneVariant.PointCloudVisualizer) classes :
  SvmPlaneVariant.point_classes (self h) = Some classes ->
  SvmPlaneVariant.get_color_map get_cmap h
  = (Ok (dict_of (color_items (get_cmap "tab20" (length (unique_labels (Some classes))))
                    (unique_labels (Some classes)))), h).
Proof.
  intros Hcl. unfold SvmPlaneVariant.get_color_map, bind, get_self, ret. by rewrite Hcl.
Qed.

Lemma svmplane_visualize_empty (h : heap SvmPlaneVariant.PointCloudVisualizer) :
  SvmPlaneVariant.point_cloud (self h) = Some [] ->
  SvmPlaneVariant.point_classes (self h) = Some [] ->
  raises (SvmPlaneVariant.visualize get_cmap svc_solver h).1 ValueError /\
  (SvmPlaneVariant.visualize get_cmap svc_solver h).2 = h.
Proof.
  intros Hpc Hcl.
  assert (E : exists msg, SvmPlaneVariant.visualize get_cmap svc_solver h
                          = (Raise {| exc_type := ValueError; exc_str := msg |}, h)).
  { eexists. unfold SvmPlaneVariant.visualize.
    unfold bind at 1. unfold get_self at 1. cbv beta iota. rewrite Hpc, Hcl.
    rewrite (bind_ok _ _ _ _ _ (svmplane_get_color_map_run h [] Hcl)).
    reflexivity. }
  destruct E as [msg ->]. split; [by exists msg | reflexivity].
Qed.

Lemma svmplane_visualize_loaded (h : heap SvmPlaneVariant.PointCloudVisualizer)
    (pts : list las_point) :
  SvmPlaneVariant.point_cloud (self h) = Some (map row_of pts) ->
  SvmPlaneVariant.point_classes (self h) = Some (map pclass pts) ->
  pts <> [] ->
  exists (colour : Z -> string) (x_range y_range : Q * Q),
    is_min_max (px <$> pts) x_range /\ is_min_max (py <$> pts) y_range /\
    SvmPlaneVariant.visualize get_cmap svc_solver h
    = (fig <- SvmPlaneVariant.add_plane svc_solver 1 2 x_range y_range "Viridis"
                "Plane 1: Class 1 vs Class 2"
                {| data := class_scatter pts colour <$> np.unique (map pclass pts);
                   fig_layout := None |} ;;
       fig <- SvmPlaneVariant.add_plane svc_solver 1 3 x_range y_range "Cividis"
                "Plane 2: Class 1 vs Class 3" fig ;;
       emit (PioShow (update_layout fig view_3d))) h.
Proof.
  intros Hpc Hcl Hne.
  assert (Hx : px <$> pts <> []) by (destruct pts; done).
  assert (Hy : py <$> pts <> []) by (destruct pts; done).
  destruct (np_min_max_nonempty _ Hx) as (xlo & xhi & X1 & X2 & Hxr).
  destruct (np_min_max_nonempty _ Hy) as (ylo & yhi & Y1 & Y2 & Hyr).
  destruct (axis_range_of_rows pts h (xlo, xhi) (ylo, yhi) X1 X2 Y1 Y2) as [Ax Ay].
  eexists _, (xlo, xhi), (ylo, yhi). split; [exact Hxr |]. split; [exact Hyr |].
  unfold SvmPlaneVariant.visualize.
  unfold bind at 1. unfold get_self at 1. cbv beta iota. rewrite Hpc, Hcl.
  rewrite (bind_ok _ _ _ _ _ (svmplane_get_color_map_run h _ Hcl)).
  rewrite (bind_ok _ _ _ _ _
             (for_each_class_trace pts _ (np.unique (map pclass pts)) go_Figure h
                (fun cls Hc => color_map_has_labels _ _ cls Hc))).
  rewrite (bind_ok _ _ _ _ _ Ax), (bind_ok _ _ _ _ _ Ay).
  reflexivity.
Qed.

Lemma add_plane_run class_a class_b x_range y_range colorscale name fig
    (h h' : heap SvmPlaneVariant.PointCloudVisualizer) (a b c d : float) :
  SvmPlaneVariant.train_svm svc_solver class_a class_b h = (Ok (a, b, c, d), h') ->
  exists xx yy zz,
    (forall h0, SvmPlaneVariant.plot_plane a b c d
                  (f64_range x_range) (f64_range y_range) h0
                = (Ok (xx, yy, zz), h0)) /\
    SvmPlaneVariant.add_plane svc_solver class_a class_b x_range y_range
      colorscale name fig h
    = (Ok (add_trace fig (Surface xx yy zz (1 # 2) colorscale false name)), h').
Proof.
  intros Ht. do 3 eexists. split; [intros h0; reflexivity |].
  unfold SvmPlaneVariant.add_plane. rewrite (bind_ok _ _ _ _ _ Ht). reflexivity.
Qed.

Lemma add_plane_refused class_a class_b x_range y_range colorscale name fig
    (h : heap SvmPlaneVariant.PointCloudVisualizer) :
  raises (SvmPlaneVariant.train_svm svc_solver class_a class_b h).1 ValueError ->
  raises (SvmPlaneVariant.add_plane svc_solver class_a class_b x_range y_range
            colorscale name fig h).1 ValueError /\
  (SvmPlaneVariant.add_plane svc_solver class_a class_b x_range y_range
     colorscale name fig h).2
  = (SvmPlaneVariant.train_svm svc_solver class_a class_b h).2.
Proof.
  intros [msg Hr]. unfold SvmPlaneVariant.add_plane, bind.
  destruct (SvmPlaneVariant.train_svm svc_solver class_a class_b h) as [o h'].
  simpl in Hr. subst o. split; [by exists msg | reflexivity].
Qed.

End SvmScript.



(** When the file is read but has no point of class 1 or none of class 2
    (an empty file is such a file), the script ends with a [ValueError] and
    shows nothing.  What it has done by then is known exactly: the two
    arrays are stored; an empty cloud has failed in [np.min], before any
    fit; any other cloud has failed in the first fit, called once on the
    points of the classes 1 and 2, and nothing else has been logged. *)
Theorem svmplane_script_needs_classes_1_and_2
    (laspy_read : string -> outcome las_data)
    (get_cmap : string -> nat -> nat -> rgba)
    (svc_solver : string -> np.array2 -> list Z -> svm_model)
    (las_file_path : string) (las : las_data) :
  laspy_read las_file_path = Ok las ->
  1 ∉ las_classification las \/ 2 ∉ las_classification las ->
  let pc := map row_of (las_points las) in
  let classes := las_classification las in
  let X12 := (selected_points pc classes 1 2).*1 in
  let y12 := training_label 1 <$> (selected_points pc classes 1 2).*2 in
  let r := Scripts.svmplane_script laspy_read get_cmap svc_solver las_file_path in
  raises r.1 ValueError /\
  self r.2 = {| SvmPlaneVariant.file_path := las_file_path;
                SvmPlaneVariant.point_cloud := Some pc;
                SvmPlaneVariant.point_classes := Some classes |} /\
  log r.2 = match las_points las with
            | [] => []
            | _ :: _ => [SvcFit "linear" X12 y12]
            end.
Proof.
  intros Hread Hmiss. cbv zeta. unfold Scripts.svmplane_script.
  rewrite (bind_ok _ _ _ _ _
             (svmplane_load_ok laspy_read
                {| self := SvmPlaneVariant.init las_file_path; log := [] |} las Hread)).
  cbn [self log SvmPlaneVariant.file_path SvmPlaneVariant.init].
  set (h1 := {| self := _; log := [] |}).
  assert (Hcase : las_points las = [] \/ las_points las <> [])
    by (destruct (las_points las); [by left | by right]).
  destruct Hcase as [Hp | Hne].
  - assert (Hpc : SvmPlaneVariant.point_cloud (self h1) = Some [])
      by (unfold h1; simpl; by rewrite Hp).
    assert (Hcl : SvmPlaneVariant.point_classes (self h1) = Some [])
      by (unfold h1, las_classification; simpl; by rewrite Hp).
    destruct (svmplane_visualize_empty get_cmap svc_solver h1 Hpc Hcl) as [Hr ->].
    split; [exact Hr |]. split; [reflexivity |]. by rewrite Hp.
  - assert (Hlen : length (map row_of (las_points las))
                   = length (las_classification las))
      by (unfold las_classification; by rewrite !length_map).
    assert (Hlog : forall (A : Type) (x y : A),
               match las_points las with [] => x | _ :: _ => y end = y)
      by (intros A x y; by destruct (las_points las)).
    rewrite Hlog.
    destruct (svmplane_visualize_loaded get_cmap svc_solver h1 (las_points las)
                eq_refl eq_refl Hne)
      as (colour & xr & yr & _ & _ & ->).
    pose proof (train_svm_refused svc_solver h1 (map row_of (las_points las))
                  (las_classification las) 1 2 eq_refl eq_refl Hlen
                  (or_intror Hmiss)) as Hr.
    pose proof (train_svm_state svc_solver h1 (map row_of (las_points las))
                  (las_classification las) 1 2 eq_refl eq_refl Hlen) as Hs.
    destruct (add_plane_refused svc_solver 1 2 xr yr "Viridis"
                "Plane 1: Class 1 vs Class 2"
                {| data := class_scatter (las_points las) colour
                             <$> np.unique (map pclass (las_points las));
                   fig_layout := None |} h1 Hr) as [[msg Ha] Hb].
    rewrite Hs in Hb.
    destruct (SvmPlaneVariant.add_plane svc_solver 1 2 xr yr "Viridis"
                "Plane 1: Class 1 vs Class 2" _ h1) as [o h2] eqn:E.
    simpl in Ha, Hb. subst o h2. rewrite (bind_raise _ _ _ _ _ E).
    cbn [fst snd self log h1 app].
    split; [by exists msg |]. split; reflexivity.
Qed.

Lemma svmplane_script_needs_classes_1_and_2_witness :
  one_point_read "one.las" = Ok one_point_las /\
  let r := Scripts.svmplane_script one_point_read sample_cmap sample_solver "one.las" in
  raises r.1 ValueError /\
  self r.2 = {| SvmPlaneVariant.file_path := "one.las";
                SvmPlaneVariant.point_cloud := Some [[1; 2; 3]%Q];
                SvmPlaneVariant.point_classes := Some [1] |} /\
  log r.2 = [SvcFit "linear" [[1; 2; 3]%Q] [0]].
Proof.
  split; [reflexivity |].
  apply (svmplane_script_needs_classes_1_and_2 one_point_read sample_cmap sample_solver
           "one.las" one_point_las eq_refl).
  right. intros H. apply elem_of_cons in H as [H | H]; [discriminate |].
  by apply elem_of_nil in H.
Defined.

(** On a file without points the same script stops before any fit. *)
Example svmplane_script_on_empty_file :
  let r := Scripts.svmplane_script empty_read sample_cmap sample_solver "empty.las" in
  raises r.1 ValueError /\ log r.2 = [].
Proof. cbv zeta. split; [by eexists | reflexivity]. Qed.

(** When the classes 1 and 2 occur but class 3 does not, the first plane is
    fitted and the second fit is refused: the script ends with a
    [ValueError] after its two fits and shows nothing, the first plane
    included. *)
Theorem svmplane_script_needs_class_3
    (laspy_read : string -> outcome las_data)
    (get_cmap : string -> nat -> nat -> rgba)
    (svc_solver : string -> np.array2 -> list Z -> svm_model)
    (las_file_path : string) (las : las_data)
    (a1 b1 c1 d1 : float) (w1 : list (list float)) (i1 : list float) :
  let pc := map row_of (las_points las) in
  let classes := las_classification las in
  let X12 := (selected_points pc classes 1 2).*1 in
  let y12 := training_label 1 <$> (selected_points pc classes 1 2).*2 in
  let X13 := (selected_points pc classes 1 3).*1 in
  let y13 := training_label 1 <$> (selected_points pc classes 1 3).*2 in
  laspy_read las_file_path = Ok las ->
  1 ∈ classes -> 2 ∈ classes -> 3 ∉ classes ->
  coef_ (svc_solver "linear" X12 y12) = [a1; b1; c1] :: w1 ->
  intercept_ (svc_solver "linear" X12 y12) = d1 :: i1 ->
  let r := Scripts.svmplane_script laspy_read get_cmap svc_solver las_file_path in
  raises r.1 ValueError /\
  log r.2 = [SvcFit "linear" X12 y12; SvcFit "linear" X13 y13].
Proof.
  intros pc classes X12 y12 X13 y13 Hread H1 H2 H3 Hw1 Hi1. cbv zeta.
  assert (Hlen : length pc = length classes)
    by (unfold pc, classes, las_classification; by rewrite !length_map).
  assert (Hne : las_points las <> []).
  { intros E. unfold classes, las_classification in H1. rewrite E in H1.
    by apply elem_of_nil in H1. }
  unfold Scripts.svmplane_script.
  rewrite (bind_ok _ _ _ _ _
             (svmplane_load_ok laspy_read
                {| self := SvmPlaneVariant.init las_file_path; log := [] |} las Hread)).
  cbn [self log SvmPlaneVariant.file_path SvmPlaneVariant.init].
  set (h1 := {| self := _; log := [] |}).
  destruct (svmplane_visualize_loaded get_cmap svc_solver h1 (las_points las)
              eq_refl eq_refl Hne) as (colour & xr & yr & _ & _ & ->).
  pose proof (train_svm_run svc_solver h1 pc classes 1 2 a1 b1 c1 d1 w1 i1
                eq_refl eq_refl Hlen ltac:(discriminate) H1 H2 Hw1 Hi1) as T1.
  destruct (add_plane_run svc_solver 1 2 xr yr "Viridis" "Plane 1: Class 1 vs Class 2"
              {| data := class_scatter (las_points las) colour
                           <$> np.unique (map pclass (las_points las));
                 fig_layout := None |} h1 _ a1 b1 c1 d1 T1)
    as (xx1 & yy1 & zz1 & _ & A1).
  rewrite (bind_ok _ _ _ _ _ A1).
  set (h2 := {| self := self h1; log := log h1 ++ [SvcFit "linear" X12 y12] |}).
  pose proof (train_svm_refused svc_solver h2 pc classes 1 3 eq_refl eq_refl Hlen
                (or_intror (or_intror H3))) as Hr.
  pose proof (train_svm_state svc_solver h2 pc classes 1 3 eq_refl eq_refl Hlen) as Hs.
  match goal with |- context [SvmPlaneVariant.add_plane svc_solver 1 3 xr yr ?cs ?nm ?f] =>
    destruct (add_plane_refused svc_solver 1 3 xr yr cs nm f h2 Hr) as [[msg Ha] Hb];
    rewrite Hs in Hb;
    destruct (SvmPlaneVariant.add_plane svc_solver 1 3 xr yr cs nm f h2) as [o h3] eqn:E
  end.
  simpl in Ha, Hb. subst o h3. rewrite (bind_raise _ _ _ _ _ E).
  cbn [fst snd log h2 h1 app].
  split; [by exists msg | reflexivity].
Qed.

Lemma svmplane_script_needs_class_3_witness :
  let r := Scripts.svmplane_script two_class_read sample_cmap sample_solver "two.las" in
  raises r.1 ValueError /\
  log r.2 = [SvcFit "linear" [[0; 0; 0]; [1; 2; 3]]%Q [0; 1];
             SvcFit "linear" [[0; 0; 0]]%Q [0]].
Proof.
  apply (svmplane_script_needs_class_3 two_class_read sample_cmap sample_solver
           "two.las" two_class_las 1%float 2%float 4%float 3%float [] []);
    try reflexivity.
  - left.
  - right. left.
  - intros H. repeat (apply elem_of_cons in H as [H | H]; [discriminate |]).
    by apply elem_of_nil in H.
Defined.
